(** * PharmaFlow-AI: ingestion, cohort split, risk inference and validation

    A shallow embedding of the data pipeline of the PharmaFlow-AI front end:

    - [src/types.ts]                         the records and enumerations,
                                             and the handlers of [App];
    - [src/components/FileUpload.tsx]        [findColumnIndex], [processFile]
                                             and [loadSampleData];
    - [src/services/geminiService.ts]        [classifyPatientRisk] and
                                             [parseResearchIntent];
    - [src/components/AnalysisDashboard.tsx] [testSet], [validationMetrics],
                                             the risk buckets and the table;
    - [src/unnamed/part_000]                 the keywords of the admin panel;
    - [src/unnamed/part_001]                 the statistics, the preset and
                                             the recommended model of the
                                             cohort configurator;
    - [src/unnamed/part_002]                 [handleAnalyze].

    Conventions of the embedding.

    - A JavaScript [number] that holds a count, an index or a number of months
      is a [Z]; a [number] that holds a score or a ratio is a rational [Q],
      written with the decimal literals of the source.  Comparisons, [min],
      [max] and the arithmetic of scores are those of [Q]: the rounding of
      IEEE doubles is not modelled there.  Where the code takes the [floor]
      of a product ([splitIndex], and the ages, months, days and doctors of
      [FileUpload]), the rounding decides an integer, and the operations
      are those of binary64 ([binary64]): every operand and every result
      is rounded to the nearest double, ties to even.
    - A JavaScript [string] is a [string] of 8-bit characters; letter case
      and white space are those of ASCII.
    - An optional field ([riskScore?: number]) is an [option].
    - [Math.random()] reads an explicit random source [rnd : nat -> Q] at a
      counter that every draw increments ([Rand]).
    - An exception is the [Throw] completion ([Completion]); an [async]
      function that returns a rejected promise completes with [Throw].
    - [Array.prototype.sort] is left to the engine by ECMAScript: it is a
      member of the class [ArraySort], whose laws are the two facts every
      engine satisfies; insertion sort is given as an instance.
    - [classifyPatientRisk] has a value semantics, on lists of records, and
      a store semantics, on references to arrays and objects
      ([classifyPatientRisk_st]); the two are proved to agree. *)

From Stdlib Require Import ZArith QArith Qround Qminmax.
From Stdlib Require Import List String Ascii Bool Lia Permutation.
Import ListNotations.

Set Implicit Arguments.

(* ================================================================== *)
(** * Effects *)
(* ================================================================== *)

(** ** The random source *)

(** A computation that may call [Math.random()]: it receives the number of
    draws made so far and returns its result with the new count. *)
Definition Rand (A : Type) : Type := nat -> A * nat.

Definition ret {A : Type} (a : A) : Rand A := fun n => (a, n).

Definition bind {A B : Type} (m : Rand A) (k : A -> Rand B) : Rand B :=
  fun n => let (a, n') := m n in k a n'.

Notation "x <- m ;; k" := (bind m (fun x => k))
  (at level 61, m at next level, right associativity).

(** [Math.random()]: the next value of the source. *)
Definition Math_random (rnd : nat -> Q) : Rand Q := fun n => (rnd n, S n).

(** ** Completions *)

Inductive Completion (A : Type) : Type :=
| Normal (a : A)
| Throw.
Arguments Normal {A} a.
Arguments Throw {A}.

(** A computation that draws random numbers and may throw. *)
Definition Exec (A : Type) : Type := Rand (Completion A).

Definition retE {A : Type} (a : A) : Exec A := ret (Normal a).

Definition throwE {A : Type} : Exec A := ret Throw.

Definition liftE {A : Type} (m : Rand A) : Exec A := a <- m ;; retE a.

Definition bindE {A B : Type} (m : Exec A) (k : A -> Exec B) : Exec B :=
  c <- m ;;
  match c with
  | Normal a => k a
  | Throw => throwE
  end.

Notation "x <-! m ;; k" := (bindE m (fun x => k))
  (at level 61, m at next level, right associativity).

(** [try { body } catch (error) { handler }]. *)
Definition try_catch {A : Type} (body : Exec A) (handler : Exec A) : Exec A :=
  c <- body ;;
  match c with
  | Normal a => retE a
  | Throw => handler
  end.

(** ** Array operations of the engine *)

(** [Array.prototype.sort(comparefn)].  ECMAScript fixes neither the
    algorithm nor the sequence of calls of [comparefn]; what every engine
    guarantees is that the result holds the elements of the array, and that
    the algorithm sees the elements only through [comparefn]. *)
Class ArraySort : Type := {
  Array_sort : forall A : Type, (A -> A -> Rand Q) -> list A -> Rand (list A);
  Array_sort_permutation :
    forall (A : Type) (comparefn : A -> A -> Rand Q) (l : list A) (n : nat),
      Permutation (fst (Array_sort comparefn l n)) l;
  Array_sort_natural :
    forall (A B : Type) (f : A -> B)
           (cmpA : A -> A -> Rand Q) (cmpB : B -> B -> Rand Q),
      (forall a b n, cmpB (f a) (f b) n = cmpA a b n) ->
      forall (l : list A) (n : nat),
        Array_sort cmpB (map f l) n =
        (map f (fst (Array_sort cmpA l n)), snd (Array_sort cmpA l n))
}.

(** [array.map((p, index) => ...)] with a callback that may draw random
    numbers and may throw; [index] is the index of the head of [l]. *)
Fixpoint Array_map {A B : Type} (callback : A -> nat -> Exec B)
         (l : list A) (index : nat) : Exec (list B) :=
  match l with
  | [] => retE []
  | p :: rest =>
      b <-! callback p index ;;
      bs <-! Array_map callback rest (S index) ;;
      retE (b :: bs)
  end.

(** [R index a b] for the elements of two lists of the same length,
    [index] counting from [i]. *)
Inductive Forall2_from {A B : Type} (R : nat -> A -> B -> Prop)
  : nat -> list A -> list B -> Prop :=
| Forall2_from_nil : forall i, Forall2_from R i [] []
| Forall2_from_cons : forall i a b l l',
    R i a b -> Forall2_from R (S i) l l' ->
    Forall2_from R i (a :: l) (b :: l').

(** Insertion sort with an effectful comparator, one legal [sort]: an
    element moves behind the elements that follow it in the array for as
    long as [comparefn] is positive, so that elements that [comparefn]
    does not order keep the order of the array (the sort is stable). *)
Fixpoint insert_by {A : Type} (comparefn : A -> A -> Rand Q)
         (x : A) (l : list A) : Rand (list A) :=
  match l with
  | [] => ret [x]
  | y :: rest =>
      c <- comparefn x y ;;
      if Qlt_le_dec 0 c
      then (rest' <- insert_by comparefn x rest ;; ret (y :: rest'))
      else ret (x :: y :: rest)
  end.

Fixpoint insertion_sort {A : Type} (comparefn : A -> A -> Rand Q)
         (l : list A) : Rand (list A) :=
  match l with
  | [] => ret []
  | x :: rest =>
      sorted <- insertion_sort comparefn rest ;;
      insert_by comparefn x sorted
  end.

(* ================================================================== *)
(** * Numbers *)
(* ================================================================== *)

From Stdlib Require Import Qpower Qabs.

(** IEEE 754 binary64, the [number] of JavaScript, on the rationals: 53
    bits of precision, exponents from -1074, rounding to nearest with ties
    to even.  The exponent is not bounded above: a number that the format
    rounds to [Infinity] (from [2 ^ 1024]) is here a finite number of that
    size, which compares with an index as [Infinity] does. *)

(** [floor(log2 x)], for [x > 0]. *)
Definition ilog2 (x : Q) : Z :=
  let k := (Z.log2 (Qnum x) - Z.log2 (Z.pos (Qden x)))%Z in
  if Qle_bool (2 ^ k) x then k else (k - 1)%Z.

(** The integer nearest to [y]; a tie goes to the even one. *)
Definition roundEven (y : Q) : Z :=
  let f := Qfloor y in
  match Qcompare (y - inject_Z f) (1 # 2) with
  | Lt => f
  | Gt => (f + 1)%Z
  | Eq => if Z.even f then f else (f + 1)%Z
  end.

(** The double nearest to [x]: a multiple of [2 ^ e], where [e] leaves 53
    bits to the integer part of [x / 2 ^ e], and is at least -1074. *)
Definition binary64 (x : Q) : Q :=
  if Qeq_bool x 0 then 0
  else
    let e := Z.max (-1074) (ilog2 (Qabs x) - 52) in
    inject_Z (roundEven (x * 2 ^ (- e))) * 2 ^ e.

(** The largest double below 1, the largest value of [Math.random()]. *)
Definition maxRandom : Q := 1 - 2 ^ (-53).

(* ================================================================== *)
(** * src/types.ts *)
(* ================================================================== *)

Inductive RiskCategory : Type := High | Medium | Low.

Inductive Split : Type := TRAIN | TEST.

Record PatientProfile : Type := {
  id : string;
  age : Z;
  gender : string;
  diagnosisCode : string;
  currentTherapyLine : Z;
  monthsOnCurrentTherapy : Z;
  lastVisitDate : string;
  npiSpecialty : string;
  drugId : string;
  doctorName : string;
  npiId : string;
  riskScore : option Q;
  riskCategory : option RiskCategory;
  split : option Split;
  actualOutcome : option bool
}.

Record OntologyMapping : Type := {
  diseaseName : string;
  icdCodes : list string;
  cptCodes : list string;
  drugs : list string;
  targetLineTransition : string
}.

Inductive ModelType : Type := GENAI_REASONING | XGBOOST.

Inductive ImbalanceStrategy : Type := NONE | CLASS_WEIGHTS | SMOTE.

Record CohortConfig : Type := {
  lookbackMonths : Z;
  predictionWindowMonths : Z;
  minClaimsCount : Z;
  modelType : ModelType;
  imbalanceStrategy : ImbalanceStrategy;
  trainTestSplit : Q
}.

Record ColumnKeywords : Type := {
  kw_id : list string;
  kw_diagnosis : list string;
  kw_prescription : list string;
  kw_procedure : list string;
  kw_date : list string
}.

(** The admin defaults of [App] ([globalConfig.columnKeywords]). *)
Definition defaultColumnKeywords : ColumnKeywords := {|
  kw_id := ["patient"; "member"; "subject"; "bene"; "subscriber"; "mrn";
            "id"; "pid"; "pat"]%string;
  kw_diagnosis := ["diagnosis"; "dx"; "icd"; "diag"; "condition";
                   "problem"]%string;
  kw_prescription := ["drug"; "rx"; "ndc"; "medication"; "product";
                      "pharmacy"]%string;
  kw_procedure := ["cpt"; "hcpcs"; "procedure"; "proc"; "px"; "service";
                   "code"]%string;
  kw_date := ["date"; "dos"; "time"; "day"; "dt"; "service"; "admit"]%string
|}.

(* ================================================================== *)
(** * src/components/FileUpload.tsx *)
(* ================================================================== *)

(** ** String operations *)

Definition in_range (lo hi : nat) (c : ascii) : bool :=
  let n := nat_of_ascii c in (lo <=? n)%nat && (n <=? hi)%nat.

(** [toLowerCase] on one character: ['A'..'Z'] move to ['a'..'z']. *)
Definition toLowerCase_char (c : ascii) : ascii :=
  if in_range 65 90 c then ascii_of_nat (nat_of_ascii c + 32) else c.

Fixpoint toLowerCase (s : string) : string :=
  match s with
  | EmptyString => EmptyString
  | String c rest => String (toLowerCase_char c) (toLowerCase rest)
  end.

(** Tab, line feed, vertical tab, form feed, carriage return, space. *)
Definition isWhitespace (c : ascii) : bool :=
  in_range 9 13 c || (nat_of_ascii c =? 32)%nat.

Fixpoint trimStart (s : string) : string :=
  match s with
  | EmptyString => EmptyString
  | String c rest => if isWhitespace c then trimStart rest else s
  end.

Fixpoint trimEnd (s : string) : string :=
  match s with
  | EmptyString => EmptyString
  | String c rest =>
      match trimEnd rest with
      | EmptyString => if isWhitespace c then EmptyString
                       else String c EmptyString
      | rest' => String c rest'
      end
  end.

Definition trim (s : string) : string := trimEnd (trimStart s).

(** The character class [[a-z0-9]]. *)
Definition isLowerAlnum (c : ascii) : bool :=
  in_range 97 122 c || in_range 48 57 c.

(** [s.replace(/[^a-z0-9]/g, '')]. *)
Fixpoint stripNonAlnum (s : string) : string :=
  match s with
  | EmptyString => EmptyString
  | String c rest =>
      if isLowerAlnum c then String c (stripNonAlnum rest)
      else stripNonAlnum rest
  end.

(** [h.startsWith(keyword)]. *)
Definition startsWith (h keyword : string) : bool := String.prefix keyword h.

(** [h.includes(keyword)]. *)
Fixpoint includes (h keyword : string) : bool :=
  startsWith h keyword ||
  match h with
  | EmptyString => false
  | String _ rest => includes rest keyword
  end.

(** [array.findIndex(test)], counting from [i]; [-1] when no element
    passes. *)
Fixpoint findIndex_from {A : Type} (test : A -> bool) (l : list A) (i : Z)
  : Z :=
  match l with
  | [] => (-1)%Z
  | x :: rest => if test x then i else findIndex_from test rest (i + 1)%Z
  end.

Definition findIndex {A : Type} (test : A -> bool) (l : list A) : Z :=
  findIndex_from test l 0%Z.

(** ** [findColumnIndex] *)

(** One header as [findColumnIndex] compares it. *)
Definition normalizeHeader (h : string) : string :=
  stripNonAlnum (trim (toLowerCase h)).

(** One [for (const keyword of keywords)] loop of [findColumnIndex]:
    [Some idx] is the early [return idx], [None] falls out of the loop. *)
Fixpoint keywordLoop (test : string -> string -> bool)
         (lowerHeaders keywords : list string) : option Z :=
  match keywords with
  | [] => None
  | keyword :: rest =>
      let idx := findIndex (fun h => test h keyword) lowerHeaders in
      if (idx =? -1)%Z then keywordLoop test lowerHeaders rest
      else Some idx
  end.

Definition findColumnIndex (headers keywords : list string) : Z :=
  let lowerHeaders := map normalizeHeader headers in
  (* 1. Exact match attempt *)
  match keywordLoop String.eqb lowerHeaders keywords with
  | Some idx => idx
  | None =>
  (* 2. Starts with match *)
  match keywordLoop startsWith lowerHeaders keywords with
  | Some idx => idx
  | None =>
  (* 3. Partial match attempt (includes) *)
  match keywordLoop includes lowerHeaders keywords with
  | Some idx => idx
  | None => (-1)%Z
  end end end.

(** ** The column resolution of [processFile] *)

Record ColumnIndices : Type := {
  idIndex : Z;
  dxIndex : Z;
  rxIndex : Z;
  dateIndex : Z
}.

Definition resolveColumns (headers : list string)
           (columnKeywords : ColumnKeywords) : ColumnIndices :=
  let idKeywords := kw_id columnKeywords in
  let dxKeywords := kw_diagnosis columnKeywords in
  let rxKeywords := kw_prescription columnKeywords in
  let pxKeywords := kw_procedure columnKeywords in
  let dateKeywords := kw_date columnKeywords in
  let idIndex := findColumnIndex headers idKeywords in
  let dxIndex := findColumnIndex headers dxKeywords in
  let rxIndex := findColumnIndex headers rxKeywords in
  let rxIndex := if (rxIndex =? -1)%Z
                 then findColumnIndex headers pxKeywords else rxIndex in
  let dateIndex := findColumnIndex headers dateKeywords in
  {| idIndex := idIndex; dxIndex := dxIndex;
     rxIndex := rxIndex; dateIndex := dateIndex |}.

(** ** Column resolution in the words of its specification *)

(** The three tiers of the search. *)
Inductive Tier : Type := ExactTier | StartsWithTier | ContainsTier.

(** The normalized header [h] matches [keyword] in a tier: it is equal to
    it, starts with it, or contains it. *)
Definition tierMatch (t : Tier) (h keyword : string) : Prop :=
  match t with
  | ExactTier => h = keyword
  | StartsWithTier => exists s, h = (keyword ++ s)%string
  | ContainsTier => exists s1 s2, h = (s1 ++ keyword ++ s2)%string
  end.

(** [i] is the index of the first element of [hs] that satisfies [P]. *)
Definition firstIndex (P : string -> Prop) (hs : list string) (i : nat)
  : Prop :=
  (exists h, nth_error hs i = Some h /\ P h) /\
  (forall j h, (j < i)%nat -> nth_error hs j = Some h -> ~ P h).

(** No keyword of [ks] matches a header of [hs] in the tier [t]. *)
Definition tierFails (t : Tier) (hs ks : list string) : Prop :=
  forall k h, In k ks -> In h hs -> ~ tierMatch t h k.

(** The tier [t] resolves to the column [i]: [i] is the first header
    matched by the first keyword of [ks] that matches a header at all. *)
Definition tierResolves (t : Tier) (hs ks : list string) (i : nat) : Prop :=
  exists before k after,
    ks = before ++ k :: after /\
    tierFails t hs before /\
    firstIndex (fun h => tierMatch t h k) hs i.

(** The column that the three tiers, tried in order, give for the
    normalized headers [hs]; [-1] is the unresolved column. *)
Definition resolvesTo (hs ks : list string) (r : Z) : Prop :=
  (exists i, tierResolves ExactTier hs ks i /\ r = Z.of_nat i) \/
  (tierFails ExactTier hs ks /\
   exists i, tierResolves StartsWithTier hs ks i /\ r = Z.of_nat i) \/
  (tierFails ExactTier hs ks /\ tierFails StartsWithTier hs ks /\
   exists i, tierResolves ContainsTier hs ks i /\ r = Z.of_nat i) \/
  (tierFails ExactTier hs ks /\ tierFails StartsWithTier hs ks /\
   tierFails ContainsTier hs ks /\ r = (-1)%Z).

(** The test of a tier. *)
Definition tierTest (t : Tier) : string -> string -> bool :=
  match t with
  | ExactTier => String.eqb
  | StartsWithTier => startsWith
  | ContainsTier => includes
  end.

(* ================================================================== *)
(** * src/components/AnalysisDashboard.tsx *)
(* ================================================================== *)

Definition Split_eqb (a b : Split) : bool :=
  match a, b with
  | TRAIN, TRAIN | TEST, TEST => true
  | _, _ => false
  end.

(** [p.split === 'TEST'], [p.split === 'TRAIN']. *)
Definition split_is (s : Split) (p : PatientProfile) : bool :=
  match split p with
  | Some s' => Split_eqb s' s
  | None => false
  end.

Definition testSet (patients : list PatientProfile) : list PatientProfile :=
  filter (split_is TEST) patients.

Definition trainSet (patients : list PatientProfile) : list PatientProfile :=
  filter (split_is TRAIN) patients.

(** [a > b] on scores. *)
Definition Qgtb (a b : Q) : bool := negb (Qle_bool a b).

(** [a < b] on scores. *)
Definition Qltb (a b : Q) : bool := negb (Qle_bool b a).

Record Metrics : Type := {
  accuracy : Q;
  precision : Q;
  recall : Q;
  tp : Z;
  fp : Z;
  tn : Z;
  fn : Z
}.

Record Confusion : Type := {
  c_tp : Z;
  c_fp : Z;
  c_tn : Z;
  c_fn : Z
}.

Definition threshold : Q := 0.5.

(** [(p.riskScore || 0) > threshold]: an absent score counts as [0]. *)
Definition predicted (p : PatientProfile) : bool :=
  Qgtb (match riskScore p with Some s => s | None => 0 end) threshold.

(** [p.actualOutcome || false]. *)
Definition actual (p : PatientProfile) : bool :=
  match actualOutcome p with Some b => b | None => false end.

(** The body of [testSet.forEach]: the four counters after one subject. *)
Definition countSubject (c : Confusion) (p : PatientProfile) : Confusion :=
  let c := if predicted p && actual p
           then {| c_tp := c_tp c + 1; c_fp := c_fp c;
                   c_tn := c_tn c; c_fn := c_fn c |} else c in
  let c := if predicted p && negb (actual p)
           then {| c_tp := c_tp c; c_fp := c_fp c + 1;
                   c_tn := c_tn c; c_fn := c_fn c |} else c in
  let c := if negb (predicted p) && actual p
           then {| c_tp := c_tp c; c_fp := c_fp c;
                   c_tn := c_tn c; c_fn := c_fn c + 1 |} else c in
  let c := if negb (predicted p) && negb (actual p)
           then {| c_tp := c_tp c; c_fp := c_fp c;
                   c_tn := c_tn c + 1; c_fn := c_fn c |} else c in
  c.

Definition validationMetrics (patients : list PatientProfile) : Metrics :=
  let testSet := testSet patients in
  if (List.length testSet =? 0)%nat
  then {| accuracy := 0; precision := 0; recall := 0;
          tp := 0; fp := 0; tn := 0; fn := 0 |}
  else
    let c := fold_left countSubject testSet
               {| c_tp := 0; c_fp := 0; c_tn := 0; c_fn := 0 |} in
    let tp := c_tp c in
    let fp := c_fp c in
    let tn := c_tn c in
    let fn := c_fn c in
    let accuracy :=
      inject_Z (tp + tn) / inject_Z (Z.of_nat (List.length testSet)) in
    let precision :=
      if (tp + fp >? 0)%Z then inject_Z tp / inject_Z (tp + fp) else 0 in
    let recall :=
      if (tp + fn >? 0)%Z then inject_Z tp / inject_Z (tp + fn) else 0 in
    {| accuracy := accuracy; precision := precision; recall := recall;
       tp := tp; fp := fp; tn := tn; fn := fn |}.

(** *** The confusion matrix in the words of its specification *)

(** The decision rule: a subject is predicted positive when it has a score
    above 0.5. *)
Definition predictedPositive (p : PatientProfile) : bool :=
  match riskScore p with
  | Some s => Qgtb s 0.5
  | None => false
  end.

(** The recorded outcome of a subject is positive. *)
Definition actualPositive (p : PatientProfile) : bool :=
  match actualOutcome p with
  | Some b => b
  | None => false
  end.

(** The number of subjects of [l] with the given prediction and outcome. *)
Definition confusionCount (prediction outcome : bool)
           (l : list PatientProfile) : Z :=
  Z.of_nat (List.length
              (filter (fun p => Bool.eqb (predictedPositive p) prediction &&
                                Bool.eqb (actualPositive p) outcome) l)).

(* ================================================================== *)
(** * src/services/geminiService.ts *)
(* ================================================================== *)

(** ** The reasoning engine *)

(** One item of the response, as the [responseSchema] of the call requires
    it: [{ id: string, riskScore: number }]. *)
Record Prediction : Type := {
  pred_id : string;
  pred_riskScore : Q
}.

(** What [JSON.parse] returns: an array of items, or a value that is not
    an array (on which [predictions.find] is not a function). *)
Inductive JsonValue : Type :=
| JsonArray (items : list Prediction)
| JsonOther.

(** One element of the [Patient Data (JSON)] of the prompt. *)
Record PatientData : Type := {
  pd_id : string;
  pd_age : Z;
  pd_monthsOnTherapy : Z;
  pd_currentLine : Z;
  pd_specialty : string;
  pd_doctor : string
}.

(** [logicDescription]. *)
Inductive LogicDescription : Type :=
| XGBoostSimulation (strategy : ImbalanceStrategy)
| StandardClinicalReasoning.

(** The fields that the text of [prompt] interpolates. *)
Record Prompt : Type := {
  prompt_diseaseName : string;
  prompt_targetLineTransition : string;
  prompt_lookbackMonths : Z;
  prompt_predictionWindowMonths : Z;
  prompt_minClaimsCount : Z;
  prompt_logicDescription : LogicDescription;
  prompt_patientData : list PatientData
}.

(** The outcome of [await ai.models.generateContent(...)]: the promise is
    rejected, or a response arrives whose [text] may be [undefined]. *)
Inductive GenerateContentResult : Type :=
| Rejected
| Response (text : option string).

(** ** Object spreads *)

(** [{ ...p, riskScore, riskCategory, split, actualOutcome }]: a new record
    with the other eleven fields of [p]. *)
Definition spread (p : PatientProfile) (riskScore : option Q)
           (riskCategory : option RiskCategory) (split : option Split)
           (actualOutcome : option bool) : PatientProfile :=
  {| id := id p;
     age := age p;
     gender := gender p;
     diagnosisCode := diagnosisCode p;
     currentTherapyLine := currentTherapyLine p;
     monthsOnCurrentTherapy := monthsOnCurrentTherapy p;
     lastVisitDate := lastVisitDate p;
     npiSpecialty := npiSpecialty p;
     drugId := drugId p;
     doctorName := doctorName p;
     npiId := npiId p;
     riskScore := riskScore;
     riskCategory := riskCategory;
     split := split;
     actualOutcome := actualOutcome |}.

(** [r] has the eleven fields of [p] that no spread of
    [classifyPatientRisk] writes. *)
Definition sameSubject (p r : PatientProfile) : Prop :=
  id r = id p /\ age r = age p /\ gender r = gender p /\
  diagnosisCode r = diagnosisCode p /\
  currentTherapyLine r = currentTherapyLine p /\
  monthsOnCurrentTherapy r = monthsOnCurrentTherapy p /\
  lastVisitDate r = lastVisitDate p /\ npiSpecialty r = npiSpecialty p /\
  drugId r = drugId p /\ doctorName r = doctorName p /\ npiId r = npiId p.

(** The record of the [catch] branch,
    [{ ...p, riskScore: 0.1, riskCategory: 'Low', split: 'TRAIN' }]:
    [actualOutcome] is not written and keeps the value it has in [p]. *)
Definition fallbackRecord (p : PatientProfile) : PatientProfile :=
  spread p (Some 0.1) (Some Low) (Some TRAIN) (actualOutcome p).

(** [out] is the total fallback of [patients]: one record per subject, in
    the order of the input, with the three constants of the [catch] branch
    and the [actualOutcome] of the input. *)
Definition isTotalFallback (patients out : list PatientProfile) : Prop :=
  Forall2 (fun p r =>
             sameSubject p r /\
             riskScore r = Some 0.1 /\
             riskCategory r = Some Low /\
             split r = Some TRAIN /\
             actualOutcome r = actualOutcome p)
          patients out.

(** ** [classifyPatientRisk] *)

(** [p.monthsOnCurrentTherapy >= 1]. *)
Definition eligible (p : PatientProfile) : bool :=
  (monthsOnCurrentTherapy p >=? 1)%Z.

(** [Math.floor(length * (1 - config.trainTestSplit))], in the doubles of
    the code: the ratio is a double, and the difference and the product
    are rounded.  The length of an array is below [2 ^ 32] and is a
    double as it is. *)
Definition splitIndexOf (length : nat) (config : CohortConfig) : Z :=
  Qfloor (binary64 (inject_Z (Z.of_nat length) *
                    binary64 (1 - binary64 (trainTestSplit config)))).

(** [let cat = 'Low'; if (score > 0.7) cat = 'High';
     else if (score > 0.4) cat = 'Medium';]. *)
Definition riskCategoryOf (score : Q) : RiskCategory :=
  if Qgtb score 0.7 then High
  else if Qgtb score 0.4 then Medium
  else Low.

(** [Math.min(0.99, Math.max(0.01, baseRisk + (r * 0.3 - 0.15)))] for the
    draw [r] of [Math.random()]. *)
Definition simulatedScore (config : CohortConfig) (p : PatientProfile)
           (r : Q) : Q :=
  let baseRisk := if (monthsOnCurrentTherapy p >? lookbackMonths config)%Z
                  then 0.4 else 0.05 in
  Qmin 0.99 (Qmax 0.01 (baseRisk + (r * 0.3 - 0.15))).

(** [predictions.find((item) => item.id === p.id)]. *)
Definition predictions_find (predictions : JsonValue) (p : PatientProfile)
  : Completion (option Prediction) :=
  match predictions with
  | JsonArray items =>
      Normal (find (fun item => String.eqb (pred_id item) (id p)) items)
  | JsonOther => Throw
  end.

Definition logicDescriptionOf (config : CohortConfig) : LogicDescription :=
  match modelType config with
  | XGBOOST => XGBoostSimulation (imbalanceStrategy config)
  | GENAI_REASONING => StandardClinicalReasoning
  end.

Definition patientDataOf (p : PatientProfile) : PatientData :=
  {| pd_id := id p;
     pd_age := age p;
     pd_monthsOnTherapy := monthsOnCurrentTherapy p;
     pd_currentLine := currentTherapyLine p;
     pd_specialty := npiSpecialty p;
     pd_doctor := doctorName p |}.

Definition batchSize : nat := 30.

Definition buildPrompt (ontology : OntologyMapping) (config : CohortConfig)
           (processedBatch : list PatientProfile) : Prompt :=
  {| prompt_diseaseName := diseaseName ontology;
     prompt_targetLineTransition := targetLineTransition ontology;
     prompt_lookbackMonths := lookbackMonths config;
     prompt_predictionWindowMonths := predictionWindowMonths config;
     prompt_minClaimsCount := minClaimsCount config;
     prompt_logicDescription := logicDescriptionOf config;
     prompt_patientData := map patientDataOf processedBatch |}.

Section ClassifyPatientRisk.

Context {engine : ArraySort}.

(** The values of [Math.random()], the reasoning engine and [JSON.parse]. *)
Variable rnd : nat -> Q.
Variable generateContent : Prompt -> GenerateContentResult.
Variable JSON_parse : string -> Completion JsonValue.

(** The comparator of the shuffle, [() => 0.5 - Math.random()]. *)
Definition shuffleCompare (A : Type) (_ _ : A) : Rand Q :=
  r <- Math_random rnd ;; ret (0.5 - r).

(** [response.text ? JSON.parse(response.text) : []]: an [undefined] or
    empty [text] is falsy. *)
Definition parsePredictions (text : option string) : Completion JsonValue :=
  match text with
  | Some (String c rest) => JSON_parse (String c rest)
  | Some EmptyString | None => Normal (JsonArray [])
  end.

(** The callback of [shuffled.map((p, index) => ...)]. *)
Definition scorePatient (config : CohortConfig) (splitIndex : Z)
           (predictions : JsonValue) (p : PatientProfile) (index : nat)
  : Exec PatientProfile :=
  (* Assign Split *)
  let split := if (Z.of_nat index <? splitIndex)%Z then TRAIN else TEST in
  pred <-! ret (predictions_find predictions p) ;;
  score <-! match pred with
            | Some pred => retE (pred_riskScore pred)
            | None =>
                (* Simulation for patients not in the LLM batch *)
                r <-! liftE (Math_random rnd) ;;
                retE (simulatedScore config p r)
            end ;;
  let cat := riskCategoryOf score in
  (* SIMULATE GROUND TRUTH FOR VALIDATION *)
  r <-! liftE (Math_random rnd) ;;
  let actualOutcome := Qltb r score in
  retE (spread p (Some score) (Some cat) (Some split) (Some actualOutcome)).

(** The body of the [try] block. *)
Definition tryBlock (config : CohortConfig) (prompt : Prompt)
           (shuffled : list PatientProfile) (splitIndex : Z)
  : Exec (list PatientProfile) :=
  match generateContent prompt with
  | Rejected => throwE
  | Response text =>
      predictions <-! ret (parsePredictions text) ;;
      (* Map results back to full dataset *)
      Array_map (scorePatient config splitIndex predictions) shuffled 0
  end.

Definition classifyPatientRisk (patients : list PatientProfile)
           (ontology : OntologyMapping) (config : CohortConfig)
  : Exec (list PatientProfile) :=
  (* Filter patients based on Cohort Config *)
  let eligiblePatients := filter eligible patients in
  (* Shuffle and Assign Splits *)
  shuffled <- Array_sort (@shuffleCompare PatientProfile) eligiblePatients ;;
  let splitIndex := splitIndexOf (List.length shuffled) config in
  let processedBatch := firstn batchSize shuffled in
  let prompt := buildPrompt ontology config processedBatch in
  try_catch
    (tryBlock config prompt shuffled splitIndex)
    (retE (map fallbackRecord patients)).

(** *** What a run has computed when it reaches the [try] block *)

(** [shuffled], for a run that starts after [n] draws. *)
Definition shuffledOf (patients : list PatientProfile) (n : nat)
  : list PatientProfile :=
  fst (Array_sort (@shuffleCompare PatientProfile)
                  (filter eligible patients) n).

(** The [prompt] that is sent to the engine. *)
Definition promptOf (patients : list PatientProfile)
           (ontology : OntologyMapping) (config : CohortConfig) (n : nat)
  : Prompt :=
  buildPrompt ontology config (firstn batchSize (shuffledOf patients n)).

(** [predictions], or [Throw] when the call is rejected or [JSON.parse]
    throws. *)
Definition engineOutcome (patients : list PatientProfile)
           (ontology : OntologyMapping) (config : CohortConfig) (n : nat)
  : Completion JsonValue :=
  match generateContent (promptOf patients ontology config n) with
  | Rejected => Throw
  | Response text => parsePredictions text
  end.

(** The engine-success path: the call returned, and its text was empty or
    parsed to the array [items]. *)
Definition engineSucceeds (patients : list PatientProfile)
           (ontology : OntologyMapping) (config : CohortConfig) (n : nat)
           (items : list Prediction) : Prop :=
  engineOutcome patients ontology config n = Normal (JsonArray items).

(** [r] is a record that the callback of [shuffled.map] returns for the
    subject [p] at [index]: the score is the one of the first prediction
    with the id of [p] or, without one, the simulated score of one draw;
    the outcome compares one more draw with the score. *)
Definition scoredRecord (config : CohortConfig) (splitIndex : Z)
           (items : list Prediction) (index : nat)
           (p r : PatientProfile) : Prop :=
  exists (score : Q) (k : nat),
    r = spread p (Some score) (Some (riskCategoryOf score))
               (Some (if (Z.of_nat index <? splitIndex)%Z
                      then TRAIN else TEST))
               (Some (Qltb (rnd k) score)) /\
    match find (fun item => String.eqb (pred_id item) (id p)) items with
    | Some pred => score = pred_riskScore pred
    | None => exists j : nat, score = simulatedScore config p (rnd j)
    end.

End ClassifyPatientRisk.

(* ================================================================== *)
(** * Store semantics of [classifyPatientRisk] *)
(* ================================================================== *)

(** The same function with the objects and arrays of JavaScript held in a
    store: a subject is an object, an array holds references to objects,
    [filter], [slice], [map] and the spread [[...a]] allocate a new array,
    an object literal allocates a new object, and [sort] writes the array
    it is called on. *)

Definition ref : Type := nat.

Record Heap : Type := {
  objects : list PatientProfile;
  arrays : list (list ref)
}.

Definition object_at (h : Heap) (o : ref) : option PatientProfile :=
  nth_error (objects h) o.

Definition array_at (h : Heap) (a : ref) : option (list ref) :=
  nth_error (arrays h) a.

(** [l] with its element [i] replaced by [x]; unchanged when [i] is out of
    range. *)
Fixpoint list_update {A : Type} (l : list A) (i : nat) (x : A) : list A :=
  match l, i with
  | [], _ => []
  | _ :: rest, O => x :: rest
  | y :: rest, S i' => y :: list_update rest i' x
  end.

(** A computation on the store and the random source that may throw.  A
    reference that points nowhere, which no JavaScript program can hold,
    throws. *)
Definition St (A : Type) : Type := Heap -> nat -> Completion A * Heap * nat.

Definition retS {A : Type} (a : A) : St A := fun h n => (Normal a, h, n).

Definition throwS {A : Type} : St A := fun h n => (Throw, h, n).

Definition bindS {A B : Type} (m : St A) (k : A -> St B) : St B :=
  fun h n =>
    match m h n with
    | (Normal a, h', n') => k a h' n'
    | (Throw, h', n') => (Throw, h', n')
    end.

Notation "x <-$ m ;; k" := (bindS m (fun x => k))
  (at level 61, m at next level, right associativity).

Definition liftS {A : Type} (m : Exec A) : St A :=
  fun h n => let (c, n') := m n in (c, h, n').

Definition try_catch_st {A : Type} (body handler : St A) : St A :=
  fun h n =>
    match body h n with
    | (Normal a, h', n') => (Normal a, h', n')
    | (Throw, h', n') => handler h' n'
    end.

Definition newObject (p : PatientProfile) : St ref :=
  fun h n =>
    (Normal (List.length (objects h)),
     {| objects := objects h ++ [p]; arrays := arrays h |}, n).

Definition newArray (l : list ref) : St ref :=
  fun h n =>
    (Normal (List.length (arrays h)),
     {| objects := objects h; arrays := arrays h ++ [l] |}, n).

Definition readObject (o : ref) : St PatientProfile :=
  fun h n =>
    match object_at h o with
    | Some p => (Normal p, h, n)
    | None => (Throw, h, n)
    end.

Definition readArray (a : ref) : St (list ref) :=
  fun h n =>
    match array_at h a with
    | Some l => (Normal l, h, n)
    | None => (Throw, h, n)
    end.

Definition writeArray (a : ref) (l : list ref) : St unit :=
  fun h n =>
    (Normal tt,
     {| objects := objects h; arrays := list_update (arrays h) a l |}, n).

Fixpoint readObjects (l : list ref) : St (list PatientProfile) :=
  match l with
  | [] => retS []
  | o :: rest =>
      p <-$ readObject o ;;
      ps <-$ readObjects rest ;;
      retS (p :: ps)
  end.

(** The references of [l] whose object passes [test]. *)
Fixpoint filterRefs (test : PatientProfile -> bool) (l : list ref)
  : St (list ref) :=
  match l with
  | [] => retS []
  | o :: rest =>
      p <-$ readObject o ;;
      kept <-$ filterRefs test rest ;;
      retS (if test p then o :: kept else kept)
  end.

(** [a.filter(test)]. *)
Definition Array_filter_st (test : PatientProfile -> bool) (a : ref)
  : St ref :=
  l <-$ readArray a ;;
  kept <-$ filterRefs test l ;;
  newArray kept.

(** [[...a]]. *)
Definition Array_spread_st (a : ref) : St ref :=
  l <-$ readArray a ;;
  newArray l.

(** [a.sort(comparefn)]: sorts [a] in place and returns [a]. *)
Definition Array_sort_st {engine : ArraySort}
           (comparefn : ref -> ref -> Rand Q) (a : ref) : St ref :=
  l <-$ readArray a ;;
  sorted <-$ liftS (liftE (Array_sort comparefn l)) ;;
  _ <-$ writeArray a sorted ;;
  retS a.

(** [a.slice(0, k)]. *)
Definition Array_slice_st (a : ref) (k : nat) : St ref :=
  l <-$ readArray a ;;
  newArray (firstn k l).

(** The loop of [a.map(callback)] for a callback that reads the object it
    is given and returns a new object. *)
Fixpoint mapRefs (callback : PatientProfile -> nat -> Exec PatientProfile)
         (l : list ref) (index : nat) : St (list ref) :=
  match l with
  | [] => retS []
  | o :: rest =>
      p <-$ readObject o ;;
      p' <-$ liftS (callback p index) ;;
      o' <-$ newObject p' ;;
      os <-$ mapRefs callback rest (S index) ;;
      retS (o' :: os)
  end.

(** [a.map(callback)]. *)
Definition Array_map_st
           (callback : PatientProfile -> nat -> Exec PatientProfile)
           (a : ref) : St ref :=
  l <-$ readArray a ;;
  os <-$ mapRefs callback l 0 ;;
  newArray os.

(** The objects that the references [refs] point to in [h] are [vs]. *)
Definition derefs (h : Heap) (refs : list ref) (vs : list PatientProfile)
  : Prop :=
  map (object_at h) refs = map Some vs.

(** [h'] has the objects and the arrays of [h], at the same references, and
    maybe more. *)
Definition preserves (h h' : Heap) : Prop :=
  (forall o p, object_at h o = Some p -> object_at h' o = Some p) /\
  (forall a l, array_at h a = Some l -> array_at h' a = Some l).

(** [h'] is [h] with new objects, new arrays, and writes to new arrays
    only: the objects of [h'] extend those of [h], and the arrays of [h]
    are in [h'] as they were. *)
Definition grows (h h' : Heap) : Prop :=
  (exists new, objects h' = objects h ++ new) /\
  (List.length (arrays h) <= List.length (arrays h'))%nat /\
  (forall a l, array_at h a = Some l -> array_at h' a = Some l).

(** What a caller that holds the store [h0] observes of a run that ends in
    [h'] with the array [result]: its objects and arrays are as they were,
    and [result] is a new array of new objects, which are [out]. *)
Definition returnsNew (h0 h' : Heap) (result : ref)
           (out : list PatientProfile) : Prop :=
  preserves h0 h' /\
  array_at h0 result = None /\
  exists outRefs,
    array_at h' result = Some outRefs /\
    Forall (fun o => object_at h0 o = None) outRefs /\
    Forall2 (fun o r => object_at h' o = Some r) outRefs out.

Section ClassifyPatientRiskStore.

Context {engine : ArraySort}.
Variable rnd : nat -> Q.
Variable generateContent : Prompt -> GenerateContentResult.
Variable JSON_parse : string -> Completion JsonValue.

Definition tryBlock_st (config : CohortConfig) (prompt : Prompt)
           (shuffled : ref) (splitIndex : Z) : St ref :=
  match generateContent prompt with
  | Rejected => throwS
  | Response text =>
      predictions <-$ liftS (ret (parsePredictions JSON_parse text)) ;;
      Array_map_st (scorePatient rnd config splitIndex predictions) shuffled
  end.

(** [patients] is the reference of the array of the caller.  The store
    holds the subjects and the arrays of subjects; the plain data of the
    prompt ([processedBatch.map(p => ({ id: p.id, ... }))] and its JSON
    text) is read from the subjects and is a value. *)
Definition classifyPatientRisk_st (patients : ref)
           (ontology : OntologyMapping) (config : CohortConfig) : St ref :=
  (* patients.filter(p => p.monthsOnCurrentTherapy >= 1) *)
  eligiblePatients <-$ Array_filter_st eligible patients ;;
  (* [...eligiblePatients].sort(() => 0.5 - Math.random()) *)
  copy <-$ Array_spread_st eligiblePatients ;;
  shuffled <-$ Array_sort_st (@shuffleCompare rnd ref) copy ;;
  (* shuffled.length *)
  shuffledRefs <-$ readArray shuffled ;;
  let splitIndex := splitIndexOf (List.length shuffledRefs) config in
  (* shuffled.slice(0, batchSize) *)
  processedBatch <-$ Array_slice_st shuffled batchSize ;;
  batchRefs <-$ readArray processedBatch ;;
  batch <-$ readObjects batchRefs ;;
  let prompt := buildPrompt ontology config batch in
  try_catch_st
    (tryBlock_st config prompt shuffled splitIndex)
    (Array_map_st (fun p _ => retE (fallbackRecord p)) patients).

End ClassifyPatientRiskStore.

(* ================================================================== *)
(** * Example data *)
(* ================================================================== *)

Definition examplePatient (pid : string) (months : Z) : PatientProfile :=
  {| id := pid;
     age := 54;
     gender := "F";
     diagnosisCode := "C50.9";
     currentTherapyLine := 1;
     monthsOnCurrentTherapy := months;
     lastVisitDate := "2024-01-15";
     npiSpecialty := "Oncology";
     drugId := "Tamoxifen";
     doctorName := "External Provider";
     npiId := "9999999999";
     riskScore := None;
     riskCategory := None;
     split := None;
     actualOutcome := None |}.

Definition exampleOntology : OntologyMapping :=
  {| diseaseName := "Breast Cancer";
     icdCodes := ["C50%"%string];
     cptCodes := [];
     drugs := ["Tamoxifen"%string];
     targetLineTransition := "1L to 2L" |}.

Definition exampleConfig : CohortConfig :=
  {| lookbackMonths := 12;
     predictionWindowMonths := 6;
     minClaimsCount := 2;
     modelType := GENAI_REASONING;
     imbalanceStrategy := NONE;
     trainTestSplit := 0.2 |}.

(** A random source whose every draw is [0.5]. *)
Definition rndHalf : nat -> Q := fun _ => 0.5.

(** An engine whose call is rejected. *)
Definition engineRejects : Prompt -> GenerateContentResult :=
  fun _ => Rejected.

(** An engine that answers every prompt with [text]. *)
Definition engineAnswers (text : string) : Prompt -> GenerateContentResult :=
  fun _ => Response (Some text).

(** A [JSON.parse] that throws on every text. *)
Definition parseThrows : string -> Completion JsonValue := fun _ => Throw.

(** A [JSON.parse] that reads every text as the array [items]. *)
Definition parseReads (items : list Prediction)
  : string -> Completion JsonValue :=
  fun _ => Normal (JsonArray items).

(** One ineligible subject (no month of therapy) and two eligible ones. *)
Definition exampleCohort : list PatientProfile :=
  [examplePatient "P-1" 0; examplePatient "P-2" 5; examplePatient "P-3" 18].

(** The engine scores the subject P-2 and omits P-3. *)
Definition exampleItems : list Prediction :=
  [{| pred_id := "P-2"; pred_riskScore := 0.8 |}].

(** A scored subject of the TEST partition. *)
Definition testSubject (pid : string) (score : Q) (outcome : bool)
  : PatientProfile :=
  spread (examplePatient pid 6) (Some score) (Some (riskCategoryOf score))
         (Some TEST) (Some outcome).

(** The TEST set [{(0.8, true), (0.3, false), (0.9, false), (0.2, true)}]. *)
Definition exampleTestSet : list PatientProfile :=
  [testSubject "P-1" 0.8 true; testSubject "P-2" 0.3 false;
   testSubject "P-3" 0.9 false; testSubject "P-4" 0.2 true].

(** Claims headers that name the therapy by a procedure code. *)
Definition procedureHeaders : list string :=
  ["Member ID"; "Dx Code"; "CPT"; "Service Date"]%string.

(** A store that holds the three subjects of [exampleCohort] and the array
    of the caller, at the reference 0. *)
Definition exampleHeap : Heap :=
  {| objects := exampleCohort; arrays := [[0; 1; 2]%nat] |}.

(* ================================================================== *)
(** * More of src/components/FileUpload.tsx *)
(* ================================================================== *)

From Stdlib Require Import DecimalString DecimalNat.

(** ** Lines and cells *)

(** [s.split(sep)] for a separator of one character. *)
Fixpoint splitOn (sep : ascii) (s : string) : list string :=
  match s with
  | EmptyString => [EmptyString]
  | String c rest =>
      if Ascii.eqb c sep then EmptyString :: splitOn sep rest
      else match splitOn sep rest with
           | field :: fields => String c field :: fields
           | [] => [String c EmptyString]
           end
  end.

(** The double quote, character 34. *)
Definition quote : ascii := Eval cbv in ascii_of_nat 34.

Fixpoint countQuotes (s : string) : nat :=
  match s with
  | EmptyString => 0
  | String c rest =>
      ((if Ascii.eqb c quote then 1 else 0) + countQuotes rest)%nat
  end.

(** [line.split(regex)] for the regular expression of [processFile], a
    comma followed (in a lookahead) by pairs of quotes up to the end of
    the line: a comma separates two cells when the rest of the line holds
    an even number of quotes. *)
Fixpoint splitCsv (line : string) : list string :=
  match line with
  | EmptyString => [EmptyString]
  | String c rest =>
      if Ascii.eqb c ","%char && Nat.even (countQuotes rest)
      then EmptyString :: splitCsv rest
      else match splitCsv rest with
           | cell :: cells => String c cell :: cells
           | [] => [String c EmptyString]
           end
  end.

(** [v.replace(regex, '')] for the regular expression of [processFile],
    a quote at the start or a quote at the end, with the flag [g]: a quote
    at the start is removed, then a quote at the end of what follows. *)
Definition dropLeadingQuote (v : string) : string :=
  match v with
  | String c rest => if Ascii.eqb c quote then rest else v
  | EmptyString => EmptyString
  end.

Fixpoint dropTrailingQuote (v : string) : string :=
  match v with
  | EmptyString => EmptyString
  | String c EmptyString =>
      if Ascii.eqb c quote then EmptyString else v
  | String c rest => String c (dropTrailingQuote rest)
  end.

(** [v.trim().replace(regex, '')]. *)
Definition cleanCell (v : string) : string :=
  dropTrailingQuote (dropLeadingQuote (trim v)).

(** A value between two quotes, as a writer of CSV files quotes it. *)
Definition quoted (v : string) : string :=
  String quote (v ++ String quote EmptyString).

(** The decimal digits of a number, as a template literal prints it. *)
Definition decimal (n : nat) : string :=
  NilEmpty.string_of_uint (Nat.to_uint n).

(** ** The rows of [processFile] *)

(** [values[idx]]: the cell, or the empty string (as falsy as
    [undefined]) outside the row. *)
Definition cellAt (values : list string) (idx : Z) : string :=
  if (idx <? 0)%Z then EmptyString
  else nth (Z.to_nat idx) values EmptyString.

(** [a || b] on strings. *)
Definition orElse (a b : string) : string :=
  match a with
  | EmptyString => b
  | _ => a
  end.

Section ProcessFile.

(** The random source, and the text of [new Date().toISOString()]. *)
Variable rnd : nat -> Q.
Variable nowISO : string.

(** The callback of [.map((line, i) => ...)]: [None] is [null]. *)
Definition parseRow (c : ColumnIndices) (line : string) (i : nat)
  : Rand (option PatientProfile) :=
  let values := map cleanCell (splitCsv line) in
  let maxIdx :=
    Z.max (Z.max (Z.max (idIndex c) (dxIndex c)) (rxIndex c))
          (dateIndex c) in
  if (Z.of_nat (List.length values) <=? maxIdx)%Z then ret None
  else
    r1 <- Math_random rnd ;;
    r2 <- Math_random rnd ;;
    r3 <- Math_random rnd ;;
    r4 <- Math_random rnd ;;
    ret (Some
      {| id := orElse (cellAt values (idIndex c))
                      ("P-" ++ decimal (1000 + i));
         diagnosisCode := orElse (cellAt values (dxIndex c)) "Unknown";
         drugId := orElse (cellAt values (rxIndex c)) "Unknown";
         lastVisitDate := orElse (cellAt values (dateIndex c)) nowISO;
         (* Mocking derived fields for demo purposes *)
         age := Qfloor (binary64 (binary64 (r1 * (85 - 30)) + 30));
         gender := if Qgtb r2 0.5 then "F" else "M";
         currentTherapyLine := if Qgtb r3 (binary64 0.7) then 2 else 1;
         monthsOnCurrentTherapy := Qfloor (binary64 (r4 * 24));
         npiSpecialty := "Oncology";
         doctorName := "External Provider";
         npiId := "9999999999";
         riskScore := None;
         riskCategory := None;
         split := None;
         actualOutcome := None |}).

(** [rows.map((line, i) => ...)], [i] counting from [index]. *)
Fixpoint mapRows (c : ColumnIndices) (rows : list string) (index : nat)
  : Rand (list (option PatientProfile)) :=
  match rows with
  | [] => ret []
  | line :: rest =>
      item <- parseRow c line index ;;
      items <- mapRows c rest (S index) ;;
      ret (item :: items)
  end.

(** [.filter(item => item !== null)]. *)
Fixpoint dropNulls (items : list (option PatientProfile))
  : list PatientProfile :=
  match items with
  | [] => []
  | Some p :: rest => p :: dropNulls rest
  | None :: rest => dropNulls rest
  end.

(** [l.trim()] as a condition: the line is not blank. *)
Definition notBlank (l : string) : bool :=
  match trim l with
  | EmptyString => false
  | _ => true
  end.

(** [lines.slice(1).filter(l => l.trim()).map(...).filter(...)]. *)
Definition parsedData (c : ColumnIndices) (lines : list string)
  : Rand (list PatientProfile) :=
  items <- mapRows c (filter notBlank (tl lines)) 0 ;;
  ret (dropNulls items).

End ProcessFile.

(** What [processFile] promises of a record, whatever the row: the mocked
    fields are in their ranges (the age 85 is reached, by the rounding of
    the sum, for the largest draw), the mapped fields are not empty, and
    no field of the inference is set. *)
Definition uploadedRecord (p : PatientProfile) : Prop :=
  (30 <= age p <= 85)%Z /\
  (0 <= monthsOnCurrentTherapy p <= 23)%Z /\
  (currentTherapyLine p = 1 \/ currentTherapyLine p = 2)%Z /\
  (gender p = "F" \/ gender p = "M")%string /\
  id p <> EmptyString /\
  diagnosisCode p <> EmptyString /\
  drugId p <> EmptyString /\
  riskScore p = None /\ riskCategory p = None /\
  split p = None /\ actualOutcome p = None.

(** What a record holds of the cells of its row, whose position among the
    rows that are not blank is [i]. *)
Definition readsRow (nowISO : string) (c : ColumnIndices) (i : nat)
           (line : string) (p : PatientProfile) : Prop :=
  let values := map cleanCell (splitCsv line) in
  id p = orElse (cellAt values (idIndex c))
                ("P-" ++ decimal (1000 + i)) /\
  diagnosisCode p = orElse (cellAt values (dxIndex c)) "Unknown" /\
  drugId p = orElse (cellAt values (rxIndex c)) "Unknown" /\
  lastVisitDate p = orElse (cellAt values (dateIndex c)) nowISO.

(** No header of the table, once normalized, contains a keyword of the
    list. *)
Definition unmatched (headers keywords : list string) : Prop :=
  forall h k, In h headers -> In k keywords ->
              includes (normalizeHeader h) k = false.

(** The [missing] list of [processFile]: the label of every unresolved
    column with the first three keywords that the message shows. *)
Definition missingColumns (columnKeywords : ColumnKeywords)
           (c : ColumnIndices) : list (string * list string) :=
  (if (idIndex c =? -1)%Z
   then [("Patient ID"%string, firstn 3 (kw_id columnKeywords))] else []) ++
  (if (dxIndex c =? -1)%Z
   then [("Diagnosis"%string, firstn 3 (kw_diagnosis columnKeywords))]
   else []) ++
  (if (rxIndex c =? -1)%Z
   then [("Drug/Procedure"%string, firstn 3 (kw_prescription columnKeywords))]
   else []) ++
  (if (dateIndex c =? -1)%Z
   then [("Date"%string, firstn 3 (kw_date columnKeywords))] else []).

(** What [reader.onload] does with the text of the file: [setError] or
    [onDataLoaded]. *)
Inductive UploadOutcome : Type :=
| EmptyFileError
| MappingError (missing : list (string * list string))
| DataLoaded (data : list PatientProfile).

(** The byte order mark U+FEFF, in the three bytes of its UTF-8 form. *)
Definition byteOrderMark : string :=
  Eval cbv in
    String (ascii_of_nat 239) (String (ascii_of_nat 187)
           (String (ascii_of_nat 191) EmptyString)).

(** The line feed, character 10. *)
Definition lineFeed : ascii := Eval cbv in ascii_of_nat 10.

(** [line.replace(/^\uFEFF/, '')]. *)
Definition stripByteOrderMark (line : string) : string :=
  if String.prefix byteOrderMark line
  then substring 3 (String.length line - 3) line
  else line.

(** The handler [reader.onload] of [processFile], on the text of the
    file. *)
Definition processText (rnd : nat -> Q) (nowISO : string)
           (columnKeywords : ColumnKeywords) (text : string)
  : Rand UploadOutcome :=
  let lines := splitOn lineFeed text in
  if (List.length lines <? 2)%nat then ret EmptyFileError
  else
    let headerLine := stripByteOrderMark (hd EmptyString lines) in
    let headers := map trim (splitOn ","%char headerLine) in
    let c := resolveColumns headers columnKeywords in
    let missing := missingColumns columnKeywords c in
    if (0 <? List.length missing)%nat then ret (MappingError missing)
    else
      data <- parsedData rnd nowISO c lines ;;
      ret (DataLoaded data).

(** ** [loadSampleData] *)

Definition doctors : list (string * string) :=
  [("Dr. Sarah Chen", "1457890123"); ("Dr. Michael Ross", "1890234567");
   ("Dr. Emily Wei", "1678901234"); ("Dr. James Wilson", "1234567890");
   ("Dr. Lisa Patel", "1567890123")]%string.

Section LoadSampleData.

(** The random source, [Date.now()] when the record [i] is made, and the
    day of a time, [new Date(t).toISOString().split('T')[0]]. *)
Variable rnd : nat -> Q.
Variable now : nat -> Z.
Variable isoDay : Z -> string.

(** The callback of [Array.from({ length: 200 }).map((_, i) => ...)].
    [doctors[k]] is [undefined] outside the table, and reading its [name]
    throws. *)
Definition sampleRecord (i : nat) : Exec PatientProfile :=
  r <-! liftE (Math_random rnd) ;;
  let doc :=
    let k := Qfloor (binary64
                       (r * inject_Z (Z.of_nat (List.length doctors)))) in
    if (k <? 0)%Z then None else nth_error doctors (Z.to_nat k) in
  r <-! liftE (Math_random rnd) ;;
  line <-! (if Qgtb r (binary64 0.8) then retE 2%Z
            else (r' <-! liftE (Math_random rnd) ;;
                  retE (if Qgtb r' (binary64 0.9) then 3%Z else 1%Z))) ;;
  rAge <-! liftE (Math_random rnd) ;;
  rGender <-! liftE (Math_random rnd) ;;
  rMonths <-! liftE (Math_random rnd) ;;
  rDate <-! liftE (Math_random rnd) ;;
  rSpecialty <-! liftE (Math_random rnd) ;;
  rDrug <-! liftE (Math_random rnd) ;;
  match doc with
  | None => throwE
  | Some (name, npi) =>
      retE {| id := "P-" ++ decimal (1000 + i);
              age := Qfloor (binary64 (binary64 (rAge * (85 - 30)) + 30));
              gender := if Qgtb rGender 0.5 then "F" else "M";
              diagnosisCode := "C50.911";
              currentTherapyLine := line;
              monthsOnCurrentTherapy := Qfloor (binary64 (rMonths * 24));
              lastVisitDate :=
                isoDay (now i - Qfloor (binary64 (rDate * 10000000000)));
              npiSpecialty := if Qgtb rSpecialty (binary64 0.3)
                              then "Oncology" else "Internal Medicine";
              drugId := if Qgtb rDrug 0.5 then "Tamoxifen"
                        else "Letrozole";
              doctorName := name;
              npiId := npi;
              riskScore := None;
              riskCategory := None;
              split := None;
              actualOutcome := None |}
  end.

(** [mockData]. *)
Definition loadSampleData : Exec (list PatientProfile) :=
  Array_map (fun _ i => sampleRecord i) (repeat tt 200) 0.

End LoadSampleData.

(** What [loadSampleData] promises of the record of index [i]. *)
Definition sampleRecordOf (now : nat -> Z) (isoDay : Z -> string)
           (i : nat) (p : PatientProfile) : Prop :=
  id p = ("P-" ++ decimal (1000 + i))%string /\
  (30 <= age p <= 85)%Z /\
  (0 <= monthsOnCurrentTherapy p <= 23)%Z /\
  (currentTherapyLine p = 1 \/ currentTherapyLine p = 2 \/
   currentTherapyLine p = 3)%Z /\
  In (doctorName p, npiId p) doctors /\
  (exists t, lastVisitDate p = isoDay t /\
             (now i - 10000000000 < t <= now i)%Z) /\
  diagnosisCode p = "C50.911"%string /\
  (gender p = "F" \/ gender p = "M")%string /\
  (npiSpecialty p = "Oncology" \/
   npiSpecialty p = "Internal Medicine")%string /\
  (drugId p = "Tamoxifen" \/ drugId p = "Letrozole")%string /\
  riskScore p = None /\ riskCategory p = None /\
  split p = None /\ actualOutcome p = None.

(** Every character of [s] is in the class [[a-z0-9]], the characters that
    a normalized header is made of. *)
Fixpoint allLowerAlnum (s : string) : bool :=
  match s with
  | EmptyString => true
  | String c rest => isLowerAlnum c && allLowerAlnum rest
  end.

(* ================================================================== *)
(** * More of src/components/AnalysisDashboard.tsx *)
(* ================================================================== *)

Definition RiskCategory_eqb (a b : RiskCategory) : bool :=
  match a, b with
  | High, High | Medium, Medium | Low, Low => true
  | _, _ => false
  end.

(** [p.riskCategory === c]. *)
Definition category_is (c : RiskCategory) (p : PatientProfile) : bool :=
  match riskCategory p with
  | Some c' => RiskCategory_eqb c' c
  | None => false
  end.

Definition highRisk (patients : list PatientProfile) : list PatientProfile :=
  filter (category_is High) patients.

Definition mediumRisk (patients : list PatientProfile)
  : list PatientProfile :=
  filter (category_is Medium) patients.

Definition lowRisk (patients : list PatientProfile) : list PatientProfile :=
  filter (category_is Low) patients.

(** The [value]s of [riskDistribution], in its order: high, medium, low. *)
Definition riskDistribution (patients : list PatientProfile) : list Z :=
  [Z.of_nat (List.length (highRisk patients));
   Z.of_nat (List.length (mediumRisk patients));
   Z.of_nat (List.length (lowRisk patients))].

(** One [months] entry of [avgMonthsByRisk], before [toFixed(1)] prints
    it: [bucket.reduce((acc, p) => acc + p.monthsOnCurrentTherapy, 0) /
    (bucket.length || 1)]. *)
Definition avgMonths (bucket : list PatientProfile) : Q :=
  inject_Z (fold_left (fun acc p => (acc + monthsOnCurrentTherapy p)%Z)
                      bucket 0%Z) /
  inject_Z (Z.of_nat (if (List.length bucket =? 0)%nat then 1%nat
                      else List.length bucket)).

(** [p.riskScore || 0]. *)
Definition scoreOrZero (p : PatientProfile) : Q :=
  match riskScore p with
  | Some s => s
  | None => 0
  end.

(** The comparator of the table of the highest risks,
    [(a, b) => (b.riskScore || 0) - (a.riskScore || 0)]. *)
Definition byScoreDescending (a b : PatientProfile) : Q :=
  scoreOrZero b - scoreOrZero a.

(** [array.sort(comparefn)] for a comparator without effects.  For a
    comparator that orders the elements consistently, as
    [byScoreDescending] does, ECMAScript fixes the result: the elements in
    the order of [comparefn], elements that it does not order in the order
    of the array.  That is the result of the stable insertion sort. *)
Definition sortWith {A : Type} (comparefn : A -> A -> Q) (l : list A)
  : list A :=
  fst (insertion_sort (fun a b => ret (comparefn a b)) l 0%nat).

(** One step of the insertion sort for a comparator without effects. *)
Fixpoint insertPure {A : Type} (comparefn : A -> A -> Q) (x : A)
         (l : list A) : list A :=
  match l with
  | [] => [x]
  | y :: rest =>
      if Qlt_le_dec 0 (comparefn x y)
      then y :: insertPure comparefn x rest
      else x :: y :: rest
  end.

(** The rows of the table:
    [[...patients].sort(byScoreDescending).slice(0, 10)]. *)
Definition topPatients (patients : list PatientProfile)
  : list PatientProfile :=
  firstn 10 (sortWith byScoreDescending patients).

(** The same on the store.  The comparator reads the scores of the two
    objects in the store; [engine] is the sort of the engine. *)
Definition topPatients_st {engine : ArraySort} (patients : ref) : St ref :=
  copy <-$ Array_spread_st patients ;;
  sorted <-$ (fun h =>
                Array_sort_st
                  (fun a b =>
                     match object_at h a, object_at h b with
                     | Some p, Some q => ret (byScoreDescending p q)
                     | _, _ => ret 0
                     end) copy h) ;;
  Array_slice_st sorted 10.

(* ================================================================== *)
(** * CohortConfigurator (src/unnamed/part_001) *)
(* ================================================================== *)

(** [DiseasePreset] of [src/types.ts]. *)
Record DiseasePreset : Type := {
  preset_diseaseName : string;
  defaultLookbackMonths : Z;
  defaultPredictionWindowMonths : Z;
  defaultMinClaims : Z
}.

(** The admin defaults of [App] ([globalConfig.diseasePresets]). *)
Definition defaultDiseasePresets : list DiseasePreset :=
  [{| preset_diseaseName := "Breast Cancer"; defaultLookbackMonths := 12;
      defaultPredictionWindowMonths := 6; defaultMinClaims := 2 |};
   {| preset_diseaseName := "Diabetes"; defaultLookbackMonths := 24;
      defaultPredictionWindowMonths := 12; defaultMinClaims := 4 |};
   {| preset_diseaseName := "Lung Cancer"; defaultLookbackMonths := 6;
      defaultPredictionWindowMonths := 3; defaultMinClaims := 1 |}].

(** ** The preset of a disease *)

(** The four values that the effect sets: the three numbers of the form
    and [appliedPreset]. *)
Record PresetState : Type := {
  form_lookbackMonths : Z;
  form_predictionWindowMonths : Z;
  form_minClaimsCount : Z;
  appliedPreset : option string
}.

(** The [useState] defaults of the component. *)
Definition initialPresetState : PresetState :=
  {| form_lookbackMonths := 6; form_predictionWindowMonths := 3;
     form_minClaimsCount := 2; appliedPreset := None |}.

(** The test of [diseasePresets.find]. *)
Definition presetMatches (ontology : OntologyMapping) (p : DiseasePreset)
  : bool :=
  includes (toLowerCase (diseaseName ontology))
           (toLowerCase (preset_diseaseName p)) ||
  includes (toLowerCase (preset_diseaseName p))
           (toLowerCase (diseaseName ontology)).

(** The effect that applies a preset.  [find] on the empty list finds
    nothing, as the early [return] does. *)
Definition applyPreset (diseasePresets : list DiseasePreset)
           (ontology : OntologyMapping) (state : PresetState)
  : PresetState :=
  match diseasePresets with
  | [] => state
  | _ =>
      match find (presetMatches ontology) diseasePresets with
      | Some preset =>
          {| form_lookbackMonths := defaultLookbackMonths preset;
             form_predictionWindowMonths :=
               defaultPredictionWindowMonths preset;
             form_minClaimsCount := defaultMinClaims preset;
             appliedPreset := Some (preset_diseaseName preset) |}
      | None => state
      end
  end.

(** ** The statistics of the cohort *)

Record CohortStats : Type := {
  stats_total : Z;
  stats_distribution : list (string * Z);
  stats_missingDiagnosis : Z;
  stats_isImbalanced : bool;
  stats_eligibleCount : Z
}.

(** [patients.filter(test).length]. *)
Definition countWhere (test : PatientProfile -> bool)
           (patients : list PatientProfile) : Z :=
  Z.of_nat (List.length (filter test patients)).

(** [!s] on a string. *)
Definition isEmpty (s : string) : bool :=
  match s with
  | EmptyString => true
  | _ => false
  end.

(** The [useMemo] of [stats]; the colours of the chart are left out. *)
Definition stats (patients : list PatientProfile) : CohortStats :=
  let total := Z.of_nat (List.length patients) in
  let line1 := countWhere (fun p => (currentTherapyLine p =? 1)%Z) patients in
  let line2 := countWhere (fun p => (currentTherapyLine p =? 2)%Z) patients in
  let line3 := countWhere (fun p => (currentTherapyLine p >=? 3)%Z) patients in
  (* Check missing data *)
  let missingDiagnosis :=
    countWhere (fun p => isEmpty (diagnosisCode p) ||
                         String.eqb (diagnosisCode p) "Unknown") patients in
  (* Simple imbalance heuristic *)
  let ratio := if (total >? 0)%Z then inject_Z line1 / inject_Z total
               else 0 in
  let isImbalanced := Qltb ratio 0.15 || Qgtb ratio 0.85 in
  {| stats_total := total;
     stats_distribution := [("1st Line"%string, line1);
                            ("2nd Line"%string, line2);
                            ("3rd Line+"%string, line3)];
     stats_missingDiagnosis := missingDiagnosis;
     stats_isImbalanced := isImbalanced;
     stats_eligibleCount := line1 |}.

(** ** The recommended model *)

(** The effect on [stats.isImbalanced]: what it leaves in [modelType] and
    [imbalanceStrategy]. *)
Definition recommendModel (isImbalanced : bool)
           (selection : ModelType * ImbalanceStrategy)
  : ModelType * ImbalanceStrategy :=
  if isImbalanced then (XGBOOST, CLASS_WEIGHTS)
  else
    match selection with
    | (XGBOOST, CLASS_WEIGHTS) => (GENAI_REASONING, NONE)
    | _ => selection
    end.

(* ================================================================== *)
(** * AdminPanel (src/unnamed/part_000) *)
(* ================================================================== *)

(** [value.split(',').map(s => s.trim()).filter(s => s.length > 0)], the
    keywords of [handleKeywordChange]; the tags of a new study are read in
    the same way in [handleCreateSubmit] of the study dashboard. *)
Definition parseKeywords (value : string) : list string :=
  filter (fun s => (0 <? String.length s)%nat)
         (map trim (splitOn "," value)).

(** The value that the text area of a category shows,
    [keywords.join(', ')]. *)
Definition keywordsText (keywords : list string) : string :=
  String.concat ", " keywords.

(** The first character of [s], if any, is not white space. *)
Definition startsClean (s : string) : Prop :=
  match s with
  | EmptyString => True
  | String c _ => isWhitespace c = false
  end.

(** A keyword as the panel stores it: not empty, trimmed, and without a
    comma. *)
Definition storedKeyword (k : string) : Prop :=
  k <> EmptyString /\ trim k = k /\ ~ In ","%char (list_ascii_of_string k).

(** [keyof ColumnKeywords]. *)
Inductive KeywordCategory : Type :=
| IdKeywords
| DiagnosisKeywords
| PrescriptionKeywords
| ProcedureKeywords
| DateKeywords.

(** [prev.columnKeywords[category]]. *)
Definition keywordsOf (category : KeywordCategory)
           (columnKeywords : ColumnKeywords) : list string :=
  match category with
  | IdKeywords => kw_id columnKeywords
  | DiagnosisKeywords => kw_diagnosis columnKeywords
  | PrescriptionKeywords => kw_prescription columnKeywords
  | ProcedureKeywords => kw_procedure columnKeywords
  | DateKeywords => kw_date columnKeywords
  end.

(** [handleKeywordChange], on the [columnKeywords] of the local
    configuration: [{ ...prev.columnKeywords, [category]: keywords }]. *)
Definition handleKeywordChange (category : KeywordCategory) (value : string)
           (columnKeywords : ColumnKeywords) : ColumnKeywords :=
  let keywords := parseKeywords value in
  {| kw_id := match category with
              | IdKeywords => keywords
              | _ => kw_id columnKeywords
              end;
     kw_diagnosis := match category with
                     | DiagnosisKeywords => keywords
                     | _ => kw_diagnosis columnKeywords
                     end;
     kw_prescription := match category with
                        | PrescriptionKeywords => keywords
                        | _ => kw_prescription columnKeywords
                        end;
     kw_procedure := match category with
                     | ProcedureKeywords => keywords
                     | _ => kw_procedure columnKeywords
                     end;
     kw_date := match category with
                | DateKeywords => keywords
                | _ => kw_date columnKeywords
                end |}.

(* ================================================================== *)
(** * More of src/services/geminiService.ts *)
(* ================================================================== *)

(** The [Fallback default] of [parseResearchIntent]. *)
Definition fallbackOntology : OntologyMapping :=
  {| diseaseName := "Unknown";
     icdCodes := [];
     cptCodes := [];
     drugs := [];
     targetLineTransition := "1L to 2L" |}.

Section ParseResearchIntent.

(** The call of the engine for the prompt of a query, and [JSON.parse]
    with the cast of its value to [OntologyMapping]. *)
Variable generateContent : string -> GenerateContentResult.
Variable JSON_parse : string -> Completion OntologyMapping.

(** The body of the [try] block: an [undefined] or empty [text] throws
    [Empty response from Gemini]. *)
Definition intentOf (query : string) : Completion OntologyMapping :=
  match generateContent query with
  | Rejected => Throw
  | Response text =>
      match text with
      | Some (String c rest) => JSON_parse (String c rest)
      | Some EmptyString | None => Throw
      end
  end.

Definition parseResearchIntent (query : string)
  : Completion OntologyMapping :=
  match intentOf query with
  | Normal mapping => Normal mapping
  | Throw => Normal fallbackOntology
  end.

(** [handleAnalyze] of the query builder (src/unnamed/part_002), on the
    state [mapping]: a blank query returns at once, and a rejection of
    [parseResearchIntent] is logged. *)
Definition handleAnalyze (query : string)
           (mapping : option OntologyMapping) : option OntologyMapping :=
  if isEmpty (trim query) then mapping
  else
    match parseResearchIntent query with
    | Normal result => Some result
    | Throw => mapping
    end.

End ParseResearchIntent.

(* ================================================================== *)
(** * App (src/types.ts) *)
(* ================================================================== *)

Inductive AppStep : Type :=
| STUDY_DASHBOARD
| UPLOAD
| QUERY
| CONFIGURE
| ANALYSIS
| RESULTS
| ADMIN.

Inductive ExperimentStatus : Type := DRAFT | COMPLETED | PUBLISHED.

Record ExperimentMetrics : Type := {
  metrics_accuracy : Q;
  metrics_precision : Q;
  metrics_recall : Q;
  metrics_highRiskCount : Z
}.

Record Experiment : Type := {
  exp_id : string;
  exp_name : string;
  exp_timestamp : string;
  exp_tags : list string;
  exp_status : ExperimentStatus;
  exp_ontology : OntologyMapping;
  exp_config : CohortConfig;
  exp_metrics : option ExperimentMetrics;
  exp_patientCount : Z
}.

Record Study : Type := {
  study_id : string;
  study_name : string;
  study_description : string;
  study_categoryTags : list string;
  study_experiments : list Experiment;
  study_createdAt : string
}.

(** The state of [App] that the handlers below read and set. *)
Record AppState : Type := {
  currentStep : AppStep;
  app_patients : list PatientProfile;
  app_ontology : option OntologyMapping;
  app_cohortConfig : option CohortConfig;
  app_studies : list Study;
  currentStudyId : option string
}.

(** [s.id === currentStudyId]: [null] is no id. *)
Definition isCurrentStudy (currentStudyId : option string) (s : Study)
  : bool :=
  match currentStudyId with
  | Some sid => String.eqb (study_id s) sid
  | None => false
  end.

(** [handleSaveExperiment]; [now] is [Date.now()] and [nowISO] the text of
    [new Date().toISOString()].  A [null] or empty [currentStudyId] is
    falsy. *)
Definition handleSaveExperiment (now : nat) (nowISO : string)
           (name : string) (tags : list string) (state : AppState)
  : AppState :=
  match currentStudyId state, app_cohortConfig state, app_ontology state with
  | Some (String _ _), Some cohortConfig, Some ontology =>
      let newExperiment :=
        {| exp_id := "exp-" ++ decimal now;
           exp_name := name;
           exp_timestamp := nowISO;
           exp_tags := tags;
           exp_status := COMPLETED;
           exp_ontology := ontology;
           exp_config := cohortConfig;
           exp_patientCount := Z.of_nat (List.length (app_patients state));
           exp_metrics := Some
             {| metrics_accuracy := 0.85;
                metrics_precision := 0.82;
                metrics_recall := 0.78;
                metrics_highRiskCount :=
                  Z.of_nat (List.length
                              (filter (category_is High)
                                      (app_patients state))) |} |} in
      {| currentStep := currentStep state;
         app_patients := app_patients state;
         app_ontology := app_ontology state;
         app_cohortConfig := app_cohortConfig state;
         app_studies :=
           map (fun s =>
                  if isCurrentStudy (currentStudyId state) s
                  then {| study_id := study_id s;
                          study_name := study_name s;
                          study_description := study_description s;
                          study_categoryTags := study_categoryTags s;
                          study_experiments :=
                            newExperiment :: study_experiments s;
                          study_createdAt := study_createdAt s |}
                  else s)
               (app_studies state);
         currentStudyId := currentStudyId state |}
  | _, _, _ => state
  end.

(** A record with the three fields of the inference set. *)
Definition classified (r : PatientProfile) : Prop :=
  riskScore r <> None /\ riskCategory r <> None /\ split r <> None.

Section HandleConfigReady.

Context {engine : ArraySort}.
Variable rnd : nat -> Q.
Variable generateContent : Prompt -> GenerateContentResult.
Variable JSON_parse : string -> Completion JsonValue.

(** [handleConfigReady]: the run of [classifyPatientRisk] replaces the
    patients of the state; a rejection is logged and leaves the step at
    [ANALYSIS]. *)
Definition handleConfigReady (config : CohortConfig) (state : AppState)
  : Rand AppState :=
  match app_ontology state with
  | None => ret state
  | Some ontology =>
      c <- classifyPatientRisk rnd generateContent JSON_parse
             (app_patients state) ontology config ;;
      match c with
      | Normal scoredPatients =>
          ret {| currentStep := RESULTS;
                 app_patients := scoredPatients;
                 app_ontology := app_ontology state;
                 app_cohortConfig := Some config;
                 app_studies := app_studies state;
                 currentStudyId := currentStudyId state |}
      | Throw =>
          ret {| currentStep := ANALYSIS;
                 app_patients := app_patients state;
                 app_ontology := app_ontology state;
                 app_cohortConfig := Some config;
                 app_studies := app_studies state;
                 currentStudyId := currentStudyId state |}
      end
  end.

End HandleConfigReady.

(** ** A larger cohort *)

(** Forty eligible subjects, with the ids of [loadSampleData]. *)
Definition largeCohort : list PatientProfile :=
  map (fun i => examplePatient ("P-" ++ decimal (1000 + i)) 6) (seq 0 40).

(* ================================================================== *)
(** * Properties *)
(* ================================================================== *)

(** ** Doubles *)

From Stdlib Require Import Lqa.

(** *** Powers of two *)

Lemma pow2_pos (k : Z) : 0 < 2 ^ k.
Proof. apply Qpower_0_lt. reflexivity. Qed.

Lemma pow2_plus (a b : Z) : 2 ^ (a + b) == 2 ^ a * 2 ^ b.
Proof. apply Qpower_plus. discriminate. Qed.

Lemma pow2_succ (a : Z) : 2 ^ (a + 1) == 2 * 2 ^ a.
Proof. rewrite pow2_plus. change (2 ^ 1) with 2. ring. Qed.

Lemma pow2_inject (a : Z) : (0 <= a)%Z -> 2 ^ a == inject_Z (2 ^ a).
Proof. intro H. rewrite (Zpower_Qpower 2 a H). reflexivity. Qed.

Lemma pow2_cancel (a : Z) : 2 ^ a * 2 ^ (- a) == 1.
Proof. rewrite <- pow2_plus. rewrite Z.add_opp_diag_r. reflexivity. Qed.

Lemma ilog2_spec (x : Q) :
  0 < x -> 2 ^ ilog2 x <= x /\ x < 2 ^ (ilog2 x + 1).
Proof.
  intro Hx. destruct x as [n d].
  assert (Hn : (0 < n)%Z).
  { unfold Qlt in Hx. simpl in Hx. lia. }
  unfold ilog2. cbn [Qnum Qden].
  set (a := Z.log2 n). set (b := Z.log2 (Z.pos d)).
  assert (Ha0 : (0 <= a)%Z) by apply Z.log2_nonneg.
  assert (Hb0 : (0 <= b)%Z) by apply Z.log2_nonneg.
  destruct (Z.log2_spec n Hn) as (Ha1 & Ha2). fold a in Ha1, Ha2.
  destruct (Z.log2_spec (Z.pos d) (Pos2Z.is_pos d)) as (Hb1 & Hb2).
  fold b in Hb1, Hb2.
  assert (Hxd : (n # d) * inject_Z (Z.pos d) == inject_Z n).
  { unfold Qeq, Qmult, inject_Z. simpl. lia. }
  assert (HA1 : 2 ^ a <= inject_Z n)
    by (rewrite (pow2_inject Ha0), <- Zle_Qle; exact Ha1).
  assert (HA2 : inject_Z n < 2 * 2 ^ a).
  { rewrite <- pow2_succ, (pow2_inject (a := a + 1)) by lia.
    rewrite <- Zlt_Qlt. exact Ha2. }
  assert (HB1 : 2 ^ b <= inject_Z (Z.pos d))
    by (rewrite (pow2_inject Hb0), <- Zle_Qle; exact Hb1).
  assert (HB2 : inject_Z (Z.pos d) < 2 * 2 ^ b).
  { rewrite <- pow2_succ, (pow2_inject (a := b + 1)) by lia.
    rewrite <- Zlt_Qlt. exact Hb2. }
  assert (HP : 2 ^ (a - b) * 2 ^ b == 2 ^ a).
  { rewrite <- pow2_plus. replace (a - b + b)%Z with a by lia. reflexivity. }
  pose proof (pow2_pos a) as HApos. pose proof (pow2_pos b) as HBpos.
  pose proof (pow2_pos (a - b)) as HPpos.
  set (x := n # d) in *. set (A := 2 ^ a) in *. set (B := 2 ^ b) in *.
  set (P := 2 ^ (a - b)) in *. set (n' := inject_Z n) in *.
  set (d' := inject_Z (Z.pos d)) in *.
  assert (Hup : x < 2 * P).
  { apply Qnot_le_lt. intro H.
    assert (H1 : 2 * P * B <= x * B) by (apply Qmult_le_compat_r; lra).
    assert (H2 : x * B <= x * d').
    { rewrite !(Qmult_comm x). apply Qmult_le_compat_r; lra. }
    nra. }
  assert (Hlow : P < 2 * x).
  { apply Qnot_le_lt. intro H.
    assert (H1 : 2 * x * B <= P * B) by (apply Qmult_le_compat_r; lra).
    assert (H2 : x * d' <= x * (2 * B)).
    { rewrite !(Qmult_comm x). apply Qmult_le_compat_r; lra. }
    nra. }
  destruct (Qle_bool P x) eqn:E.
  - apply Qle_bool_iff in E. split; [exact E|].
    unfold P in Hup. rewrite pow2_succ. exact Hup.
  - assert (Hlt : x < P).
    { apply Qnot_le_lt. intro H. apply Qle_bool_iff in H. congruence. }
    replace (a - b - 1 + 1)%Z with (a - b)%Z by lia. split; [|exact Hlt].
    assert (Hhalf : 2 * 2 ^ (a - b - 1) == P).
    { rewrite <- pow2_succ. replace (a - b - 1 + 1)%Z with (a - b)%Z by lia.
      reflexivity. }
    lra.
Qed.

Lemma ilog2_lt (x : Q) (k : Z) : 0 < x -> x < 2 ^ k -> (ilog2 x < k)%Z.
Proof.
  intros Hx Hk. destruct (ilog2_spec Hx) as (Hlow & _).
  apply (@Qpower_lt_compat_l_inv 2); [|reflexivity].
  eapply Qle_lt_trans; [exact Hlow|exact Hk].
Qed.

Lemma ilog2_unique (x : Q) (k : Z) :
  2 ^ k <= x -> x < 2 ^ (k + 1) -> ilog2 x = k.
Proof.
  intros Hlow Hup.
  assert (Hx : 0 < x) by (eapply Qlt_le_trans; [apply pow2_pos|exact Hlow]).
  destruct (ilog2_spec Hx) as (Hl & Hu).
  assert (H1 : (ilog2 x < k + 1)%Z) by (apply ilog2_lt; assumption).
  assert (H2 : (k < ilog2 x + 1)%Z).
  { apply (@Qpower_lt_compat_l_inv 2); [|reflexivity].
    eapply Qle_lt_trans; [exact Hlow|exact Hu]. }
  lia.
Qed.

(** *** Rounding to the nearest integer *)

Lemma roundEven_floor (y : Q) :
  (Qfloor y <= roundEven y <= Qfloor y + 1)%Z.
Proof.
  unfold roundEven. destruct (Qcompare _ _); [destruct (Z.even _)| |]; lia.
Qed.

Lemma roundEven_ge (y : Q) (m : Z) : inject_Z m <= y -> (m <= roundEven y)%Z.
Proof.
  intro H. pose proof (roundEven_floor y) as Hf.
  assert (Hm : (m <= Qfloor y)%Z).
  { rewrite <- (Qfloor_Z m). apply Qfloor_resp_le. exact H. }
  lia.
Qed.

Lemma floor_le_int (y : Q) (m : Z) : y < inject_Z m + 1 -> (Qfloor y <= m)%Z.
Proof.
  intro H. destruct (Z_le_gt_dec (Qfloor y) m) as [Hle|Hgt]; [exact Hle|].
  exfalso. pose proof (Qfloor_le y) as Hf.
  assert (Hm : inject_Z (m + 1) <= inject_Z (Qfloor y))
    by (rewrite <- Zle_Qle; lia).
  rewrite inject_Z_plus in Hm. change (inject_Z 1) with 1 in Hm. lra.
Qed.

Lemma roundEven_below_half (y : Q) (m : Z) :
  y < inject_Z m + (1 # 2) -> (roundEven y <= m)%Z.
Proof.
  intro H. pose proof (roundEven_floor y) as Hf.
  assert (Hm : (Qfloor y <= m)%Z) by (apply floor_le_int; lra).
  destruct (Z.eq_dec (Qfloor y) m) as [Heq|Hne]; [|lia].
  unfold roundEven. rewrite Heq.
  assert (Hlt : y - inject_Z m < 1 # 2) by lra.
  assert (Hc : Qcompare (y - inject_Z m) (1 # 2) = Lt)
    by (apply (proj1 (Qlt_alt _ _)); exact Hlt).
  rewrite Hc. lia.
Qed.

Lemma roundEven_le (y : Q) (m : Z) : y <= inject_Z m -> (roundEven y <= m)%Z.
Proof. intro H. apply roundEven_below_half. lra. Qed.

(** *** Bounds of a rounded number *)

Lemma Qabs_pos_eq (x : Q) : 0 < x -> Qabs x = x.
Proof.
  destruct x as [n d]. unfold Qlt. simpl. intro H.
  rewrite Z.abs_eq by lia. reflexivity.
Qed.

Lemma binary64_pos (x : Q) :
  0 < x ->
  binary64 x =
  inject_Z (roundEven (x * 2 ^ (- Z.max (-1074) (ilog2 x - 52)))) *
  2 ^ Z.max (-1074) (ilog2 x - 52).
Proof.
  intro H. unfold binary64.
  destruct (Qeq_bool x 0) eqn:E.
  - apply Qeq_bool_iff in E. rewrite E in H. discriminate.
  - rewrite (Qabs_pos_eq H). reflexivity.
Qed.

Lemma binary64_nonneg (x : Q) : 0 <= x -> 0 <= binary64 x.
Proof.
  intro H. unfold binary64. destruct (Qeq_bool x 0); [apply Qle_refl|].
  apply Qmult_le_0_compat; [|apply Qlt_le_weak, pow2_pos].
  change 0 with (inject_Z 0). rewrite <- Zle_Qle. apply roundEven_ge.
  apply Qmult_le_0_compat; [exact H|apply Qlt_le_weak, pow2_pos].
Qed.

Lemma binary64_nonpos (x : Q) : x <= 0 -> binary64 x <= 0.
Proof.
  intro H. unfold binary64. destruct (Qeq_bool x 0); [apply Qle_refl|].
  set (e := Z.max (-1074) (ilog2 (Qabs x) - 52)).
  pose proof (pow2_pos e) as He. pose proof (pow2_pos (- e)) as He'.
  assert (Hy : x * 2 ^ (- e) <= inject_Z 0).
  { change (inject_Z 0) with 0. nra. }
  apply roundEven_le in Hy. rewrite Zle_Qle in Hy.
  change (inject_Z 0) with 0 in Hy. nra.
Qed.

(** [m * 2 ^ q] with [q >= e] is a multiple of [2 ^ e]. *)
Lemma scaled_integer (m q e : Z) :
  (e <= q)%Z ->
  inject_Z m * 2 ^ q * 2 ^ (- e) == inject_Z (m * 2 ^ (q - e)).
Proof.
  intro H. rewrite inject_Z_mult, <- (pow2_inject (a := q - e)) by lia.
  rewrite <- Qmult_assoc, <- pow2_plus.
  replace (q + - e)%Z with (q - e)%Z by lia. reflexivity.
Qed.

Lemma binary64_upper (x : Q) (m q : Z) :
  0 < x -> (m < 2 ^ 53)%Z -> (-1074 <= q)%Z ->
  x <= inject_Z m * 2 ^ q ->
  binary64 x <= inject_Z m * 2 ^ q.
Proof.
  intros Hx Hm Hq Hle. rewrite (binary64_pos Hx).
  set (e := Z.max (-1074) (ilog2 x - 52)).
  assert (He : (e <= q)%Z).
  { assert (Hlt : x < 2 ^ (53 + q)).
    { eapply Qle_lt_trans; [exact Hle|]. rewrite pow2_plus.
      apply Qmult_lt_compat_r; [apply pow2_pos|].
      rewrite (pow2_inject (a := 53)) by lia. rewrite <- Zlt_Qlt. exact Hm. }
    pose proof (@ilog2_lt x (53 + q) Hx Hlt). unfold e. lia. }
  pose proof (pow2_pos e) as Hpe. pose proof (pow2_pos (- e)) as Hpe'.
  assert (Hy : x * 2 ^ (- e) <= inject_Z (m * 2 ^ (q - e))).
  { rewrite <- (scaled_integer m He). apply Qmult_le_compat_r; lra. }
  apply roundEven_le in Hy. rewrite Zle_Qle in Hy.
  rewrite <- (scaled_integer m He) in Hy.
  assert (Hback : inject_Z m * 2 ^ q * 2 ^ (- e) * 2 ^ e ==
                  inject_Z m * 2 ^ q).
  { rewrite <- Qmult_assoc, (Qmult_comm (2 ^ (- e))), pow2_cancel. ring. }
  rewrite <- Hback. apply Qmult_le_compat_r; lra.
Qed.

Lemma binary64_lower (x : Q) (m q : Z) :
  (0 < m < 2 ^ 53)%Z -> (-1074 <= q)%Z ->
  inject_Z m * 2 ^ q <= x ->
  inject_Z m * 2 ^ q <= binary64 x.
Proof.
  intros Hm Hq Hle.
  pose proof (pow2_pos q) as Hpq.
  assert (Hm0 : 0 < inject_Z m)
    by (change 0 with (inject_Z 0); rewrite <- Zlt_Qlt; lia).
  assert (Hx : 0 < x) by nra.
  rewrite (binary64_pos Hx).
  set (e := Z.max (-1074) (ilog2 x - 52)).
  pose proof (pow2_pos e) as Hpe. pose proof (pow2_pos (- e)) as Hpe'.
  destruct (Z_le_gt_dec e q) as [He|He].
  - assert (Hy : inject_Z (m * 2 ^ (q - e)) <= x * 2 ^ (- e)).
    { rewrite <- (scaled_integer m He). apply Qmult_le_compat_r; lra. }
    apply roundEven_ge in Hy. rewrite Zle_Qle in Hy.
    rewrite <- (scaled_integer m He) in Hy.
    assert (Hback : inject_Z m * 2 ^ q * 2 ^ (- e) * 2 ^ e ==
                    inject_Z m * 2 ^ q).
    { rewrite <- Qmult_assoc, (Qmult_comm (2 ^ (- e))), pow2_cancel. ring. }
    rewrite <- Hback. apply Qmult_le_compat_r; lra.
  - assert (Hee : e = (ilog2 x - 52)%Z) by (unfold e in *; lia).
    destruct (ilog2_spec Hx) as (Hlow & _).
    assert (Hy : inject_Z (2 ^ 52) <= x * 2 ^ (- e)).
    { rewrite <- (pow2_inject (a := 52)) by lia.
      assert (H52 : 2 ^ 52 == 2 ^ ilog2 x * 2 ^ (- e)).
      { rewrite <- pow2_plus. rewrite Hee.
        replace (ilog2 x + - (ilog2 x - 52))%Z with 52%Z by lia.
        reflexivity. }
      rewrite H52. apply Qmult_le_compat_r; lra. }
    apply roundEven_ge in Hy. rewrite Zle_Qle in Hy.
    rewrite <- (pow2_inject (a := 52)) in Hy by lia.
    assert (Hbig : inject_Z m * 2 ^ q <= 2 ^ 52 * 2 ^ e).
    { assert (H53 : 2 ^ 53 * 2 ^ q <= 2 ^ 52 * 2 ^ e).
      { rewrite <- !pow2_plus. apply Qpower_le_compat_l; [lia|].
        discriminate. }
      assert (Hm53 : inject_Z m <= 2 ^ 53).
      { rewrite (pow2_inject (a := 53)) by lia. rewrite <- Zle_Qle. lia. }
      assert (inject_Z m * 2 ^ q <= 2 ^ 53 * 2 ^ q)
        by (apply Qmult_le_compat_r; lra).
      lra. }
    eapply Qle_trans; [exact Hbig|]. apply Qmult_le_compat_r; lra.
Qed.

Lemma binary64_le_int (x : Q) (M : Z) :
  (0 <= M < 2 ^ 53)%Z -> x <= inject_Z M -> binary64 x <= inject_Z M.
Proof.
  intros HM Hx. destruct (Qlt_le_dec 0 x) as [Hpos|Hneg].
  - assert (H : binary64 x <= inject_Z M * 2 ^ 0).
    { apply binary64_upper; [exact Hpos|lia|lia|].
      change (2 ^ 0) with 1. lra. }
    change (2 ^ 0) with 1 in H. lra.
  - pose proof (binary64_nonpos Hneg).
    assert (0 <= inject_Z M)
      by (change 0 with (inject_Z 0); rewrite <- Zle_Qle; lia).
    lra.
Qed.

Lemma binary64_ge_int (x : Q) (M : Z) :
  (0 <= M < 2 ^ 53)%Z -> inject_Z M <= x -> inject_Z M <= binary64 x.
Proof.
  intros HM Hx. destruct (Z.eq_dec M 0) as [->|Hne].
  - apply binary64_nonneg. exact Hx.
  - assert (H : inject_Z M * 2 ^ 0 <= binary64 x).
    { apply binary64_lower; [lia|lia|]. change (2 ^ 0) with 1. lra. }
    change (2 ^ 0) with 1 in H. lra.
Qed.

(** The product of a number below 1 by an integer is rounded below the
    integer: [x <= M * (1 - 2^-53)] is rounded to less than [M]. *)
Lemma binary64_below_int (x : Q) (M : Z) :
  (1 <= M < 2 ^ 53)%Z ->
  x <= inject_Z M * (1 - 2 ^ (-53)) ->
  binary64 x < inject_Z M.
Proof.
  intros HM Hx.
  assert (HM0 : 0 < inject_Z M)
    by (change 0 with (inject_Z 0); rewrite <- Zlt_Qlt; lia).
  destruct (Qlt_le_dec 0 x) as [Hpos|Hneg];
    [|pose proof (binary64_nonpos Hneg); lra].
  set (k := Z.log2 M).
  assert (Hk0 : (0 <= k)%Z) by apply Z.log2_nonneg.
  destruct (Z.log2_spec M ltac:(lia)) as (Hk1 & Hk2). fold k in Hk1, Hk2.
  assert (Hk52 : (k < 53)%Z).
  { apply (Z.pow_lt_mono_r_iff 2); lia. }
  assert (HQ1 : 2 ^ k <= inject_Z M)
    by (rewrite (pow2_inject Hk0), <- Zle_Qle; exact Hk1).
  assert (HQ2 : inject_Z M < 2 ^ (k + 1)).
  { rewrite (pow2_inject (a := k + 1)) by lia. rewrite <- Zlt_Qlt.
    exact Hk2. }
  pose proof (pow2_pos (-53)) as H53.
  pose proof (pow2_pos k) as Hpk.
  assert (HxM : x < inject_Z M) by nra.
  destruct (Qlt_le_dec x (2 ^ k)) as [Hsmall|Hbig].
  - destruct (Z.eq_dec M (2 ^ k)) as [Heq|Hne].
    + assert (Hrep : inject_Z (2 ^ 53 - 1) * 2 ^ (k - 53) ==
                     inject_Z M * (1 - 2 ^ (-53))).
      { rewrite Heq, <- (pow2_inject Hk0).
        unfold Zminus. rewrite inject_Z_plus, <- (pow2_inject (a := 53)) by lia.
        change (inject_Z (- (1))) with (- (1)).
        replace (k + - (53))%Z with (k + (-53))%Z by lia.
        rewrite pow2_plus.
        assert (H1 : 2 ^ 53 * 2 ^ (-53) == 1) by apply pow2_cancel.
        set (a := 2 ^ k) in *. set (b := 2 ^ (-53)) in *.
        set (c := 2 ^ 53) in *.
        transitivity (a * (c * b) - a * b); [ring|]. rewrite H1. ring. }
      assert (H : binary64 x <= inject_Z (2 ^ 53 - 1) * 2 ^ (k - 53)).
      { apply binary64_upper; [exact Hpos|lia|lia|]. rewrite Hrep. exact Hx. }
      rewrite Hrep in H. nra.
    + assert (H : binary64 x <= inject_Z 1 * 2 ^ k).
      { apply binary64_upper; [exact Hpos|lia|lia|].
        change (inject_Z 1) with 1. lra. }
      change (inject_Z 1) with 1 in H.
      assert (Hlt : 2 ^ k < inject_Z M).
      { rewrite (pow2_inject Hk0), <- Zlt_Qlt. lia. }
      lra.
  - assert (Hlog : ilog2 x = k).
    { apply ilog2_unique; [exact Hbig|lra]. }
    rewrite (binary64_pos Hpos), Hlog.
    replace (Z.max (-1074) (k - 52)) with (k - 52)%Z by lia.
    set (e := (k - 52)%Z).
    pose proof (pow2_pos e) as Hpe. pose proof (pow2_pos (- e)) as Hpe'.
    assert (HI : inject_Z M * 2 ^ (- e) == inject_Z (M * 2 ^ (52 - k))).
    { rewrite inject_Z_mult, <- (pow2_inject (a := 52 - k)) by lia.
      replace (- e)%Z with (52 - k)%Z by (unfold e; lia). reflexivity. }
    assert (Hhalf : 1 # 2 < inject_Z M * 2 ^ (-53) * 2 ^ (- e)).
    { assert (Hh : 2 ^ k * 2 ^ (-53) * 2 ^ (- e) == 1 # 2).
      { rewrite <- !pow2_plus.
        replace (k + -53 + - e)%Z with (-1)%Z by (unfold e; lia).
        reflexivity. }
      rewrite <- Hh.
      assert (Hlt : 2 ^ k < inject_Z M) by lra.
      apply Qmult_lt_compat_r; [exact Hpe'|].
      apply Qmult_lt_compat_r; [exact H53|exact Hlt]. }
    assert (Hy : x * 2 ^ (- e) <
                 inject_Z (M * 2 ^ (52 - k) - 1) + (1 # 2)).
    { unfold Zminus. rewrite inject_Z_plus, <- HI.
      change (inject_Z (- (1))) with (- (1)).
      assert (Hxe : x * 2 ^ (- e) <=
                    inject_Z M * (1 - 2 ^ (-53)) * 2 ^ (- e))
        by (apply Qmult_le_compat_r; lra).
      set (u := inject_Z M) in *. set (v := 2 ^ (- e)) in *.
      set (w := 2 ^ (-53)) in *.
      assert (Hexp : u * (1 - w) * v == u * v - u * w * v) by ring.
      rewrite Hexp in Hxe. lra. }
    apply roundEven_below_half in Hy. rewrite Zle_Qle in Hy.
    unfold Zminus in Hy. rewrite inject_Z_plus, <- HI in Hy.
    change (inject_Z (- (1))) with (- (1)) in Hy.
    assert (Hback : inject_Z M * 2 ^ (- e) * 2 ^ e == inject_Z M).
    { rewrite <- Qmult_assoc, (Qmult_comm (2 ^ (- e))), pow2_cancel. ring. }
    set (r := inject_Z (roundEven (x * 2 ^ (- e)))) in *.
    assert (Hr : r * 2 ^ e <= (inject_Z M * 2 ^ (- e) + - (1)) * 2 ^ e)
      by (apply Qmult_le_compat_r; lra).
    assert (Hexp : (inject_Z M * 2 ^ (- e) + - (1)) * 2 ^ e ==
                   inject_Z M * 2 ^ (- e) * 2 ^ e - 2 ^ e) by ring.
    rewrite Hexp, Hback in Hr. lra.
Qed.

(** A double is its own rounding. *)
Lemma binary64_double (m q : Z) :
  (0 < m < 2 ^ 53)%Z -> (-1074 <= q)%Z ->
  binary64 (inject_Z m * 2 ^ q) == inject_Z m * 2 ^ q.
Proof.
  intros Hm Hq. pose proof (pow2_pos q) as Hp.
  assert (Hm0 : 0 < inject_Z m)
    by (change 0 with (inject_Z 0); rewrite <- Zlt_Qlt; lia).
  apply Qle_antisym.
  - apply binary64_upper; [nra|lia|exact Hq|apply Qle_refl].
  - apply binary64_lower; [exact Hm|exact Hq|apply Qle_refl].
Qed.

(** The doubles of some literals of the code, and a tie: [1 - 0.3] lies
    half way between two doubles and goes to the even one, which is the
    double of [0.7]. *)
Lemma binary64_examples :
  binary64 0.1 == 3602879701896397 # 36028797018963968 /\
  binary64 0.3 == 5404319552844595 # 18014398509481984 /\
  binary64 0.7 == 3152519739159347 # 4503599627370496 /\
  binary64 (1 - binary64 0.3) == binary64 0.7 /\
  ~ 1 - binary64 0.3 == binary64 0.7.
Proof. repeat split; vm_compute; try reflexivity; discriminate. Qed.

(** ** Comparisons on scores *)

Lemma Qgtb_true (a b : Q) : Qgtb a b = true <-> b < a.
Proof.
  unfold Qgtb. rewrite negb_true_iff. split; intro H.
  - apply Qnot_le_lt. intro Hle. apply Qle_bool_iff in Hle. congruence.
  - destruct (Qle_bool a b) eqn:E; [|reflexivity].
    apply Qle_bool_iff in E. exfalso. exact (Qlt_not_le _ _ H E).
Qed.

Lemma Qgtb_false (a b : Q) : Qgtb a b = false <-> a <= b.
Proof.
  unfold Qgtb. rewrite negb_false_iff. apply Qle_bool_iff.
Qed.

Lemma Qltb_true (a b : Q) : Qltb a b = true <-> a < b.
Proof. apply (Qgtb_true b a). Qed.

(** ** The run of a computation *)

Lemma bind_run (A B : Type) (m : Rand A) (k : A -> Rand B) (n : nat) :
  bind m k n = k (fst (m n)) (snd (m n)).
Proof. unfold bind. destruct (m n); reflexivity. Qed.

Lemma bindE_normal (A B : Type) (m : Exec A) (k : A -> Exec B)
      (n n' : nat) (a : A) :
  m n = (Normal a, n') -> bindE m k n = k a n'.
Proof. intro H. unfold bindE, bind. rewrite H. reflexivity. Qed.

Lemma bindE_throw (A B : Type) (m : Exec A) (k : A -> Exec B) (n n' : nat) :
  m n = (Throw, n') -> bindE m k n = (Throw, n').
Proof. intro H. unfold bindE, bind. rewrite H. reflexivity. Qed.

(** ** Insertion sort is a legal [sort] *)

Lemma insert_by_permutation (A : Type) (comparefn : A -> A -> Rand Q)
      (x : A) (l : list A) (n : nat) :
  Permutation (fst (insert_by comparefn x l n)) (x :: l).
Proof.
  revert n. induction l as [|y rest IH]; intro n; simpl.
  - apply Permutation_refl.
  - rewrite bind_run.
    destruct (Qlt_le_dec 0 (fst (comparefn x y n))).
    + rewrite bind_run. simpl.
      eapply Permutation_trans; [|apply perm_swap].
      apply perm_skip. apply IH.
    + apply Permutation_refl.
Qed.

Lemma insertion_sort_permutation (A : Type) (comparefn : A -> A -> Rand Q)
      (l : list A) (n : nat) :
  Permutation (fst (insertion_sort comparefn l n)) l.
Proof.
  revert n. induction l as [|x rest IH]; intro n; simpl.
  - apply Permutation_refl.
  - rewrite bind_run.
    eapply Permutation_trans; [apply insert_by_permutation|].
    apply perm_skip. apply IH.
Qed.

Lemma insert_by_natural (A B : Type) (f : A -> B)
      (cmpA : A -> A -> Rand Q) (cmpB : B -> B -> Rand Q) :
  (forall a b n, cmpB (f a) (f b) n = cmpA a b n) ->
  forall (x : A) (l : list A) (n : nat),
    insert_by cmpB (f x) (map f l) n =
    (map f (fst (insert_by cmpA x l n)), snd (insert_by cmpA x l n)).
Proof.
  intros Hcmp x l. induction l as [|y rest IH]; intro n; simpl.
  - reflexivity.
  - rewrite !bind_run, Hcmp.
    destruct (Qlt_le_dec 0 (fst (cmpA x y n))).
    + rewrite !bind_run, IH. reflexivity.
    + reflexivity.
Qed.

Lemma insertion_sort_natural (A B : Type) (f : A -> B)
      (cmpA : A -> A -> Rand Q) (cmpB : B -> B -> Rand Q) :
  (forall a b n, cmpB (f a) (f b) n = cmpA a b n) ->
  forall (l : list A) (n : nat),
    insertion_sort cmpB (map f l) n =
    (map f (fst (insertion_sort cmpA l n)),
     snd (insertion_sort cmpA l n)).
Proof.
  intros Hcmp l. induction l as [|x rest IH]; intro n; simpl.
  - reflexivity.
  - rewrite !bind_run, IH. simpl.
    apply insert_by_natural. exact Hcmp.
Qed.

Definition insertionSortEngine : ArraySort := {|
  Array_sort := @insertion_sort;
  Array_sort_permutation := insertion_sort_permutation;
  Array_sort_natural := insertion_sort_natural
|}.

(** ** The three ways a run of [classifyPatientRisk] ends *)

Section ClassifyRuns.

Context {engine : ArraySort}.
Variable rnd : nat -> Q.
Variable generateContent : Prompt -> GenerateContentResult.
Variable JSON_parse : string -> Completion JsonValue.

Local Abbreviation classify :=
  (classifyPatientRisk rnd generateContent JSON_parse).
Local Abbreviation outcome :=
  (engineOutcome rnd generateContent JSON_parse).
Local Abbreviation shuffled_of := (shuffledOf rnd).

(** The counter after the shuffle. *)
Let afterShuffle (patients : list PatientProfile) (n : nat) : nat :=
  snd (Array_sort (@shuffleCompare rnd PatientProfile)
                  (filter eligible patients) n).

Lemma scorePatient_run (config : CohortConfig) (splitIndex : Z)
      (items : list Prediction) (p : PatientProfile) (index n : nat) :
  exists r n',
    scorePatient rnd config splitIndex (JsonArray items) p index n =
    (Normal r, n') /\
    scoredRecord rnd config splitIndex items index p r.
Proof.
  unfold scorePatient, scoredRecord. cbn [predictions_find].
  destruct (find (fun item => String.eqb (pred_id item) (id p)) items)
    as [pred|] eqn:Hfind.
  - eexists. eexists. split; [reflexivity|].
    exists (pred_riskScore pred), n. split; [reflexivity|].
    reflexivity.
  - eexists. eexists. split; [reflexivity|].
    exists (simulatedScore config p (rnd n)), (S n).
    split; [reflexivity|]. exists n. reflexivity.
Qed.

Lemma Array_map_scorePatient (config : CohortConfig) (splitIndex : Z)
      (items : list Prediction) (l : list PatientProfile) :
  forall index n, exists out n',
    Array_map (scorePatient rnd config splitIndex (JsonArray items))
              l index n = (Normal out, n') /\
    Forall2_from (scoredRecord rnd config splitIndex items) index l out.
Proof.
  induction l as [|p rest IH]; intros index n.
  - exists [], n. split; [reflexivity|constructor].
  - destruct (scorePatient_run config splitIndex items p index n)
      as (r & n1 & Hrun & Hr).
    destruct (IH (S index) n1) as (out & n2 & Hmap & Hout).
    exists (r :: out), n2. split.
    + simpl. erewrite bindE_normal; [|exact Hrun].
      erewrite bindE_normal; [|exact Hmap]. reflexivity.
    + constructor; assumption.
Qed.

(** The engine-success path. *)
Lemma classify_success (patients : list PatientProfile)
      (ontology : OntologyMapping) (config : CohortConfig) (n : nat)
      (items : list Prediction) :
  outcome patients ontology config n = Normal (JsonArray items) ->
  exists out n',
    classify patients ontology config n = (Normal out, n') /\
    Forall2_from
      (scoredRecord rnd config
         (splitIndexOf (List.length (shuffled_of patients n)) config)
         items)
      0 (shuffled_of patients n) out.
Proof.
  unfold engineOutcome, promptOf, shuffledOf. intro H.
  destruct (Array_map_scorePatient config
              (splitIndexOf (List.length (shuffled_of patients n)) config)
              items (shuffled_of patients n) 0 (afterShuffle patients n))
    as (out & n' & Hmap & Hout).
  exists out, n'. split; [|exact Hout].
  unfold classifyPatientRisk. rewrite bind_run. cbv zeta.
  unfold try_catch. rewrite bind_run. unfold tryBlock.
  destruct (generateContent _) as [|text]; [discriminate|].
  erewrite bindE_normal; [|exact (f_equal (fun c => (c, _)) H)].
  unfold shuffledOf, afterShuffle in Hmap. rewrite Hmap. reflexivity.
Qed.

(** The draws of a run of the callback over [l], record by record: the
    draw of the simulated score, when the score is simulated, and the draw
    of the outcome, which is the next one.  No draw is read twice. *)
Lemma Array_map_scorePatient_plan (config : CohortConfig) (splitIndex : Z)
      (items : list Prediction) (l : list PatientProfile) :
  forall index n out n',
    Array_map (scorePatient rnd config splitIndex (JsonArray items))
              l index n = (Normal out, n') ->
    (n <= n')%nat /\
    exists draws : list (option nat * nat),
      Forall (fun k => n <= k < n')%nat
             (flat_map (fun d => match fst d with
                                 | Some j => [j; snd d]
                                 | None => [snd d]
                                 end) draws) /\
      NoDup (flat_map (fun d => match fst d with
                                | Some j => [j; snd d]
                                | None => [snd d]
                                end) draws) /\
      Forall2 (fun d r => exists score b,
                   riskScore r = Some score /\
                   actualOutcome r = Some b /\
                   (b = true <-> rnd (snd d) < score) /\
                   match fst d with
                   | None =>
                       exists pred,
                         find (fun item => String.eqb (pred_id item) (id r))
                              items = Some pred /\
                         score = pred_riskScore pred
                   | Some j =>
                       find (fun item => String.eqb (pred_id item) (id r))
                            items = None /\
                       score = simulatedScore config r (rnd j) /\
                       snd d = S j
                   end) draws out.
Proof.
  induction l as [|p rest IH]; intros index n out n' Hrun.
  - injection Hrun as <- <-. split; [lia|].
    exists []. repeat constructor.
  - cbn [Array_map] in Hrun.
    destruct (Array_map (scorePatient rnd config splitIndex
                           (JsonArray items)) rest (S index)
                (match find (fun item => String.eqb (pred_id item) (id p))
                            items with
                 | Some _ => S n
                 | None => S (S n)
                 end))
      as [[out'|] n2] eqn:Hrest.
    + destruct (IH _ _ _ _ Hrest) as (Hle & draws & Hks & Hnodup & Hall).
      unfold scorePatient in Hrun. cbn [predictions_find] in Hrun.
      destruct (find (fun item => String.eqb (pred_id item) (id p)) items)
        as [pred|] eqn:Hfind.
      * erewrite bindE_normal in Hrun; [|reflexivity].
        erewrite bindE_normal in Hrun; [|exact Hrest].
        injection Hrun as <- <-. split; [lia|].
        exists ((None, n) :: draws). cbn [flat_map fst snd app].
        split; [|split].
        -- constructor; [lia|].
           eapply Forall_impl; [|exact Hks]. simpl. intros k Hk. lia.
        -- constructor; [|exact Hnodup].
           intro Hin. apply (proj1 (Forall_forall _ _) Hks) in Hin. lia.
        -- constructor; [|exact Hall].
           exists (pred_riskScore pred), (Qltb (rnd n) (pred_riskScore pred)).
           split; [reflexivity|]. split; [reflexivity|].
           split; [apply Qltb_true|].
           exists pred. split; [exact Hfind|reflexivity].
      * erewrite bindE_normal in Hrun; [|reflexivity].
        erewrite bindE_normal in Hrun; [|exact Hrest].
        injection Hrun as <- <-. split; [lia|].
        exists ((Some n, S n) :: draws). cbn [flat_map fst snd app].
        split; [|split].
        -- constructor; [lia|]. constructor; [lia|].
           eapply Forall_impl; [|exact Hks]. simpl. intros k Hk. lia.
        -- constructor.
           ++ intros [Hin|Hin]; [lia|].
              apply (proj1 (Forall_forall _ _) Hks) in Hin. lia.
           ++ constructor; [|exact Hnodup].
              intro Hin. apply (proj1 (Forall_forall _ _) Hks) in Hin. lia.
        -- constructor; [|exact Hall].
           exists (simulatedScore config p (rnd n)),
                  (Qltb (rnd (S n)) (simulatedScore config p (rnd n))).
           split; [reflexivity|]. split; [reflexivity|].
           split; [apply Qltb_true|].
           split; [exact Hfind|]. split; reflexivity.
    + exfalso. unfold scorePatient in Hrun. cbn [predictions_find] in Hrun.
      destruct (find (fun item => String.eqb (pred_id item) (id p)) items);
        (erewrite bindE_normal in Hrun; [|reflexivity]);
        (erewrite bindE_throw in Hrun; [|exact Hrest]); discriminate.
Qed.

(** The draws of the records on the engine-success path: they come after
    the draws of the shuffle. *)
Lemma classify_success_plan (patients : list PatientProfile)
      (ontology : OntologyMapping) (config : CohortConfig) (n : nat)
      (items : list Prediction) (out : list PatientProfile) (n' : nat) :
  outcome patients ontology config n = Normal (JsonArray items) ->
  classify patients ontology config n = (Normal out, n') ->
  exists draws : list (option nat * nat),
    Forall (fun k => afterShuffle patients n <= k < n')%nat
           (flat_map (fun d => match fst d with
                               | Some j => [j; snd d]
                               | None => [snd d]
                               end) draws) /\
    NoDup (flat_map (fun d => match fst d with
                              | Some j => [j; snd d]
                              | None => [snd d]
                              end) draws) /\
    Forall2 (fun d r => exists score b,
                 riskScore r = Some score /\
                 actualOutcome r = Some b /\
                 (b = true <-> rnd (snd d) < score) /\
                 match fst d with
                 | None =>
                     exists pred,
                       find (fun item => String.eqb (pred_id item) (id r))
                            items = Some pred /\
                       score = pred_riskScore pred
                 | Some j =>
                     find (fun item => String.eqb (pred_id item) (id r))
                          items = None /\
                     score = simulatedScore config r (rnd j) /\
                     snd d = S j
                 end) draws out.
Proof.
  unfold engineOutcome, promptOf, shuffledOf. intros H Hc.
  unfold classifyPatientRisk in Hc. rewrite bind_run in Hc. cbv zeta in Hc.
  unfold try_catch in Hc. rewrite bind_run in Hc. unfold tryBlock in Hc.
  destruct (generateContent _) as [|text]; [discriminate|].
  erewrite bindE_normal in Hc; [|exact (f_equal (fun c => (c, _)) H)].
  match type of Hc with
  | context [Array_map ?f ?l 0%nat ?m] =>
      destruct (Array_map f l 0%nat m) as [[out'|] n2] eqn:Hmap
  end.
  - simpl in Hc. injection Hc as <- <-.
    destruct (Array_map_scorePatient_plan _ _ _ _ _ _ Hmap)
      as (_ & draws & Hks & Hnodup & Hall).
    exists draws. split; [exact Hks|]. split; assumption.
  - destruct (Array_map_scorePatient config
                (splitIndexOf (List.length (shuffled_of patients n)) config)
                items (shuffled_of patients n) 0 (afterShuffle patients n))
      as (out0 & n0 & Hmap0 & _).
    unfold shuffledOf, afterShuffle in Hmap0. congruence.
Qed.

(** The total fallback: the call is rejected or [JSON.parse] throws. *)
Lemma classify_failure (patients : list PatientProfile)
      (ontology : OntologyMapping) (config : CohortConfig) (n : nat) :
  outcome patients ontology config n = Throw ->
  classify patients ontology config n =
  (Normal (map fallbackRecord patients), afterShuffle patients n).
Proof.
  unfold engineOutcome, promptOf, shuffledOf. intro H.
  unfold classifyPatientRisk. rewrite bind_run. cbv zeta.
  unfold try_catch. rewrite bind_run. unfold tryBlock.
  destruct (generateContent _) as [|text].
  - reflexivity.
  - erewrite bindE_throw; [|exact (f_equal (fun c => (c, _)) H)].
    reflexivity.
Qed.

(** A response that parses to a value that is not an array: the first
    call of the callback throws, and without an eligible subject the
    callback is never called. *)
Lemma classify_other (patients : list PatientProfile)
      (ontology : OntologyMapping) (config : CohortConfig) (n : nat) :
  outcome patients ontology config n = Normal JsonOther ->
  classify patients ontology config n =
  (Normal (match shuffled_of patients n with
           | [] => []
           | _ :: _ => map fallbackRecord patients
           end), afterShuffle patients n).
Proof.
  unfold engineOutcome, promptOf, shuffledOf. intro H.
  unfold classifyPatientRisk. rewrite bind_run. cbv zeta.
  unfold try_catch. rewrite bind_run. unfold tryBlock.
  destruct (generateContent _) as [|text]; [discriminate|].
  erewrite bindE_normal; [|exact (f_equal (fun c => (c, _)) H)].
  fold (afterShuffle patients n).
  destruct (fst (Array_sort _ _ n)) as [|p rest]; reflexivity.
Qed.

End ClassifyRuns.

(** ** Lists related index by index *)

Lemma Forall2_from_Forall2 (A B : Type) (R : nat -> A -> B -> Prop)
      (S : A -> B -> Prop) :
  (forall i a b, R i a b -> S a b) ->
  forall i l l', Forall2_from R i l l' -> Forall2 S l l'.
Proof.
  intros HRS i l l' H. induction H; constructor; eauto.
Qed.

Lemma Forall2_from_nth (A B : Type) (R : nat -> A -> B -> Prop) :
  forall i l l', Forall2_from R i l l' ->
  forall k b, nth_error l' k = Some b ->
  exists a, nth_error l k = Some a /\ R (i + k)%nat a b.
Proof.
  intros i l l' H. induction H as [i|i a b l l' Hab _ IH]; intros k b' Hk.
  - destruct k; discriminate.
  - destruct k as [|k]; simpl in Hk.
    + injection Hk as <-. exists a. rewrite Nat.add_0_r. split; auto.
    + destruct (IH k b' Hk) as (a' & Ha' & HR).
      exists a'. rewrite Nat.add_succ_r. split; assumption.
Qed.

Lemma Forall2_from_Forall_r (A B : Type) (R : nat -> A -> B -> Prop)
      (P : B -> Prop) :
  (forall i a b, R i a b -> P b) ->
  forall i l l', Forall2_from R i l l' -> Forall P l'.
Proof.
  intros HRP i l l' H. induction H; constructor; eauto.
Qed.

Lemma Forall2_length_eq (A B : Type) (S : A -> B -> Prop) (l : list A)
      (l' : list B) :
  Forall2 S l l' -> List.length l' = List.length l.
Proof. intro H. induction H; simpl; congruence. Qed.

Lemma Forall2_In_r (A B : Type) (S : A -> B -> Prop) (l : list A)
      (l' : list B) (b : B) :
  Forall2 S l l' -> In b l' -> exists a, In a l /\ S a b.
Proof.
  intro H. induction H as [|a b' l l' Hab _ IH]; intro Hin.
  - contradiction.
  - destruct Hin as [->|Hin].
    + exists a. split; [left; reflexivity|assumption].
    + destruct (IH Hin) as (a' & Ha' & HS).
      exists a'. split; [right; assumption|assumption].
Qed.

(** ** What the two spreads write *)

Lemma spread_sameSubject (p : PatientProfile) (rs : option Q)
      (rc : option RiskCategory) (sp : option Split) (ao : option bool) :
  sameSubject p (spread p rs rc sp ao).
Proof. repeat split. Qed.

Lemma fallbackRecord_isTotalFallback (patients : list PatientProfile) :
  isTotalFallback patients (map fallbackRecord patients).
Proof.
  unfold isTotalFallback.
  induction patients as [|p rest IH]; simpl; constructor; [|exact IH].
  split; [apply spread_sameSubject|]. repeat split.
Qed.

Lemma sameSubject_eligible (p r : PatientProfile) :
  sameSubject p r -> eligible r = eligible p.
Proof.
  intros (_ & _ & _ & _ & _ & Hm & _). unfold eligible. rewrite Hm.
  reflexivity.
Qed.

Lemma filter_Forall (A : Type) (f : A -> bool) (l : list A) :
  Forall (fun x => f x = true) (filter f l).
Proof.
  apply Forall_forall. intros x Hx. apply filter_In in Hx. tauto.
Qed.

Section ClassifyOutput.

Context {engine : ArraySort}.
Variable rnd : nat -> Q.
Variable generateContent : Prompt -> GenerateContentResult.
Variable JSON_parse : string -> Completion JsonValue.

Local Abbreviation classify :=
  (classifyPatientRisk rnd generateContent JSON_parse).
Local Abbreviation outcome :=
  (engineOutcome rnd generateContent JSON_parse).
Local Abbreviation succeeds :=
  (engineSucceeds rnd generateContent JSON_parse).
Local Abbreviation shuffled_of := (shuffledOf rnd).

Lemma shuffledOf_permutation (patients : list PatientProfile) (n : nat) :
  Permutation (shuffled_of patients n) (filter eligible patients).
Proof. apply Array_sort_permutation. Qed.

Lemma shuffledOf_eligible (patients : list PatientProfile) (n : nat) :
  Forall (fun p => eligible p = true) (shuffled_of patients n).
Proof.
  eapply Permutation_Forall.
  - apply Permutation_sym, shuffledOf_permutation.
  - apply filter_Forall.
Qed.

Lemma shuffledOf_length (patients : list PatientProfile) (n : nat) :
  List.length (shuffled_of patients n) =
  List.length (filter eligible patients).
Proof. apply Permutation_length, shuffledOf_permutation. Qed.

(** Every run returns, in one of two shapes: the records of the callback
    for the shuffled eligible subjects, or the total fallback. *)
Lemma classify_run (patients : list PatientProfile)
      (ontology : OntologyMapping) (config : CohortConfig) (n : nat) :
  exists out n',
    classify patients ontology config n = (Normal out, n') /\
    ((exists items,
         Forall2_from
           (scoredRecord rnd config
              (splitIndexOf (List.length (shuffled_of patients n)) config)
              items)
           0 (shuffled_of patients n) out) \/
     out = map fallbackRecord patients).
Proof.
  destruct (outcome patients ontology config n) as [[items|]|] eqn:Hout.
  - destruct (classify_success _ _ _ _ _ _ _ Hout) as (out & n' & Hc & Hs).
    exists out, n'. split; [exact Hc|]. left. exists items. exact Hs.
  - eexists. eexists. split; [apply classify_other; exact Hout|].
    destruct (shuffled_of patients n) eqn:Hsh.
    + left. exists []. constructor.
    + right. reflexivity.
  - eexists. eexists. split; [apply classify_failure; exact Hout|].
    right. reflexivity.
Qed.

End ClassifyOutput.

(** ** What the records of the success path hold *)

Section ScoredRecords.

Variable rnd : nat -> Q.
Variable config : CohortConfig.
Variable splitIndex : Z.
Variable items : list Prediction.

Local Abbreviation scored := (scoredRecord rnd config splitIndex items).

Lemma scoredRecord_sameSubject (i : nat) (p r : PatientProfile) :
  scored i p r -> sameSubject p r.
Proof.
  intros (score & k & -> & _). apply spread_sameSubject.
Qed.

Lemma scoredRecord_split (i : nat) (p r : PatientProfile) :
  scored i p r ->
  split r = Some (if (Z.of_nat i <? splitIndex)%Z then TRAIN else TEST).
Proof. intros (score & k & -> & _). reflexivity. Qed.

Lemma scoredRecord_category (i : nat) (p r : PatientProfile) :
  scored i p r ->
  exists score, riskScore r = Some score /\
                riskCategory r = Some (riskCategoryOf score).
Proof.
  intros (score & k & -> & _). exists score. split; reflexivity.
Qed.

End ScoredRecords.

Lemma partition_lengths (l : list PatientProfile) :
  Forall (fun r => split r = Some TRAIN \/ split r = Some TEST) l ->
  (List.length (trainSet l) + List.length (testSet l))%nat = List.length l.
Proof.
  unfold trainSet, testSet, split_is.
  induction 1 as [|r l [Hr|Hr] _ IH]; simpl; [reflexivity| |];
    rewrite Hr; simpl; lia.
Qed.

(** ** The categories *)

Lemma riskCategoryOf_High (s : Q) : 0.7 < s -> riskCategoryOf s = High.
Proof.
  intro H. unfold riskCategoryOf.
  rewrite (proj2 (Qgtb_true s 0.7) H). reflexivity.
Qed.

Lemma riskCategoryOf_Medium (s : Q) :
  0.4 < s -> s <= 0.7 -> riskCategoryOf s = Medium.
Proof.
  intros Hlo Hhi. unfold riskCategoryOf.
  rewrite (proj2 (Qgtb_false s 0.7) Hhi).
  rewrite (proj2 (Qgtb_true s 0.4) Hlo). reflexivity.
Qed.

Lemma riskCategoryOf_Low (s : Q) : s <= 0.4 -> riskCategoryOf s = Low.
Proof.
  intro H. unfold riskCategoryOf.
  assert (H7 : s <= 0.7).
  { eapply Qle_trans; [exact H|]. unfold Qle; simpl; lia. }
  rewrite (proj2 (Qgtb_false s 0.7) H7).
  rewrite (proj2 (Qgtb_false s 0.4) H). reflexivity.
Qed.

(** ** The simulated score *)

Lemma simulatedScore_bounds (config : CohortConfig) (p : PatientProfile)
      (r : Q) :
  0.01 <= simulatedScore config p r /\ simulatedScore config p r <= 0.99.
Proof.
  unfold simulatedScore. split.
  - apply Q.min_glb.
    + unfold Qle; simpl; lia.
    + apply Q.le_max_l.
  - apply Q.le_min_l.
Qed.

Lemma noise_bounds (r : Q) :
  0 <= r -> r < 1 -> -0.15 <= r * 0.3 - 0.15 /\ r * 0.3 - 0.15 < 0.15.
Proof.
  destruct r as [a b]. unfold Qle, Qlt, Qminus, Qplus, Qmult, Qopp.
  simpl. intros H0 H1. split; lia.
Qed.

(** ** The first prediction with a given id *)

Lemma find_first (A : Type) (f : A -> bool) (l : list A) (x : A) :
  find f l = Some x ->
  exists before after,
    l = before ++ x :: after /\ f x = true /\
    forall y, In y before -> f y = false.
Proof.
  induction l as [|a rest IH]; simpl; [discriminate|].
  destruct (f a) eqn:Ha; intro H.
  - injection H as <-. exists [], rest. repeat split; auto.
    intros y [].
  - destruct (IH H) as (before & after & -> & Hx & Hb).
    exists (a :: before), after. repeat split; auto.
    intros y [<-|Hy]; auto.
Qed.

(** The score of a record of the success path: the score of the first
    prediction with the id of the subject, or without such a prediction
    the simulated score of one draw. *)
Lemma scoredRecord_score (rnd : nat -> Q) (config : CohortConfig)
      (splitIndex : Z) (items : list Prediction) (i : nat)
      (p r : PatientProfile) :
  scoredRecord rnd config splitIndex items i p r ->
  (exists before pred after,
      items = before ++ pred :: after /\
      pred_id pred = id p /\
      (forall item, In item before -> pred_id item <> id p) /\
      riskScore r = Some (pred_riskScore pred)) \/
  ((forall item, In item items -> pred_id item <> id p) /\
   exists j, riskScore r = Some (simulatedScore config p (rnd j))).
Proof.
  intros (score & k & -> & Hscore).
  destruct (find _ items) as [pred|] eqn:Hfind.
  - left. destruct (find_first _ _ Hfind) as (before & after & Hl & Hp & Hb).
    exists before, pred, after. split; [exact Hl|].
    split; [apply String.eqb_eq; exact Hp|]. split.
    + intros item Hin. apply String.eqb_neq. exact (Hb item Hin).
    + simpl. rewrite Hscore. reflexivity.
  - right. split.
    + intros item Hin. apply String.eqb_neq.
      exact (find_none _ _ Hfind item Hin).
    + destruct Hscore as (j & ->). exists j. reflexivity.
Qed.

(* ================================================================== *)
(** * The claims on [classifyPatientRisk] *)
(* ================================================================== *)

Section ClassifyClaims.

Context {engine : ArraySort}.
Variable rnd : nat -> Q.
Variable generateContent : Prompt -> GenerateContentResult.
Variable JSON_parse : string -> Completion JsonValue.

Local Abbreviation classify :=
  (classifyPatientRisk rnd generateContent JSON_parse).
Local Abbreviation outcome :=
  (engineOutcome rnd generateContent JSON_parse).
Local Abbreviation succeeds :=
  (engineSucceeds rnd generateContent JSON_parse).
Local Abbreviation prompt_of := (promptOf rnd).
Local Abbreviation shuffled_of := (shuffledOf rnd).

(** C1 (amended).  Whenever the reasoning-engine call is rejected, or
    returns a non-empty text on which [JSON.parse] throws,
    [classifyPatientRisk] returns normally one record per input subject,
    eligible or not and in the order of the input, with [riskScore = 0.1],
    [riskCategory = Low], [split = TRAIN], the other eleven fields of the
    subject, and the [actualOutcome] the subject had on entry (unset when
    it was unset). *)
Theorem total_fallback_on_failure (patients : list PatientProfile)
        (ontology : OntologyMapping) (config : CohortConfig) (n : nat) :
  (generateContent (prompt_of patients ontology config n) = Rejected \/
   exists c rest,
     generateContent (prompt_of patients ontology config n) =
     Response (Some (String c rest)) /\
     JSON_parse (String c rest) = Throw) ->
  exists out n',
    classify patients ontology config n = (Normal out, n') /\
    isTotalFallback patients out.
Proof.
  intro H.
  assert (Hout : outcome patients ontology config n = Throw).
  { unfold engineOutcome. destruct H as [-> | (c & rest & -> & Hparse)].
    - reflexivity.
    - exact Hparse. }
  eexists. eexists. split.
  - apply classify_failure. exact Hout.
  - apply fallbackRecord_isTotalFallback.
Qed.

(** C2 (amended).  A subject is eligible iff [monthsOnCurrentTherapy >= 1].
    On the engine-success path the output is the shuffled eligible
    subjects, one record each; with [N] the number of eligible subjects and
    [splitIndex = floor(N * (1 - trainTestSplit))] as the code evaluates it
    in doubles (the ratio, the difference and the product are each the
    nearest double), the record at index [i] has [split = TRAIN] when
    [i < splitIndex] and [split = TEST] otherwise, so every record is in
    exactly one partition and [|TRAIN| + |TEST| = N].  On the
    total-fallback path the split index is not used: there is one record
    per input subject, each labelled TRAIN. *)
Theorem split_partition_on_success (patients : list PatientProfile)
        (ontology : OntologyMapping) (config : CohortConfig) (n : nat) :
  let N := List.length (filter eligible patients) in
  let splitIndex :=
    Qfloor (binary64 (inject_Z (Z.of_nat N) *
                      binary64 (1 - binary64 (trainTestSplit config)))) in
  (forall p, eligible p = true <-> (1 <= monthsOnCurrentTherapy p)%Z) /\
  (forall items,
      succeeds patients ontology config n items ->
      exists shuffled out n',
        classify patients ontology config n = (Normal out, n') /\
        Permutation shuffled (filter eligible patients) /\
        Forall2 sameSubject shuffled out /\
        (forall i r, nth_error out i = Some r ->
                     split r = Some (if (Z.of_nat i <? splitIndex)%Z
                                     then TRAIN else TEST)) /\
        (List.length (trainSet out) + List.length (testSet out))%nat = N) /\
  (outcome patients ontology config n = Throw ->
   exists out n',
     classify patients ontology config n = (Normal out, n') /\
     Forall2 sameSubject patients out /\
     Forall (fun r => split r = Some TRAIN) out /\
     List.length (trainSet out) = List.length patients /\
     testSet out = []).
Proof.
  intros N splitIndex. split.
  { intro p. unfold eligible. rewrite Z.geb_le. reflexivity. }
  split.
  - intros items Hs.
    destruct (classify_success _ _ _ _ _ _ _ Hs) as (out & n' & Hc & Hrec).
    rewrite shuffledOf_length in Hrec. fold N in Hrec.
    change (splitIndexOf N config) with splitIndex in Hrec.
    assert (Hsplit : forall i r, nth_error out i = Some r ->
              split r = Some (if (Z.of_nat i <? splitIndex)%Z
                              then TRAIN else TEST)).
    { intros i r Hi.
      destruct (Forall2_from_nth Hrec _ Hi) as (p & _ & Hp).
      exact (scoredRecord_split Hp). }
    assert (Hsame : Forall2 sameSubject (shuffled_of patients n) out).
    { eapply Forall2_from_Forall2; [|exact Hrec].
      intros i a b. apply scoredRecord_sameSubject. }
    exists (shuffled_of patients n), out, n'.
    split; [exact Hc|]. split; [apply shuffledOf_permutation|].
    split; [exact Hsame|]. split; [exact Hsplit|].
    rewrite partition_lengths.
    + rewrite (Forall2_length_eq Hsame). apply shuffledOf_length.
    + apply Forall_forall. intros r Hr.
      destruct (In_nth_error _ _ Hr) as (i & Hi).
      rewrite (Hsplit i r Hi). destruct (Z.of_nat i <? splitIndex)%Z; auto.
  - intro Hout. eexists. eexists.
    split; [apply classify_failure; exact Hout|].
    clear. induction patients as [|p rest IH].
    + repeat split; constructor.
    + destruct IH as (Hsame & Hall & Htrain & Htest).
      cbn [map]. split; [constructor; [apply spread_sameSubject|exact Hsame]|].
      split; [constructor; [reflexivity|exact Hall]|].
      change (trainSet (fallbackRecord p :: map fallbackRecord rest))
        with (fallbackRecord p :: trainSet (map fallbackRecord rest)).
      change (testSet (fallbackRecord p :: map fallbackRecord rest))
        with (testSet (map fallbackRecord rest)).
      split; [cbn [List.length]; rewrite Htrain; reflexivity|exact Htest].
Qed.

(** C3.  The category of a score [s] is High if [s > 0.7], Medium if
    [0.4 < s <= 0.7] and Low if [s <= 0.4]; the category of 0.7 is Medium
    and the one of 0.4 is Low; and in every run every record that
    [classifyPatientRisk] returns has a [riskScore] and the [riskCategory]
    of that score. *)
Theorem risk_category_of_score (patients : list PatientProfile)
        (ontology : OntologyMapping) (config : CohortConfig) (n : nat)
        (s : Q) :
  (0.7 < s -> riskCategoryOf s = High) /\
  (0.4 < s /\ s <= 0.7 -> riskCategoryOf s = Medium) /\
  (s <= 0.4 -> riskCategoryOf s = Low) /\
  riskCategoryOf 0.7 = Medium /\
  riskCategoryOf 0.4 = Low /\
  exists out n',
    classify patients ontology config n = (Normal out, n') /\
    Forall (fun r => exists score,
                riskScore r = Some score /\
                riskCategory r = Some (riskCategoryOf score)) out.
Proof.
  split; [apply riskCategoryOf_High|].
  split; [intros [Hlo Hhi]; apply riskCategoryOf_Medium; assumption|].
  split; [apply riskCategoryOf_Low|].
  split; [reflexivity|]. split; [reflexivity|].
  destruct (classify_run rnd generateContent JSON_parse
              patients ontology config n)
    as (out & n' & Hc & [(items & Hrec) | ->]).
  - exists out, n'. split; [exact Hc|].
    eapply Forall2_from_Forall_r; [|exact Hrec].
    intros i a b H. exact (scoredRecord_category H).
  - eexists. exists n'. split; [exact Hc|].
    apply Forall_forall. intros r Hr. apply in_map_iff in Hr.
    destruct Hr as (p & <- & _). exists 0.1. split; reflexivity.
Qed.

(** C4 (amended).  Every run returns.  On the engine-success path every
    returned record has a [riskScore] and an [actualOutcome], and the
    outcome is [true] exactly when a draw of the random source is below
    the score.  That draw is the record's own and it is not the draw
    that made the score: the score is the one of the prediction, and no
    draw was made for it, or it is simulated from one draw, and the
    outcome is decided by the next draw.  No draw is read for two
    purposes or for two records, and the draws of the records come after
    those of the shuffle.  On the total-fallback path (call rejected or
    unparsable text) every record has [riskScore = 0.1] and no outcome is
    drawn: [actualOutcome] keeps the value of the input subject. *)
Theorem outcome_drawn_on_success_only (patients : list PatientProfile)
        (ontology : OntologyMapping) (config : CohortConfig) (n : nat) :
  exists out n',
    classify patients ontology config n = (Normal out, n') /\
    (forall items,
        succeeds patients ontology config n items ->
        exists draws : list (option nat * nat),
          Forall (fun k =>
                    (snd (Array_sort (@shuffleCompare rnd PatientProfile)
                                     (filter eligible patients) n) <= k
                     < n')%nat)
                 (flat_map (fun d => match fst d with
                                     | Some j => [j; snd d]
                                     | None => [snd d]
                                     end) draws) /\
          NoDup (flat_map (fun d => match fst d with
                                    | Some j => [j; snd d]
                                    | None => [snd d]
                                    end) draws) /\
          Forall2 (fun d r => exists score b,
                       riskScore r = Some score /\
                       actualOutcome r = Some b /\
                       (b = true <-> rnd (snd d) < score) /\
                       match fst d with
                       | None =>
                           exists pred,
                             find (fun item =>
                                     String.eqb (pred_id item) (id r))
                                  items = Some pred /\
                             score = pred_riskScore pred
                       | Some j =>
                           find (fun item =>
                                   String.eqb (pred_id item) (id r))
                                items = None /\
                           score = simulatedScore config r (rnd j) /\
                           snd d = S j
                       end) draws out) /\
    (outcome patients ontology config n = Throw ->
     Forall2 (fun p r => riskScore r = Some 0.1 /\
                         actualOutcome r = actualOutcome p) patients out).
Proof.
  destruct (classify_run rnd generateContent JSON_parse
              patients ontology config n) as (out & n' & Hc & _).
  exists out, n'. split; [exact Hc|]. split.
  - intros items Hs. exact (classify_success_plan _ _ _ _ _ _ _ Hs Hc).
  - intro Hout.
    rewrite (classify_failure _ _ _ _ _ _ _ Hout) in Hc.
    injection Hc as <- _.
    clear. induction patients as [|p rest IH]; simpl; constructor.
    + split; reflexivity.
    + exact IH.
Qed.

(** C5.  On the engine-success path the output is the shuffled eligible
    subjects, one record each.  For a subject whose id is in the parsed
    batch result the record has the score of the (first) item with that
    id.  For a subject whose id is absent the score is
    [min(0.99, max(0.01, base + noise))] with [base = 0.4] if
    [monthsOnCurrentTherapy > lookbackMonths] and [0.05] otherwise, and
    [noise = r * 0.3 - 0.15] for one draw [r]: the noise is in
    [[-0.15, 0.15)] for a draw in [[0, 1)], and the score is in
    [[0.01, 0.99]] whatever the draw. *)
Theorem success_path_scores (patients : list PatientProfile)
        (ontology : OntologyMapping) (config : CohortConfig) (n : nat)
        (items : list Prediction) :
  succeeds patients ontology config n items ->
  exists shuffled out n',
    classify patients ontology config n = (Normal out, n') /\
    Permutation shuffled (filter eligible patients) /\
    Forall2
      (fun p r =>
         sameSubject p r /\
         ((exists item, In item items /\ pred_id item = id p) ->
          exists before pred after,
            items = before ++ pred :: after /\
            pred_id pred = id p /\
            (forall item, In item before -> pred_id item <> id p) /\
            riskScore r = Some (pred_riskScore pred)) /\
         ((forall item, In item items -> pred_id item <> id p) ->
          exists (j : nat) (score : Q),
            let base := if (monthsOnCurrentTherapy p >?
                            lookbackMonths config)%Z
                        then 0.4 else 0.05 in
            let noise := rnd j * 0.3 - 0.15 in
            riskScore r = Some score /\
            score = Qmin 0.99 (Qmax 0.01 (base + noise)) /\
            (0 <= rnd j -> rnd j < 1 -> -0.15 <= noise /\ noise < 0.15) /\
            0.01 <= score /\ score <= 0.99))
      shuffled out.
Proof.
  intro Hs.
  destruct (classify_success _ _ _ _ _ _ _ Hs) as (out & n' & Hc & Hrec).
  exists (shuffled_of patients n), out, n'.
  split; [exact Hc|]. split; [apply shuffledOf_permutation|].
  eapply Forall2_from_Forall2; [|exact Hrec].
  intros i p r Hr. split; [exact (scoredRecord_sameSubject Hr)|].
  destruct (scoredRecord_score Hr)
    as [(before & pred & after & Hl & Hp & Hb & Hscore)
       | (Habsent & j & Hscore)].
  - split.
    + intros _. exists before, pred, after. auto.
    + intro Habsent. exfalso. apply (Habsent pred); [|exact Hp].
      rewrite Hl. apply in_or_app. right. left. reflexivity.
  - split.
    + intros (item & Hin & Hid). exfalso. exact (Habsent item Hin Hid).
    + intros _. exists j, (simulatedScore config p (rnd j)).
      cbv zeta. split; [exact Hscore|]. split; [reflexivity|].
      split; [apply noise_bounds|]. apply simulatedScore_bounds.
Qed.

(** C8 (amended).  Every run returns.  On the engine-success path [split]
    is set once per eligible subject (the output holds one record per
    eligible subject, each with a [split]) and no ineligible subject
    receives a [split] or an [actualOutcome]: every returned record is the
    one of an eligible subject.  On the total-fallback path every input
    subject, eligible or not, receives [split = TRAIN], and none receives
    an [actualOutcome]: the field keeps the value of the input. *)
Theorem split_assignment_by_path (patients : list PatientProfile)
        (ontology : OntologyMapping) (config : CohortConfig) (n : nat) :
  exists out n',
    classify patients ontology config n = (Normal out, n') /\
    (forall items,
        succeeds patients ontology config n items ->
        (exists shuffled,
            Permutation shuffled (filter eligible patients) /\
            Forall2 (fun p r => sameSubject p r /\
                                exists s, split r = Some s)
                    shuffled out) /\
        Forall (fun r => eligible r = true) out) /\
    (outcome patients ontology config n = Throw ->
     Forall2 (fun p r => sameSubject p r /\
                         split r = Some TRAIN /\
                         actualOutcome r = actualOutcome p)
             patients out).
Proof.
  destruct (outcome patients ontology config n) as [[items|]|] eqn:Hout.
  - destruct (classify_success _ _ _ _ _ _ _ Hout) as (out & n' & Hc & Hs).
    exists out, n'. split; [exact Hc|]. split; [|discriminate].
    intros items' _.
    assert (Hsame : Forall2 (fun p r => sameSubject p r /\
                                        exists s, split r = Some s)
                            (shuffled_of patients n) out).
    { eapply Forall2_from_Forall2; [|exact Hs].
      intros i p r Hr. split; [exact (scoredRecord_sameSubject Hr)|].
      eexists. exact (scoredRecord_split Hr). }
    split.
    + exists (shuffled_of patients n).
      split; [apply shuffledOf_permutation|exact Hsame].
    + apply Forall_forall. intros r Hr.
      destruct (Forall2_In_r _ Hsame Hr) as (p & Hp & Hpr & _).
      rewrite (sameSubject_eligible Hpr).
      exact (proj1 (Forall_forall _ _) (shuffledOf_eligible rnd patients n)
                   p Hp).
  - eexists. eexists. split; [apply classify_other; exact Hout|].
    split; [|discriminate].
    intros items Hs. unfold engineSucceeds in Hs. congruence.
  - eexists. eexists. split; [apply classify_failure; exact Hout|].
    split.
    + intros items Hs. unfold engineSucceeds in Hs. congruence.
    + intros _.
      eapply Forall2_impl; [|apply fallbackRecord_isTotalFallback].
      intros p r (Hsame & _ & _ & Hsplit & Hao). auto.
Qed.

(** C10.  Every run returns.  On the engine-success path the output is the
    shuffled eligible subjects, one record each: its length is the number
    of eligible subjects, and no record is the one of an ineligible input
    subject.  A run whose output holds a record of an ineligible subject is
    not on the engine-success path, and its output is the total
    fallback. *)
Theorem success_output_is_the_eligible_subjects
        (patients : list PatientProfile) (ontology : OntologyMapping)
        (config : CohortConfig) (n : nat) :
  exists out n',
    classify patients ontology config n = (Normal out, n') /\
    (forall items,
        succeeds patients ontology config n items ->
        (exists shuffled,
            Permutation shuffled (filter eligible patients) /\
            Forall2 sameSubject shuffled out) /\
        List.length out = List.length (filter eligible patients) /\
        (forall p r, In p patients -> eligible p = false -> In r out ->
                     ~ sameSubject p r)) /\
    (Exists (fun r => eligible r = false) out ->
     (forall items, ~ succeeds patients ontology config n items) /\
     isTotalFallback patients out).
Proof.
  assert (Hnot : forall out : list PatientProfile,
             Forall (fun r => eligible r = true) out ->
             ~ Exists (fun r => eligible r = false) out).
  { intros out Hall Hex. apply Exists_exists in Hex.
    destruct Hex as (r & Hr & Hf).
    rewrite (proj1 (Forall_forall _ _) Hall r Hr) in Hf. discriminate. }
  destruct (outcome patients ontology config n) as [[items|]|] eqn:Hout.
  - destruct (classify_success _ _ _ _ _ _ _ Hout) as (out & n' & Hc & Hs).
    assert (Hsame : Forall2 sameSubject (shuffled_of patients n) out).
    { eapply Forall2_from_Forall2; [|exact Hs].
      intros i p r. apply scoredRecord_sameSubject. }
    assert (Hel : Forall (fun r => eligible r = true) out).
    { apply Forall_forall. intros r Hr.
      destruct (Forall2_In_r _ Hsame Hr) as (p & Hp & Hpr).
      rewrite (sameSubject_eligible Hpr).
      exact (proj1 (Forall_forall _ _) (shuffledOf_eligible rnd patients n)
                   p Hp). }
    exists out, n'. split; [exact Hc|]. split.
    + intros items' _. split; [|split].
      * exists (shuffled_of patients n).
        split; [apply shuffledOf_permutation|exact Hsame].
      * rewrite (Forall2_length_eq Hsame). apply shuffledOf_length.
      * intros p r _ Hp Hr Hpr.
        rewrite <- (sameSubject_eligible Hpr) in Hp.
        rewrite (proj1 (Forall_forall _ _) Hel r Hr) in Hp. discriminate.
    + intro Hex. exfalso. exact (Hnot out Hel Hex).
  - eexists. eexists. split; [apply classify_other; exact Hout|].
    split.
    + intros items Hs. unfold engineSucceeds in Hs. congruence.
    + intro Hex. split.
      * intros items Hs. unfold engineSucceeds in Hs. congruence.
      * destruct (shuffled_of patients n).
        -- inversion Hex.
        -- apply fallbackRecord_isTotalFallback.
  - eexists. eexists. split; [apply classify_failure; exact Hout|].
    split.
    + intros items Hs. unfold engineSucceeds in Hs. congruence.
    + intros _. split.
      * intros items Hs. unfold engineSucceeds in Hs. congruence.
      * apply fallbackRecord_isTotalFallback.
Qed.

End ClassifyClaims.

(** ** Concrete runs *)

Local Abbreviation runOn g parse :=
  (classifyPatientRisk (engine := insertionSortEngine) rndHalf g parse
     exampleCohort exampleOntology exampleConfig 0%nat).

Lemma exampleCohort_succeeds (items : list Prediction) :
  engineSucceeds (engine := insertionSortEngine) rndHalf
    (engineAnswers "[]") (parseReads items)
    exampleCohort exampleOntology exampleConfig 0%nat items.
Proof. reflexivity. Qed.

(** Witness of C1: the call is rejected. *)
Lemma total_fallback_on_failure_witness :
  exists out n',
    runOn engineRejects parseThrows = (Normal out, n') /\
    isTotalFallback exampleCohort out.
Proof.
  apply total_fallback_on_failure. left. reflexivity.
Defined.

(** Counterexample to C1 as stated: the engine returns the empty text, and
    the run takes the success path with no prediction.  The three input
    subjects give two records, not three: the eligible P-2 and P-3, in
    TRAIN and TEST, with the simulated scores 0.05 and 0.4 and a drawn
    outcome.  The output is not the total fallback. *)
Lemma empty_text_is_not_total_fallback :
  exists out n',
    runOn (engineAnswers "") parseThrows = (Normal out, n') /\
    map id exampleCohort = ["P-1"; "P-2"; "P-3"]%string /\
    map id out = ["P-2"; "P-3"]%string /\
    map split out = [Some TRAIN; Some TEST] /\
    Forall2 (fun r s => exists score, riskScore r = Some score /\ score == s)
            out [0.05; 0.4] /\
    map actualOutcome out = [Some false; Some false] /\
    ~ isTotalFallback exampleCohort out.
Proof.
  eexists. eexists. split; [vm_compute; reflexivity|].
  split; [reflexivity|]. split; [reflexivity|]. split; [reflexivity|].
  split; [|split; [reflexivity|]].
  - repeat constructor; eexists; split; reflexivity.
  - intro H. apply Forall2_length_eq in H. discriminate H.
Qed.

(** Witness of C2: the engine returns the empty array. *)
Lemma split_partition_on_success_witness :
  let N := List.length (filter eligible exampleCohort) in
  let splitIndex :=
    Qfloor (binary64 (inject_Z (Z.of_nat N) *
                      binary64 (1 - binary64 (trainTestSplit
                                                exampleConfig)))) in
  exists shuffled out n',
    runOn (engineAnswers "[]") (parseReads []) = (Normal out, n') /\
    Permutation shuffled (filter eligible exampleCohort) /\
    Forall2 sameSubject shuffled out /\
    (forall i r, nth_error out i = Some r ->
                 split r = Some (if (Z.of_nat i <? splitIndex)%Z
                                 then TRAIN else TEST)) /\
    (List.length (trainSet out) + List.length (testSet out))%nat = N.
Proof.
  exact (proj1 (proj2 (@split_partition_on_success insertionSortEngine
           rndHalf (engineAnswers "[]") (parseReads [])
           exampleCohort exampleOntology exampleConfig 0%nat))
           [] (exampleCohort_succeeds [])).
Defined.

(** The split index of 90 subjects at the ratio 0.3: the product of the
    code is [62.99999999999999], where the exact one is 63. *)
Lemma split_index_of_ninety :
  splitIndexOf 90 {| lookbackMonths := 12;
                     predictionWindowMonths := 6;
                     minClaimsCount := 2;
                     modelType := GENAI_REASONING;
                     imbalanceStrategy := NONE;
                     trainTestSplit := 0.3 |} = 62%Z /\
  Qfloor (inject_Z 90 * (1 - 0.3)) = 63%Z.
Proof. split; vm_compute; reflexivity. Qed.

(** Counterexample to C2 as stated: the call is rejected, the three input
    subjects are returned in the order of the input, each labelled TRAIN,
    and [|TRAIN| + |TEST|] is 3 where 2 subjects are eligible. *)
Lemma rejected_call_labels_every_subject :
  exists out n',
    runOn engineRejects parseThrows = (Normal out, n') /\
    map id out = ["P-1"; "P-2"; "P-3"]%string /\
    map split out = [Some TRAIN; Some TRAIN; Some TRAIN] /\
    (List.length (trainSet out) + List.length (testSet out))%nat = 3%nat /\
    List.length (filter eligible exampleCohort) = 2%nat.
Proof.
  eexists. eexists. split; [vm_compute; reflexivity|].
  repeat split.
Qed.

(** Witness of C3: one score in each of the three bands. *)
Lemma risk_category_of_score_witness :
  (0.7 < 0.8 /\ riskCategoryOf 0.8 = High) /\
  ((0.4 < 0.55 /\ 0.55 <= 0.7) /\ riskCategoryOf 0.55 = Medium) /\
  (0.2 <= 0.4 /\ riskCategoryOf 0.2 = Low).
Proof.
  assert (H8 : 0.7 < 0.8) by reflexivity.
  assert (H55 : 0.4 < 0.55 /\ 0.55 <= 0.7)
    by (split; [reflexivity|discriminate]).
  assert (H2 : 0.2 <= 0.4) by discriminate.
  split; [|split].
  - destruct (@risk_category_of_score insertionSortEngine
                rndHalf engineRejects parseThrows
                exampleCohort exampleOntology exampleConfig 0%nat 0.8)
      as (High_band & _).
    split; [exact H8|exact (High_band H8)].
  - destruct (@risk_category_of_score insertionSortEngine
                rndHalf engineRejects parseThrows
                exampleCohort exampleOntology exampleConfig 0%nat 0.55)
      as (_ & Medium_band & _).
    split; [exact H55|exact (Medium_band H55)].
  - destruct (@risk_category_of_score insertionSortEngine
                rndHalf engineRejects parseThrows
                exampleCohort exampleOntology exampleConfig 0%nat 0.2)
      as (_ & _ & Low_band & _).
    split; [exact H2|exact (Low_band H2)].
Defined.

(** Witness of C4: on a run of the success path with the prediction of
    P-2 every record has an outcome; the draws are read once each. *)
Lemma outcome_drawn_on_success_only_witness :
  exists out n' (draws : list (option nat * nat)),
    runOn (engineAnswers "[]") (parseReads exampleItems) =
      (Normal out, n') /\
    NoDup (flat_map (fun d => match fst d with
                              | Some j => [j; snd d]
                              | None => [snd d]
                              end) draws) /\
    Forall2 (fun d r => exists score b,
                 riskScore r = Some score /\
                 actualOutcome r = Some b /\
                 (b = true <-> rndHalf (snd d) < score))
            draws out.
Proof.
  destruct (@outcome_drawn_on_success_only insertionSortEngine
              rndHalf (engineAnswers "[]") (parseReads exampleItems)
              exampleCohort exampleOntology exampleConfig 0%nat)
    as (out & n' & Hrun & Hsuccess & _).
  destruct (Hsuccess exampleItems (exampleCohort_succeeds exampleItems))
    as (draws & _ & Hnodup & Hall).
  exists out, n', draws. split; [exact Hrun|]. split; [exact Hnodup|].
  eapply Forall2_impl; [|exact Hall].
  intros d r (score & b & Hs & Hb & Hiff & _). exists score, b. auto.
Defined.

(** Counterexample to C4 as stated: the call is rejected, the three
    records have the score 0.1, and none has an [actualOutcome]. *)
Lemma rejected_call_draws_no_outcome :
  exists out n',
    runOn engineRejects parseThrows = (Normal out, n') /\
    List.length out = 3%nat /\
    Forall (fun r => riskScore r = Some 0.1 /\ actualOutcome r = None) out /\
    ~ Forall (fun r => exists b, actualOutcome r = Some b) out.
Proof.
  eexists. eexists. split; [vm_compute; reflexivity|].
  split; [reflexivity|]. split.
  - repeat constructor.
  - intro H. inversion H as [|r l (b & Hb) _]. discriminate Hb.
Qed.

(** Witness of C5. *)
Lemma success_path_scores_witness :
  exists shuffled out n',
    runOn (engineAnswers "[]") (parseReads exampleItems) =
    (Normal out, n') /\
    Permutation shuffled (filter eligible exampleCohort) /\
    Forall2
      (fun p r =>
         sameSubject p r /\
         ((exists item, In item exampleItems /\ pred_id item = id p) ->
          exists before pred after,
            exampleItems = before ++ pred :: after /\
            pred_id pred = id p /\
            (forall item, In item before -> pred_id item <> id p) /\
            riskScore r = Some (pred_riskScore pred)) /\
         ((forall item, In item exampleItems -> pred_id item <> id p) ->
          exists (j : nat) (score : Q),
            let base := if (monthsOnCurrentTherapy p >?
                            lookbackMonths exampleConfig)%Z
                        then 0.4 else 0.05 in
            let noise := rndHalf j * 0.3 - 0.15 in
            riskScore r = Some score /\
            score = Qmin 0.99 (Qmax 0.01 (base + noise)) /\
            (0 <= rndHalf j -> rndHalf j < 1 ->
             -0.15 <= noise /\ noise < 0.15) /\
            0.01 <= score /\ score <= 0.99))
      shuffled out.
Proof.
  apply (@success_path_scores insertionSortEngine
           rndHalf (engineAnswers "[]") (parseReads exampleItems)
           exampleCohort exampleOntology exampleConfig 0%nat exampleItems
           (exampleCohort_succeeds exampleItems)).
Defined.

(** Witness of C8: a run of the success path. *)
Lemma split_assignment_by_path_witness :
  exists out n',
    runOn (engineAnswers "[]") (parseReads exampleItems) =
    (Normal out, n') /\
    (exists shuffled,
        Permutation shuffled (filter eligible exampleCohort) /\
        Forall2 (fun p r => sameSubject p r /\ exists s, split r = Some s)
                shuffled out) /\
    Forall (fun r => eligible r = true) out.
Proof.
  destruct (@split_assignment_by_path insertionSortEngine
              rndHalf (engineAnswers "[]") (parseReads exampleItems)
              exampleCohort exampleOntology exampleConfig 0%nat)
    as (out & n' & Hrun & Hsuccess & _).
  exists out, n'. split; [exact Hrun|].
  exact (Hsuccess exampleItems (exampleCohort_succeeds exampleItems)).
Defined.

(** Counterexample to C8 as stated: the call is rejected, and the
    ineligible subject P-1 (no month of therapy) receives
    [split = TRAIN]. *)
Lemma rejected_call_labels_the_ineligible :
  exists out n',
    runOn engineRejects parseThrows = (Normal out, n') /\
    Exists (fun r => id r = "P-1"%string /\
                     (monthsOnCurrentTherapy r < 1)%Z /\
                     split r = Some TRAIN) out.
Proof.
  eexists. eexists. split; [vm_compute; reflexivity|].
  apply Exists_cons_hd. repeat split.
Qed.

(** Witness of C10: a run of the success path. *)
Lemma success_output_is_the_eligible_subjects_witness :
  exists out n',
    runOn (engineAnswers "[]") (parseReads exampleItems) =
    (Normal out, n') /\
    (exists shuffled,
        Permutation shuffled (filter eligible exampleCohort) /\
        Forall2 sameSubject shuffled out) /\
    List.length out = List.length (filter eligible exampleCohort) /\
    (forall p r, In p exampleCohort -> eligible p = false -> In r out ->
                 ~ sameSubject p r).
Proof.
  destruct (@success_output_is_the_eligible_subjects insertionSortEngine
              rndHalf (engineAnswers "[]") (parseReads exampleItems)
              exampleCohort exampleOntology exampleConfig 0%nat)
    as (out & n' & Hrun & Hsuccess & _).
  exists out, n'. split; [exact Hrun|].
  exact (Hsuccess exampleItems (exampleCohort_succeeds exampleItems)).
Defined.

(* ================================================================== *)
(** * The claim on [validationMetrics] *)
(* ================================================================== *)

Lemma predicted_predictedPositive (p : PatientProfile) :
  predicted p = predictedPositive p.
Proof.
  unfold predicted, predictedPositive, threshold.
  destruct (riskScore p); reflexivity.
Qed.

Lemma predictedPositive_true (p : PatientProfile) :
  predictedPositive p = true <-> exists s, riskScore p = Some s /\ 0.5 < s.
Proof.
  unfold predictedPositive. destruct (riskScore p) as [s|]; split.
  - intro H. exists s. split; [reflexivity|]. apply Qgtb_true. exact H.
  - intros (s' & Hs & Hlt). injection Hs as <-. apply Qgtb_true. exact Hlt.
  - discriminate.
  - intros (s' & Hs & _). discriminate.
Qed.

Lemma testSet_In (patients : list PatientProfile) (p : PatientProfile) :
  In p (testSet patients) <-> In p patients /\ split p = Some TEST.
Proof.
  unfold testSet. rewrite filter_In. unfold split_is.
  destruct (split p) as [[|]|]; simpl; split; intros [H1 H2];
    split; auto; discriminate.
Qed.

(** The four counters after the [forEach] loop. *)
Lemma fold_countSubject (l : list PatientProfile) :
  forall c : Confusion,
    let c' := fold_left countSubject l c in
    c_tp c' = (c_tp c + confusionCount true true l)%Z /\
    c_fp c' = (c_fp c + confusionCount true false l)%Z /\
    c_tn c' = (c_tn c + confusionCount false false l)%Z /\
    c_fn c' = (c_fn c + confusionCount false true l)%Z.
Proof.
  unfold confusionCount.
  induction l as [|p rest IH]; intro c; cbv zeta.
  - simpl. repeat split; lia.
  - cbn [fold_left filter]. specialize (IH (countSubject c p)).
    cbv zeta in IH. destruct IH as (Htp & Hfp & Htn & Hfn).
    rewrite Htp, Hfp, Htn, Hfn. clear Htp Hfp Htn Hfn.
    unfold countSubject, actual.
    rewrite predicted_predictedPositive. unfold actualPositive.
    destruct (predictedPositive p), (actualOutcome p) as [[|]|];
      cbn [andb negb Bool.eqb c_tp c_fp c_tn c_fn List.length];
      repeat split; lia.
Qed.

(** C6.  [validationMetrics] works on the subjects with [split = TEST].
    With a subject predicted positive when its score is above 0.5, [tp],
    [fp], [tn] and [fn] count the TEST subjects by prediction and outcome;
    for a non-empty TEST set [accuracy = (tp + tn) / |TEST|],
    [precision = tp / (tp + fp)] or 0 when [tp + fp = 0], and
    [recall = tp / (tp + fn)] or 0 when [tp + fn = 0]; for an empty TEST
    set every metric is 0.  On the TEST set
    [{(0.8, true), (0.3, false), (0.9, false), (0.2, true)}] the counters
    are [tp = fp = fn = tn = 1] and the three metrics are 0.5. *)
Theorem validationMetrics_spec (patients : list PatientProfile) :
  let T := testSet patients in
  let m := validationMetrics patients in
  let example := validationMetrics exampleTestSet in
  (forall p, In p T <-> In p patients /\ split p = Some TEST) /\
  (forall p, predictedPositive p = true <->
             exists s, riskScore p = Some s /\ 0.5 < s) /\
  (T <> [] ->
   tp m = confusionCount true true T /\
   fp m = confusionCount true false T /\
   tn m = confusionCount false false T /\
   fn m = confusionCount false true T /\
   accuracy m =
   inject_Z (tp m + tn m) / inject_Z (Z.of_nat (List.length T)) /\
   ((tp m + fp m > 0)%Z ->
    precision m = inject_Z (tp m) / inject_Z (tp m + fp m)) /\
   ((tp m + fp m = 0)%Z -> precision m = 0) /\
   ((tp m + fn m > 0)%Z ->
    recall m = inject_Z (tp m) / inject_Z (tp m + fn m)) /\
   ((tp m + fn m = 0)%Z -> recall m = 0)) /\
  (T = [] ->
   m = {| accuracy := 0; precision := 0; recall := 0;
          tp := 0; fp := 0; tn := 0; fn := 0 |}) /\
  (tp example = 1%Z /\ fp example = 1%Z /\
   fn example = 1%Z /\ tn example = 1%Z /\
   accuracy example == 0.5 /\ precision example == 0.5 /\
   recall example == 0.5).
Proof.
  intros T m example. split; [apply testSet_In|].
  split; [apply predictedPositive_true|].
  split; [|split; [|repeat split]].
  all: unfold m, validationMetrics; fold T.
  - intro Hne. destruct T as [|p rest] eqn:HT; [congruence|].
    rewrite <- HT. replace (List.length T =? 0)%nat with false
      by (rewrite HT; reflexivity).
    cbv zeta. cbn [tp fp tn fn accuracy precision recall].
    destruct (fold_countSubject T
                {| c_tp := 0; c_fp := 0; c_tn := 0; c_fn := 0 |})
      as (Htp & Hfp & Htn & Hfn).
    cbn [c_tp c_fp c_tn c_fn] in Htp, Hfp, Htn, Hfn.
    rewrite Z.add_0_l in Htp, Hfp, Htn, Hfn.
    split; [exact Htp|]. split; [exact Hfp|].
    split; [exact Htn|]. split; [exact Hfn|].
    split; [reflexivity|].
    split; [|split; [|split]].
    + intro H. apply Z.gtb_gt in H. rewrite H. reflexivity.
    + intro H. rewrite H. reflexivity.
    + intro H. apply Z.gtb_gt in H. rewrite H. reflexivity.
    + intro H. rewrite H. reflexivity.
  - intros ->. reflexivity.
Qed.

(** Witness of C6: the TEST set of the example is not empty, and its
    precision and recall have a positive denominator. *)
Lemma validationMetrics_spec_witness :
  let T := testSet exampleTestSet in
  let m := validationMetrics exampleTestSet in
  tp m = confusionCount true true T /\
  fp m = confusionCount true false T /\
  tn m = confusionCount false false T /\
  fn m = confusionCount false true T /\
  accuracy m = inject_Z (tp m + tn m) / inject_Z (Z.of_nat (List.length T)) /\
  precision m = inject_Z (tp m) / inject_Z (tp m + fp m) /\
  recall m = inject_Z (tp m) / inject_Z (tp m + fn m).
Proof.
  destruct (validationMetrics_spec exampleTestSet)
    as (_ & _ & Hnonempty & _).
  destruct Hnonempty
    as (Htp & Hfp & Htn & Hfn & Hacc & Hprec & _ & Hrec & _);
    [discriminate|].
  cbv zeta. split; [exact Htp|]. split; [exact Hfp|].
  split; [exact Htn|]. split; [exact Hfn|]. split; [exact Hacc|].
  split; [apply Hprec; reflexivity|apply Hrec; reflexivity].
Defined.

(* ================================================================== *)
(** * The claim on the column resolution *)
(* ================================================================== *)

(** ** The string tests *)

Lemma startsWith_spec (h keyword : string) :
  startsWith h keyword = true <-> exists s, h = (keyword ++ s)%string.
Proof.
  unfold startsWith. revert h.
  induction keyword as [|a keyword IH]; intro h; simpl.
  - destruct h; split; eauto.
  - destruct h as [|b h].
    + split; [discriminate|]. intros (s & Hs). discriminate.
    + change (prefix (String a keyword) (String b h))
        with (if ascii_dec a b then prefix keyword h else false).
      destruct (ascii_dec a b) as [->|Hab].
      * rewrite IH. split; intros (s & Hs); exists s; congruence.
      * split; [discriminate|]. intros (s & Hs).
        injection Hs as Hb _. congruence.
Qed.

Lemma includes_spec (h keyword : string) :
  includes h keyword = true <->
  exists s1 s2, h = (s1 ++ keyword ++ s2)%string.
Proof.
  induction h as [|c h IH].
  - cbn [includes]. rewrite orb_false_r, startsWith_spec. split.
    + intros (s & Hs). exists EmptyString, s. exact Hs.
    + intros (s1 & s2 & Hs). destruct s1; [|discriminate].
      exists s2. exact Hs.
  - cbn [includes]. rewrite orb_true_iff, startsWith_spec, IH. split.
    + intros [(s & Hs) | (s1 & s2 & Hs)].
      * exists EmptyString, s. exact Hs.
      * exists (String c s1), s2. simpl. congruence.
    + intros (s1 & s2 & Hs). destruct s1 as [|c' s1].
      * left. exists s2. exact Hs.
      * right. injection Hs as _ Hs. exists s1, s2. exact Hs.
Qed.

Lemma tierTest_spec (t : Tier) (h keyword : string) :
  tierTest t h keyword = true <-> tierMatch t h keyword.
Proof.
  destruct t; simpl.
  - apply String.eqb_eq.
  - apply startsWith_spec.
  - apply includes_spec.
Qed.

(** ** [findIndex] and the keyword loop *)

Lemma findIndex_from_spec (A : Type) (test : A -> bool) (l : list A) :
  forall i : Z, (0 <= i)%Z ->
    (findIndex_from test l i = (-1)%Z /\
     forall x, In x l -> test x = false) \/
    (exists k x,
        findIndex_from test l i = (i + Z.of_nat k)%Z /\
        nth_error l k = Some x /\ test x = true /\
        forall j y, (j < k)%nat -> nth_error l j = Some y ->
                    test y = false).
Proof.
  induction l as [|a rest IH]; intros i Hi; simpl.
  - left. split; [reflexivity|]. intros x [].
  - destruct (test a) eqn:Ha.
    + right. exists 0%nat, a. repeat split; auto; [lia|].
      intros j y Hj. lia.
    + destruct (IH (i + 1)%Z ltac:(lia)) as [(H1 & H2) | (k & x & H)].
      * left. split; [exact H1|]. intros x [<-|Hx]; auto.
      * right. destruct H as (H1 & H2 & H3 & H4).
        exists (S k), x. split; [rewrite H1; lia|].
        split; [exact H2|]. split; [exact H3|].
        intros [|j] y Hj Hy; simpl in Hy.
        -- injection Hy as <-. exact Ha.
        -- apply (H4 j y); [lia|exact Hy].
Qed.

Lemma keywordLoop_spec (t : Tier) (hs ks : list string) :
  match keywordLoop (tierTest t) hs ks with
  | Some idx => exists i, tierResolves t hs ks i /\ idx = Z.of_nat i
  | None => tierFails t hs ks
  end.
Proof.
  induction ks as [|k rest IH]; simpl.
  - intros k h [].
  - destruct (findIndex_from_spec (fun h => tierTest t h k) hs
                (i := 0%Z) ltac:(lia))
      as [(Hnone & Hall) | (i & h & Hidx & Hnth & Hh & Hfirst)];
      unfold findIndex.
    + rewrite Hnone. simpl.
      assert (Hk : forall h, In h hs -> ~ tierMatch t h k).
      { intros h Hh Hm. apply tierTest_spec in Hm.
        rewrite (Hall h Hh) in Hm. discriminate. }
      destruct (keywordLoop (tierTest t) hs rest) as [idx|].
      * destruct IH as (i & (before & k' & after & -> & Hb & Hfi) & ->).
        exists i. split; [|reflexivity].
        exists (k :: before), k', after. split; [reflexivity|].
        split; [|exact Hfi].
        intros k0 h [<-|Hk0] Hh; [apply Hk; exact Hh|].
        apply Hb; assumption.
      * intros k0 h [<-|Hk0] Hh; [apply Hk; exact Hh|].
        apply IH; assumption.
    + rewrite Hidx.
      replace (0 + Z.of_nat i =? -1)%Z with false
        by (symmetry; apply Z.eqb_neq; lia).
      exists i. split; [|lia].
      exists [], k, rest. split; [reflexivity|]. split.
      * intros k0 h0 [].
      * split.
        -- exists h. split; [exact Hnth|]. apply tierTest_spec. exact Hh.
        -- intros j y Hj Hy Hm. apply tierTest_spec in Hm.
           rewrite (Hfirst j y Hj Hy) in Hm. discriminate.
Qed.

Lemma findColumnIndex_resolvesTo (headers keywords : list string) :
  resolvesTo (map normalizeHeader headers) keywords
             (findColumnIndex headers keywords).
Proof.
  unfold findColumnIndex, resolvesTo.
  set (hs := map normalizeHeader headers).
  pose proof (keywordLoop_spec ExactTier hs keywords) as H1.
  pose proof (keywordLoop_spec StartsWithTier hs keywords) as H2.
  pose proof (keywordLoop_spec ContainsTier hs keywords) as H3.
  cbn [tierTest] in H1, H2, H3.
  destruct (keywordLoop String.eqb hs keywords) as [idx|].
  { left. exact H1. }
  destruct (keywordLoop startsWith hs keywords) as [idx|].
  { right. left. split; assumption. }
  destruct (keywordLoop includes hs keywords) as [idx|].
  { right. right. left. repeat split; assumption. }
  right. right. right. repeat split; assumption.
Qed.

(** ** Normalization *)

Lemma whitespace_not_alnum (c : ascii) :
  isWhitespace c = true -> isLowerAlnum c = false.
Proof.
  destruct c as [[] [] [] [] [] [] [] []]; vm_compute; congruence.
Qed.

Lemma stripNonAlnum_trimStart (s : string) :
  stripNonAlnum (trimStart s) = stripNonAlnum s.
Proof.
  induction s as [|c s IH]; simpl; [reflexivity|].
  destruct (isWhitespace c) eqn:Hc; [|reflexivity].
  rewrite (whitespace_not_alnum c Hc). exact IH.
Qed.

Lemma stripNonAlnum_trimEnd (s : string) :
  stripNonAlnum (trimEnd s) = stripNonAlnum s.
Proof.
  induction s as [|c s IH]; simpl; [reflexivity|].
  destruct (trimEnd s) as [|c' s'] eqn:Hs.
  - simpl in IH. destruct (isWhitespace c) eqn:Hc.
    + rewrite (whitespace_not_alnum c Hc). exact IH.
    + simpl. rewrite <- IH. reflexivity.
  - cbn [stripNonAlnum] in *. rewrite IH. reflexivity.
Qed.

Lemma normalizeHeader_spec (h : string) :
  normalizeHeader h = stripNonAlnum (toLowerCase h).
Proof.
  unfold normalizeHeader, trim.
  rewrite stripNonAlnum_trimEnd. apply stripNonAlnum_trimStart.
Qed.

(** C7.  A header is normalized by lowering its case and removing every
    character that is not a lowercase letter or a digit.  For a keyword
    list, [findColumnIndex] gives the column that the three tiers give when
    tried in order, each over all keywords before the next: exact equality,
    then header starts with keyword, then header contains keyword; in a
    tier the first keyword that matches a header wins, at the first header
    it matches; [-1] when no tier matches.  The id, diagnosis and date
    columns are resolved with their own keywords; the drug column with the
    prescription keywords and, when they resolve nothing, with the
    procedure keywords.  With the default keywords the headers
    [["Patient_ID"; "ICD10"; "NDC"; "DOS"]] resolve to id 0, diagnosis 1,
    prescription 2 and date 3. *)
Theorem column_resolution (headers keywords : list string)
        (columnKeywords : ColumnKeywords) :
  let c := resolveColumns headers columnKeywords in
  (forall h, normalizeHeader h = stripNonAlnum (toLowerCase h)) /\
  resolvesTo (map normalizeHeader headers) keywords
             (findColumnIndex headers keywords) /\
  idIndex c = findColumnIndex headers (kw_id columnKeywords) /\
  dxIndex c = findColumnIndex headers (kw_diagnosis columnKeywords) /\
  dateIndex c = findColumnIndex headers (kw_date columnKeywords) /\
  (findColumnIndex headers (kw_prescription columnKeywords) <> (-1)%Z ->
   rxIndex c = findColumnIndex headers (kw_prescription columnKeywords)) /\
  (findColumnIndex headers (kw_prescription columnKeywords) = (-1)%Z ->
   rxIndex c = findColumnIndex headers (kw_procedure columnKeywords)) /\
  resolveColumns ["Patient_ID"; "ICD10"; "NDC"; "DOS"]%string
                 defaultColumnKeywords =
  {| idIndex := 0; dxIndex := 1; rxIndex := 2; dateIndex := 3 |}.
Proof.
  intro c. split; [exact normalizeHeader_spec|].
  split; [apply findColumnIndex_resolvesTo|].
  split; [reflexivity|]. split; [reflexivity|]. split; [reflexivity|].
  split; [|split].
  - intro H. apply Z.eqb_neq in H. unfold c, resolveColumns.
    cbn [rxIndex]. rewrite H. reflexivity.
  - intro H. unfold c, resolveColumns. cbn [rxIndex].
    rewrite H. reflexivity.
  - vm_compute. reflexivity.
Qed.

(** Witness of C7: the headers of the example resolve the drug column
    with a prescription keyword, [procedureHeaders] only with a procedure
    keyword. *)
Lemma column_resolution_witness :
  rxIndex (resolveColumns ["Patient_ID"; "ICD10"; "NDC"; "DOS"]%string
                          defaultColumnKeywords) = 2%Z /\
  findColumnIndex procedureHeaders (kw_prescription defaultColumnKeywords) =
  (-1)%Z /\
  rxIndex (resolveColumns procedureHeaders defaultColumnKeywords) = 2%Z.
Proof.
  assert (H1 : findColumnIndex ["Patient_ID"; "ICD10"; "NDC"; "DOS"]%string
                 (kw_prescription defaultColumnKeywords) <> (-1)%Z)
    by (vm_compute; discriminate).
  assert (H2 : findColumnIndex procedureHeaders
                 (kw_prescription defaultColumnKeywords) = (-1)%Z)
    by (vm_compute; reflexivity).
  destruct (column_resolution ["Patient_ID"; "ICD10"; "NDC"; "DOS"]%string
              [] defaultColumnKeywords)
    as (_ & _ & _ & _ & _ & Hrx & _).
  destruct (column_resolution procedureHeaders [] defaultColumnKeywords)
    as (_ & _ & _ & _ & _ & _ & Hpx & _).
  split; [|split].
  - rewrite (Hrx H1). vm_compute. reflexivity.
  - exact H2.
  - rewrite (Hpx H2). vm_compute. reflexivity.
Defined.

(* ================================================================== *)
(** * The claim on the store *)
(* ================================================================== *)

(** ** The run of a store computation *)

Lemma bindS_normal (A B : Type) (m : St A) (k : A -> St B)
      (h h' : Heap) (n n' : nat) (a : A) :
  m h n = (Normal a, h', n') -> bindS m k h n = k a h' n'.
Proof. intro H. unfold bindS. rewrite H. reflexivity. Qed.

Lemma bindS_throw (A B : Type) (m : St A) (k : A -> St B)
      (h h' : Heap) (n n' : nat) :
  m h n = (Throw, h', n') -> bindS m k h n = (Throw, h', n').
Proof. intro H. unfold bindS. rewrite H. reflexivity. Qed.

Lemma readArray_run (h : Heap) (a : ref) (l : list ref) (n : nat) :
  array_at h a = Some l -> readArray a h n = (Normal l, h, n).
Proof. intro H. unfold readArray. rewrite H. reflexivity. Qed.

Lemma readObject_run (h : Heap) (o : ref) (p : PatientProfile) (n : nat) :
  object_at h o = Some p -> readObject o h n = (Normal p, h, n).
Proof. intro H. unfold readObject. rewrite H. reflexivity. Qed.

(** ** Growth of the store *)

Lemma grows_refl (h : Heap) : grows h h.
Proof.
  split; [exists []; symmetry; apply app_nil_r|]. split; auto.
Qed.

Lemma grows_trans (h1 h2 h3 : Heap) :
  grows h1 h2 -> grows h2 h3 -> grows h1 h3.
Proof.
  intros ((new1 & H1) & Hl1 & Ha1) ((new2 & H2) & Hl2 & Ha2).
  split; [|split].
  - exists (new1 ++ new2). rewrite H2, H1. symmetry. apply app_assoc.
  - lia.
  - auto.
Qed.

Lemma grows_object (h h' : Heap) (o : ref) (p : PatientProfile) :
  grows h h' -> object_at h o = Some p -> object_at h' o = Some p.
Proof.
  intros ((new & Hnew) & _) H. unfold object_at in *. rewrite Hnew.
  rewrite nth_error_app1; [exact H|].
  apply nth_error_Some. congruence.
Qed.

Lemma grows_preserves (h h' : Heap) : grows h h' -> preserves h h'.
Proof.
  intro H. split.
  - intros o p. apply grows_object. exact H.
  - apply H.
Qed.

Lemma grows_derefs (h h' : Heap) (refs : list ref)
      (vs : list PatientProfile) :
  grows h h' -> derefs h refs vs -> derefs h' refs vs.
Proof.
  intro Hg. unfold derefs. revert vs.
  induction refs as [|o refs IH]; intros [|v vs] H; simpl in *;
    try discriminate; [reflexivity|].
  injection H as Ho Hrest.
  rewrite (@grows_object h h' o v Hg Ho). f_equal. apply IH. exact Hrest.
Qed.

Lemma grows_fresh_object (h h' : Heap) (o : ref) :
  grows h h' -> (List.length (objects h') <= o)%nat ->
  object_at h o = None.
Proof.
  intros ((new & Hnew) & _) Ho. apply nth_error_None.
  rewrite Hnew, length_app in Ho. lia.
Qed.

Lemma grows_newObject (h : Heap) (p : PatientProfile) :
  grows h {| objects := objects h ++ [p]; arrays := arrays h |}.
Proof.
  split; [exists [p]; reflexivity|]. split; auto.
Qed.

Lemma grows_newArray (h : Heap) (l : list ref) :
  grows h {| objects := objects h; arrays := arrays h ++ [l] |}.
Proof.
  split; [exists []; symmetry; apply app_nil_r|]. split.
  - simpl. rewrite length_app. lia.
  - intros a l' H. unfold array_at in *. simpl.
    rewrite nth_error_app1; [exact H|].
    apply nth_error_Some. congruence.
Qed.

Lemma array_at_newArray (h : Heap) (l : list ref) :
  array_at {| objects := objects h; arrays := arrays h ++ [l] |}
           (List.length (arrays h)) = Some l.
Proof.
  unfold array_at. simpl. rewrite nth_error_app2, Nat.sub_diag; auto.
Qed.

Lemma object_at_newObject (h : Heap) (p : PatientProfile) :
  object_at {| objects := objects h ++ [p]; arrays := arrays h |}
            (List.length (objects h)) = Some p.
Proof.
  unfold object_at. simpl. rewrite nth_error_app2, Nat.sub_diag; auto.
Qed.

Lemma list_update_length (A : Type) (l : list A) (i : nat) (x : A) :
  List.length (list_update l i x) = List.length l.
Proof.
  revert i. induction l as [|y l IH]; intros [|i]; simpl; auto.
Qed.

Lemma list_update_same (A : Type) (l : list A) (i : nat) (x : A) :
  (i < List.length l)%nat -> nth_error (list_update l i x) i = Some x.
Proof.
  revert i. induction l as [|y l IH]; intros [|i] H; simpl in *;
    try lia; auto. apply IH. lia.
Qed.

Lemma list_update_other (A : Type) (l : list A) (i j : nat) (x : A) :
  i <> j -> nth_error (list_update l i x) j = nth_error l j.
Proof.
  revert i j. induction l as [|y l IH]; intros [|i] [|j] H; simpl;
    auto; try lia.
Qed.

(** A write to an array that [h0] does not have keeps the growth from
    [h0]. *)
Lemma grows_writeArray (h0 h : Heap) (a : ref) (l : list ref) :
  grows h0 h -> (List.length (arrays h0) <= a)%nat ->
  grows h0 {| objects := objects h; arrays := list_update (arrays h) a l |}.
Proof.
  intros (Hobj & Hlen & Harr) Ha. split; [exact Hobj|]. split.
  - simpl. rewrite list_update_length. exact Hlen.
  - intros a' l' H. unfold array_at. simpl.
    rewrite list_update_other; [apply Harr; exact H|].
    intros ->. apply nth_error_None in Ha. unfold array_at in H.
    congruence.
Qed.

(** ** References and the objects they point to *)

Lemma derefs_same_objects (h h' : Heap) (refs : list ref)
      (vs : list PatientProfile) :
  objects h' = objects h -> derefs h refs vs -> derefs h' refs vs.
Proof.
  unfold derefs, object_at. intros ->. auto.
Qed.

Lemma derefs_length (h : Heap) (refs : list ref) (vs : list PatientProfile) :
  derefs h refs vs -> List.length refs = List.length vs.
Proof.
  intro H. apply (f_equal (@List.length _)) in H.
  rewrite !length_map in H. exact H.
Qed.

Lemma derefs_firstn (h : Heap) (k : nat) (refs : list ref)
      (vs : list PatientProfile) :
  derefs h refs vs -> derefs h (firstn k refs) (firstn k vs).
Proof.
  unfold derefs. intro H. rewrite <- !firstn_map, H. reflexivity.
Qed.

Lemma derefs_Forall2 (h : Heap) (refs : list ref)
      (vs : list PatientProfile) :
  derefs h refs vs ->
  Forall2 (fun o v => object_at h o = Some v) refs vs.
Proof.
  unfold derefs. revert vs.
  induction refs as [|o refs IH]; intros [|v vs] H; simpl in H;
    try discriminate; constructor.
  - congruence.
  - apply IH. congruence.
Qed.

(** The shuffle of the references is the shuffle of the objects. *)
Lemma shuffle_derefs {engine : ArraySort} (rnd : nat -> Q) (h : Heap)
      (refs : list ref) (vs : list PatientProfile) (n : nat) :
  derefs h refs vs ->
  derefs h (fst (Array_sort (@shuffleCompare rnd ref) refs n))
           (fst (Array_sort (@shuffleCompare rnd PatientProfile) vs n)) /\
  snd (Array_sort (@shuffleCompare rnd ref) refs n) =
  snd (Array_sort (@shuffleCompare rnd PatientProfile) vs n).
Proof.
  unfold derefs. intro H.
  pose proof (Array_sort_natural (object_at h)
                (@shuffleCompare rnd ref)
                (@shuffleCompare rnd (option PatientProfile))
                (fun _ _ _ => eq_refl) refs n) as Hrefs.
  pose proof (Array_sort_natural (@Some PatientProfile)
                (@shuffleCompare rnd PatientProfile)
                (@shuffleCompare rnd (option PatientProfile))
                (fun _ _ _ => eq_refl) vs n) as Hvs.
  rewrite H, Hvs in Hrefs. injection Hrefs as H1 H2. auto.
Qed.

(** ** The loops over references *)

Lemma readObjects_run (h : Heap) (refs : list ref)
      (vs : list PatientProfile) (n : nat) :
  derefs h refs vs -> readObjects refs h n = (Normal vs, h, n).
Proof.
  unfold derefs. revert vs.
  induction refs as [|o refs IH]; intros [|v vs] H; simpl in H;
    try discriminate; [reflexivity|].
  injection H as Ho Hrest. cbn [readObjects].
  erewrite bindS_normal; [|apply readObject_run; exact Ho].
  erewrite bindS_normal; [|apply IH; exact Hrest]. reflexivity.
Qed.

Lemma filterRefs_run (test : PatientProfile -> bool) (h : Heap)
      (refs : list ref) (vs : list PatientProfile) (n : nat) :
  derefs h refs vs ->
  exists kept,
    filterRefs test refs h n = (Normal kept, h, n) /\
    derefs h kept (filter test vs).
Proof.
  unfold derefs. revert vs.
  induction refs as [|o refs IH]; intros [|v vs] H; simpl in H;
    try discriminate.
  - exists []. split; reflexivity.
  - injection H as Ho Hrest. destruct (IH vs Hrest) as (kept & Hrun & Hk).
    exists (if test v then o :: kept else kept). split.
    + cbn [filterRefs].
      erewrite bindS_normal; [|apply readObject_run; exact Ho].
      erewrite bindS_normal; [|exact Hrun]. reflexivity.
    + simpl. destruct (test v); simpl; congruence.
Qed.

(** The loop of [map] on the store follows [Array_map] on the objects: it
    allocates one new object per record, or throws with it. *)
Lemma mapRefs_run (callback : PatientProfile -> nat -> Exec PatientProfile)
      (refs : list ref) :
  forall (vs : list PatientProfile) (index : nat) (h : Heap) (n : nat),
    derefs h refs vs ->
    exists h',
      grows h h' /\ arrays h' = arrays h /\
      match Array_map callback vs index n with
      | (Normal out, n') =>
          exists outRefs,
            mapRefs callback refs index h n = (Normal outRefs, h', n') /\
            derefs h' outRefs out /\
            Forall (fun o => List.length (objects h) <= o)%nat outRefs
      | (Throw, n') => mapRefs callback refs index h n = (Throw, h', n')
      end.
Proof.
  induction refs as [|o refs IH]; intros [|v vs] index h n H;
    try discriminate.
  - exists h. split; [apply grows_refl|]. split; [reflexivity|].
    exists []. repeat split. constructor.
  - injection H as Ho Hrest. cbn [Array_map mapRefs].
    erewrite bindS_normal; [|apply readObject_run; exact Ho].
    destruct (callback v index n) as [[r|] n1] eqn:Hcb.
    + erewrite bindE_normal; [|exact Hcb].
      erewrite bindS_normal;
        [|unfold liftS; rewrite Hcb; reflexivity].
      erewrite bindS_normal; [|reflexivity].
      set (h1 := {| objects := objects h ++ [r]; arrays := arrays h |}).
      assert (Hg1 : grows h h1) by apply grows_newObject.
      destruct (IH vs (S index) h1 n1 (grows_derefs Hg1 Hrest))
        as (h' & Hg & Harr & Hrun).
      exists h'. split; [exact (grows_trans Hg1 Hg)|].
      split; [exact Harr|].
      destruct (Array_map callback vs (S index) n1) as [[out|] n2] eqn:Hm.
      * destruct Hrun as (outRefs & Hrun & Hd & Hfresh).
        erewrite bindE_normal; [|exact Hm].
        erewrite bindS_normal; [|exact Hrun].
        exists (List.length (objects h) :: outRefs).
        split; [reflexivity|]. split.
        -- unfold derefs in *. simpl. rewrite Hd. f_equal.
           apply (grows_object (h := h1) _ Hg).
           apply object_at_newObject.
        -- constructor; [lia|].
           eapply Forall_impl; [|exact Hfresh].
           intros o' Ho'. unfold h1 in Ho'. simpl in Ho'.
           rewrite length_app in Ho'. lia.
      * erewrite bindE_throw; [|exact Hm].
        erewrite bindS_throw; [|exact Hrun]. reflexivity.
    + erewrite bindE_throw; [|exact Hcb].
      erewrite bindS_throw; [|unfold liftS; rewrite Hcb; reflexivity].
      exists h. split; [apply grows_refl|]. split; reflexivity.
Qed.

(** ** The array operations *)

Lemma Array_map_st_run
      (callback : PatientProfile -> nat -> Exec PatientProfile)
      (a : ref) (refs : list ref) (vs : list PatientProfile)
      (h : Heap) (n : nat) :
  array_at h a = Some refs -> derefs h refs vs ->
  match Array_map callback vs 0 n with
  | (Normal out, n') =>
      exists h' result outRefs,
        Array_map_st callback a h n = (Normal result, h', n') /\
        grows h h' /\
        (List.length (arrays h) <= result)%nat /\
        array_at h' result = Some outRefs /\
        derefs h' outRefs out /\
        Forall (fun o => List.length (objects h) <= o)%nat outRefs
  | (Throw, n') =>
      exists h', Array_map_st callback a h n = (Throw, h', n') /\
                 grows h h'
  end.
Proof.
  intros Ha Hd. unfold Array_map_st.
  erewrite bindS_normal; [|apply readArray_run; exact Ha].
  destruct (mapRefs_run callback 0 n Hd) as (h1 & Hg & Harr & Hrun).
  destruct (Array_map callback vs 0 n) as [[out|] n'].
  - destruct Hrun as (outRefs & Hrun & Hout & Hfresh).
    erewrite bindS_normal; [|exact Hrun].
    eexists. exists (List.length (arrays h1)), outRefs.
    split; [reflexivity|].
    split; [exact (grows_trans Hg (grows_newArray h1 outRefs))|].
    split; [rewrite Harr; lia|].
    split; [apply array_at_newArray|].
    split; [|exact Hfresh].
    eapply derefs_same_objects; [|exact Hout]. reflexivity.
  - erewrite bindS_throw; [|exact Hrun].
    exists h1. split; [reflexivity|exact Hg].
Qed.

Lemma Array_map_fallback (ps : list PatientProfile) (index n : nat) :
  Array_map (fun p _ => retE (fallbackRecord p)) ps index n =
  (Normal (map fallbackRecord ps), n).
Proof.
  revert index. induction ps as [|p ps IH]; intro index; simpl.
  - reflexivity.
  - erewrite bindE_normal; [|reflexivity].
    erewrite bindE_normal; [|apply IH]. reflexivity.
Qed.

Lemma returnsNew_intro (h0 h h' : Heap) (result : ref)
      (outRefs : list ref) (out : list PatientProfile) :
  grows h0 h -> grows h h' ->
  (List.length (arrays h) <= result)%nat ->
  array_at h' result = Some outRefs ->
  derefs h' outRefs out ->
  Forall (fun o => List.length (objects h) <= o)%nat outRefs ->
  returnsNew h0 h' result out.
Proof.
  intros Hg0 Hg Hres Harr Hd Hfresh.
  split; [exact (grows_preserves (grows_trans Hg0 Hg))|]. split.
  - apply nth_error_None. destruct Hg0 as (_ & Hlen & _). lia.
  - exists outRefs. split; [exact Harr|]. split.
    + eapply Forall_impl; [|exact Hfresh].
      intros o Ho. exact (grows_fresh_object Hg0 Ho).
    + apply derefs_Forall2. exact Hd.
Qed.

(** ** The run of [classifyPatientRisk] on the store *)

Section ClassifyStoreRun.

Context {engine : ArraySort}.
Variable rnd : nat -> Q.
Variable generateContent : Prompt -> GenerateContentResult.
Variable JSON_parse : string -> Completion JsonValue.

(** The [catch] branch, from any store [h] that the run has reached. *)
Lemma fallback_st_run (h0 h : Heap) (patients : ref) (refs : list ref)
      (ps : list PatientProfile) (n : nat) :
  array_at h0 patients = Some refs -> derefs h0 refs ps -> grows h0 h ->
  exists h' result,
    Array_map_st (fun p _ => retE (fallbackRecord p)) patients h n =
    (Normal result, h', n) /\
    returnsNew h0 h' result (map fallbackRecord ps).
Proof.
  intros Ha Hd Hg.
  pose proof (Array_map_st_run (fun p _ => retE (fallbackRecord p))
                patients n (proj2 (proj2 Hg) _ _ Ha) (grows_derefs Hg Hd))
    as Hrun.
  rewrite Array_map_fallback in Hrun.
  destruct Hrun as (h' & result & outRefs & Hrun & Hg' & Hres & Harr &
                    Hout & Hfresh).
  exists h', result. split; [exact Hrun|].
  exact (returnsNew_intro Hg Hg' Hres Harr Hout Hfresh).
Qed.

(** The store semantics and the value semantics agree, and the store of
    the caller is left as it was. *)
Lemma classifyPatientRisk_st_run (h : Heap) (patients : ref)
      (refs : list ref) (ps : list PatientProfile)
      (ontology : OntologyMapping) (config : CohortConfig) (n : nat) :
  array_at h patients = Some refs -> derefs h refs ps ->
  exists result h' n' out,
    classifyPatientRisk_st rnd generateContent JSON_parse
      patients ontology config h n = (Normal result, h', n') /\
    classifyPatientRisk rnd generateContent JSON_parse
      ps ontology config n = (Normal out, n') /\
    returnsNew h h' result out.
Proof.
  intros Ha Hd.
  destruct (filterRefs_run eligible n Hd) as (kept & Hfilter & Hkept).
  set (h1 := {| objects := objects h; arrays := arrays h ++ [kept] |}).
  set (h2 := {| objects := objects h; arrays := arrays h1 ++ [kept] |}).
  set (a2 := List.length (arrays h1)).
  destruct (shuffle_derefs rnd n Hkept) as (Hsorted & Hcount).
  set (sorted := fst (Array_sort (@shuffleCompare rnd ref) kept n))
    in Hsorted.
  set (h3 := {| objects := objects h;
                arrays := list_update (arrays h2) a2 sorted |}).
  set (h4 := {| objects := objects h;
                arrays := arrays h3 ++ [firstn batchSize sorted] |}).
  assert (Hg1 : grows h h1) by apply grows_newArray.
  assert (Hg2 : grows h h2)
    by exact (grows_trans Hg1 (grows_newArray h1 kept)).
  assert (Hg3 : grows h h3).
  { apply (grows_writeArray (h := h2) sorted Hg2).
    unfold a2, h1. simpl. rewrite length_app. lia. }
  assert (Hg4 : grows h h4)
    by exact (grows_trans Hg3 (grows_newArray h3 _)).
  assert (Ha2 : array_at h3 a2 = Some sorted).
  { unfold array_at, h3. simpl. apply list_update_same.
    unfold a2. rewrite length_app. simpl. lia. }
  assert (Ha2' : array_at h4 a2 = Some sorted).
  { exact (proj2 (proj2 (grows_newArray h3 _)) _ _ Ha2). }
  assert (Hd4 : derefs h4 sorted (shuffledOf rnd ps n)).
  { eapply derefs_same_objects; [|exact Hsorted]. reflexivity. }
  (* the run up to the [try] block *)
  unfold classifyPatientRisk_st, classifyPatientRisk.
  rewrite bind_run. cbv zeta.
  fold (shuffledOf rnd ps n).
  erewrite bindS_normal.
  2:{ unfold Array_filter_st.
      erewrite bindS_normal; [|apply readArray_run; exact Ha].
      erewrite bindS_normal; [|exact Hfilter]. reflexivity. }
  erewrite bindS_normal.
  2:{ unfold Array_spread_st.
      erewrite bindS_normal;
        [|apply readArray_run; apply array_at_newArray].
      reflexivity. }
  erewrite bindS_normal.
  2:{ unfold Array_sort_st.
      erewrite bindS_normal;
        [|apply readArray_run; apply (array_at_newArray h1)].
      erewrite bindS_normal;
        [|unfold liftS, liftE; rewrite bind_run; reflexivity].
      erewrite bindS_normal; [|reflexivity]. reflexivity. }
  fold h1 h2 a2 sorted h3.
  erewrite bindS_normal; [|apply readArray_run; exact Ha2].
  erewrite bindS_normal.
  2:{ unfold Array_slice_st.
      erewrite bindS_normal; [|apply readArray_run; exact Ha2].
      reflexivity. }
  fold h4.
  erewrite bindS_normal;
    [|apply readArray_run; apply (array_at_newArray h3)].
  erewrite bindS_normal.
  2:{ apply readObjects_run. apply derefs_firstn. exact Hd4. }
  rewrite (derefs_length Hd4). rewrite Hcount.
  set (n1 := snd (Array_sort (@shuffleCompare rnd PatientProfile)
                             (filter eligible ps) n)).
  set (splitIndex :=
         splitIndexOf (List.length (shuffledOf rnd ps n)) config).
  set (prompt := buildPrompt ontology config
                   (firstn batchSize (shuffledOf rnd ps n))).
  (* the [try] block and the [catch] branch *)
  unfold try_catch_st, try_catch, tryBlock_st, tryBlock.
  rewrite bind_run.
  destruct (generateContent prompt) as [|text].
  { destruct (@fallback_st_run h h4 patients refs ps n1 Ha Hd Hg4)
      as (h' & result & Hrun & Hnew).
    exists result, h', n1, (map fallbackRecord ps).
    split; [exact Hrun|]. split; [reflexivity|exact Hnew]. }
  destruct (parsePredictions JSON_parse text) as [predictions|] eqn:Hparse.
  2:{ destruct (@fallback_st_run h h4 patients refs ps n1 Ha Hd Hg4)
      as (h' & result & Hrun & Hnew).
      exists result, h', n1, (map fallbackRecord ps).
      split; [exact Hrun|]. split; [reflexivity|exact Hnew]. }
  erewrite bindS_normal; [|reflexivity].
  erewrite bindE_normal; [|reflexivity].
  pose proof (Array_map_st_run
                (scorePatient rnd config splitIndex predictions)
                a2 n1 Ha2' Hd4) as Hmap.
  match goal with
  | |- context [Array_map_st ?f a2 ?h' n1] => change h' with h4
  end.
  destruct (Array_map (scorePatient rnd config splitIndex predictions)
                      (shuffledOf rnd ps n) 0 n1) as [[out|] n2].
  - destruct Hmap as (h' & result & outRefs & Hrun & Hg' & Hres & Harr &
                      Hout & Hfresh).
    exists result, h', n2, out. rewrite Hrun.
    split; [reflexivity|]. split; [reflexivity|].
    exact (returnsNew_intro Hg4 Hg' Hres Harr Hout Hfresh).
  - destruct Hmap as (h5 & Hrun & Hg5). rewrite Hrun.
    destruct (@fallback_st_run h h5 patients refs ps n2 Ha Hd
                (grows_trans Hg4 Hg5))
      as (h' & result & Hrun' & Hnew).
    exists result, h', n2, (map fallbackRecord ps).
    split; [exact Hrun'|]. split; [reflexivity|exact Hnew].
Qed.

End ClassifyStoreRun.

Lemma Forall2_derefs (h : Heap) (refs : list ref)
      (vs : list PatientProfile) :
  Forall2 (fun o v => object_at h o = Some v) refs vs -> derefs h refs vs.
Proof.
  unfold derefs. induction 1 as [|o v refs vs Ho _ IH]; simpl.
  - reflexivity.
  - rewrite Ho, IH. reflexivity.
Qed.

Section StoreClaim.

Context {engine : ArraySort}.
Variable rnd : nat -> Q.
Variable generateContent : Prompt -> GenerateContentResult.
Variable JSON_parse : string -> Completion JsonValue.

(** C9.  [classifyPatientRisk], called on the array [patients] of a store
    [h], returns, and mutates neither the array nor any object of the
    caller: every array and every object of [h] is in the final store as
    it was, the result is an array that [h] did not have, its elements are
    objects that [h] did not have, and the records they hold are those of
    the value semantics.  On the engine-success path each returned record
    agrees with its input subject on the eleven fields other than
    [riskScore], [riskCategory], [split] and [actualOutcome]. *)
Theorem classify_does_not_mutate_its_input (h : Heap) (patients : ref)
        (refs : list ref) (ps : list PatientProfile)
        (ontology : OntologyMapping) (config : CohortConfig) (n : nat) :
  array_at h patients = Some refs ->
  Forall2 (fun o p => object_at h o = Some p) refs ps ->
  exists result h' n' outRefs out,
    classifyPatientRisk_st rnd generateContent JSON_parse
      patients ontology config h n = (Normal result, h', n') /\
    (forall a l, array_at h a = Some l -> array_at h' a = Some l) /\
    (forall o p, object_at h o = Some p -> object_at h' o = Some p) /\
    array_at h' patients = Some refs /\
    Forall2 (fun o p => object_at h' o = Some p) refs ps /\
    array_at h result = None /\
    array_at h' result = Some outRefs /\
    Forall (fun o => object_at h o = None) outRefs /\
    Forall2 (fun o r => object_at h' o = Some r) outRefs out /\
    classifyPatientRisk rnd generateContent JSON_parse
      ps ontology config n = (Normal out, n') /\
    (forall items,
        engineSucceeds rnd generateContent JSON_parse
          ps ontology config n items ->
        exists shuffled,
          Permutation shuffled (filter eligible ps) /\
          Forall2 sameSubject shuffled out).
Proof.
  intros Ha Hrefs.
  destruct (classifyPatientRisk_st_run rnd generateContent JSON_parse
              patients ontology config n Ha
              (@Forall2_derefs h refs ps Hrefs))
    as (result & h' & n' & out & Hst & Hval & Hnew).
  destruct Hnew as ((Hobj & Harr) & Hres & outRefs & Hout & Hfresh & Hrec).
  exists result, h', n', outRefs, out.
  split; [exact Hst|]. split; [exact Harr|]. split; [exact Hobj|].
  split; [exact (Harr _ _ Ha)|].
  split.
  { eapply Forall2_impl; [|exact Hrefs]. intros o p. apply Hobj. }
  split; [exact Hres|]. split; [exact Hout|]. split; [exact Hfresh|].
  split; [exact Hrec|]. split; [exact Hval|].
  intros items Hs.
  destruct (classify_success _ _ _ _ _ _ _ Hs) as (out' & n'' & Hc & Hsc).
  rewrite Hc in Hval. injection Hval as -> ->.
  exists (shuffledOf rnd ps n). split; [apply shuffledOf_permutation|].
  eapply Forall2_from_Forall2; [|exact Hsc].
  intros i p r. apply scoredRecord_sameSubject.
Qed.

End StoreClaim.

(** Witness of C9: a run of the success path on [exampleHeap]. *)
Lemma classify_does_not_mutate_its_input_witness :
  exists result h' n' outRefs out,
    classifyPatientRisk_st (engine := insertionSortEngine)
      rndHalf (engineAnswers "[]") (parseReads exampleItems)
      0%nat exampleOntology exampleConfig exampleHeap 0%nat =
    (Normal result, h', n') /\
    array_at h' 0%nat = Some [0; 1; 2]%nat /\
    Forall2 (fun o p => object_at h' o = Some p) [0; 1; 2]%nat
            exampleCohort /\
    array_at exampleHeap result = None /\
    array_at h' result = Some outRefs /\
    Forall (fun o => object_at exampleHeap o = None) outRefs /\
    Forall2 (fun o r => object_at h' o = Some r) outRefs out /\
    exists shuffled,
      Permutation shuffled (filter eligible exampleCohort) /\
      Forall2 sameSubject shuffled out.
Proof.
  destruct (@classify_does_not_mutate_its_input insertionSortEngine
              rndHalf (engineAnswers "[]") (parseReads exampleItems)
              exampleHeap 0%nat [0; 1; 2]%nat exampleCohort
              exampleOntology exampleConfig 0%nat eq_refl)
    as (result & h' & n' & outRefs & out & Hrun & _ & _ & Harr & Hobjs &
        Hres & Hout & Hfresh & Hrec & _ & Hsame).
  { repeat constructor. }
  exists result, h', n', outRefs, out.
  split; [exact Hrun|]. split; [exact Harr|]. split; [exact Hobjs|].
  split; [exact Hres|]. split; [exact Hout|]. split; [exact Hfresh|].
  split; [exact Hrec|].
  exact (Hsame exampleItems (exampleCohort_succeeds exampleItems)).
Defined.

(* ================================================================== *)
(** * Further properties of the column resolution *)
(* ================================================================== *)

Lemma eqb_includes (h keyword : string) :
  String.eqb h keyword = true -> includes h keyword = true.
Proof.
  intro H. apply String.eqb_eq in H. apply includes_spec.
  exists EmptyString, EmptyString. subst h. simpl.
  induction keyword as [|c k IH]; simpl; congruence.
Qed.

Lemma startsWith_includes (h keyword : string) :
  startsWith h keyword = true -> includes h keyword = true.
Proof.
  intro H. apply startsWith_spec in H. destruct H as (s & ->).
  apply includes_spec. exists EmptyString, s. reflexivity.
Qed.

Lemma tierTest_includes (t : Tier) (h keyword : string) :
  tierTest t h keyword = true -> includes h keyword = true.
Proof.
  destruct t; simpl.
  - apply eqb_includes.
  - apply startsWith_includes.
  - auto.
Qed.

Lemma tierFails_contains (t : Tier) (hs ks : list string) :
  tierFails ContainsTier hs ks -> tierFails t hs ks.
Proof.
  intros H k h Hk Hh Hm. apply (H k h Hk Hh).
  apply (tierTest_spec ContainsTier). apply (tierTest_includes t).
  apply tierTest_spec. exact Hm.
Qed.

(** The column of a tier that resolves is a column of the table, and its
    header contains a keyword of the list. *)
Lemma tierResolves_hit (t : Tier) (hs ks : list string) (i : nat) :
  tierResolves t hs ks i ->
  (i < List.length hs)%nat /\
  exists h k, nth_error hs i = Some h /\ In k ks /\ includes h k = true.
Proof.
  intros (before & k & after & -> & _ & (h & Hh & Hm) & _). split.
  - apply nth_error_Some. congruence.
  - exists h, k. split; [exact Hh|]. split.
    + apply in_or_app. right. left. reflexivity.
    + apply (tierTest_includes t). apply tierTest_spec. exact Hm.
Qed.

Lemma resolvesTo_hit (hs ks : list string) (r : Z) :
  resolvesTo hs ks r ->
  (r = (-1)%Z /\ tierFails ContainsTier hs ks) \/
  (exists i, r = Z.of_nat i /\ (i < List.length hs)%nat /\
             exists h k, nth_error hs i = Some h /\ In k ks /\
                         includes h k = true).
Proof.
  intros [(i & H & ->) | [(_ & i & H & ->) | [(_ & _ & i & H & ->)
         | (_ & _ & H & ->)]]].
  - right. exists i. split; [reflexivity|]. exact (tierResolves_hit H).
  - right. exists i. split; [reflexivity|]. exact (tierResolves_hit H).
  - right. exists i. split; [reflexivity|]. exact (tierResolves_hit H).
  - left. split; [reflexivity|exact H].
Qed.

(** X1.  [findColumnIndex] returns [-1] or the index of a column of the
    table, never an index out of range; the normalized header of the
    column it returns contains one of the keywords. *)
Theorem findColumnIndex_in_range (headers keywords : list string) :
  let r := findColumnIndex headers keywords in
  r = (-1)%Z \/
  ((0 <= r < Z.of_nat (List.length headers))%Z /\
   exists h k, nth_error headers (Z.to_nat r) = Some h /\
               In k keywords /\
               includes (normalizeHeader h) k = true).
Proof.
  intro r.
  destruct (resolvesTo_hit (findColumnIndex_resolvesTo headers keywords))
    as [(H & _) | (i & Hr & Hi & h & k & Hh & Hk & Hm)].
  - left. exact H.
  - right. fold r in Hr. rewrite length_map in Hi. split; [lia|].
    rewrite Hr, Nat2Z.id. rewrite nth_error_map in Hh.
    destruct (nth_error headers i) as [h0|]; [|discriminate].
    injection Hh as <-. exists h0, k. auto.
Qed.

(** The headers of the table match none of the keywords. *)
Lemma findColumnIndex_unmatched (headers keywords : list string) :
  findColumnIndex headers keywords = (-1)%Z <->
  unmatched headers keywords.
Proof.
  unfold unmatched. split.
  - intros Hr h k Hh Hk.
    destruct (resolvesTo_hit (findColumnIndex_resolvesTo headers keywords))
      as [(_ & Hfail) | (i & Hi & _)]; [|lia].
    destruct (includes (normalizeHeader h) k) eqn:E; [|reflexivity].
    exfalso. apply (Hfail k (normalizeHeader h) Hk).
    + apply in_map. exact Hh.
    + apply (tierTest_spec ContainsTier). exact E.
  - intro Hnone.
    destruct (resolvesTo_hit (findColumnIndex_resolvesTo headers keywords))
      as [(H & _) | (i & _ & _ & h & k & Hh & Hk & Hm)]; [exact H|].
    apply nth_error_In in Hh. apply in_map_iff in Hh.
    destruct Hh as (h0 & <- & Hh0). rewrite (Hnone h0 k Hh0 Hk) in Hm.
    discriminate.
Qed.

Lemma findColumnIndex_range (headers keywords : list string) :
  findColumnIndex headers keywords <> (-1)%Z ->
  (0 <= findColumnIndex headers keywords < Z.of_nat (List.length headers))%Z.
Proof.
  intro Hr.
  destruct (resolvesTo_hit (findColumnIndex_resolvesTo headers keywords))
    as [(H & _) | (i & Hi & Hlt & _)]; [contradiction|].
  rewrite length_map in Hlt. lia.
Qed.

(** X2.  [findColumnIndex] returns [-1] exactly when no keyword is
    contained in a normalized header: a column whose header contains a
    keyword is never reported as missing. *)
Theorem findColumnIndex_unresolved_iff (headers keywords : list string) :
  findColumnIndex headers keywords = (-1)%Z <->
  forall h k, In h headers -> In k keywords ->
              includes (normalizeHeader h) k = false.
Proof. exact (findColumnIndex_unmatched headers keywords). Qed.

(** Witness of X2: no identifier keyword is contained in the header
    ["Name"]. *)
Lemma findColumnIndex_unresolved_iff_witness :
  findColumnIndex ["Name"]%string (kw_id defaultColumnKeywords) = (-1)%Z.
Proof.
  apply (proj2 (findColumnIndex_unresolved_iff
                  ["Name"]%string (kw_id defaultColumnKeywords))).
  intros h k [<-|[]] Hk. simpl in Hk.
  repeat (destruct Hk as [<-|Hk]; [reflexivity|]). contradiction.
Defined.

(** ** Keywords that are not normalized *)

Lemma allLowerAlnum_app (s1 s2 : string) :
  allLowerAlnum (s1 ++ s2) = allLowerAlnum s1 && allLowerAlnum s2.
Proof.
  induction s1 as [|c s1 IH]; simpl; [reflexivity|].
  rewrite IH. apply andb_assoc.
Qed.

Lemma stripNonAlnum_allLowerAlnum (s : string) :
  allLowerAlnum (stripNonAlnum s) = true.
Proof.
  induction s as [|c s IH]; simpl; [reflexivity|].
  destruct (isLowerAlnum c) eqn:Hc; simpl; [rewrite Hc|]; exact IH.
Qed.

Lemma includes_allLowerAlnum (h keyword : string) :
  includes h keyword = true -> allLowerAlnum h = true ->
  allLowerAlnum keyword = true.
Proof.
  intros H Hh. apply includes_spec in H. destruct H as (s1 & s2 & ->).
  rewrite !allLowerAlnum_app in Hh.
  apply andb_true_iff in Hh. destruct Hh as (_ & Hh).
  apply andb_true_iff in Hh. tauto.
Qed.

(** A keyword that matches no header is skipped by the loop. *)
Lemma keywordLoop_filter (test : string -> string -> bool)
      (keep : string -> bool) (hs ks : list string) :
  (forall k h, keep k = false -> In h hs -> test h k = false) ->
  keywordLoop test hs ks = keywordLoop test hs (filter keep ks).
Proof.
  intro Hskip. induction ks as [|k ks IH]; simpl; [reflexivity|].
  destruct (keep k) eqn:Hk; simpl; [rewrite IH; reflexivity|].
  destruct (findIndex_from_spec (fun h => test h k) hs (i := 0%Z)
              ltac:(lia)) as [(Hnone & _) | (i & h & _ & Hh & Ht & _)].
  - unfold findIndex. rewrite Hnone. exact IH.
  - rewrite (Hskip k h Hk (nth_error_In _ _ Hh)) in Ht. discriminate.
Qed.

(** X3.  The keywords are compared as they are, the headers after
    normalization: a keyword with a character outside [[a-z0-9]] (an
    upper-case letter, a space, an underscore) matches no header, and
    [findColumnIndex] gives the same column with such keywords removed.
    When every keyword has such a character the column is unresolved. *)
Theorem findColumnIndex_ignores_unnormalized_keywords
        (headers keywords : list string) :
  findColumnIndex headers keywords =
  findColumnIndex headers (filter allLowerAlnum keywords) /\
  (Forall (fun k => allLowerAlnum k = false) keywords ->
   findColumnIndex headers keywords = (-1)%Z).
Proof.
  assert (Hskip : forall t k h,
             allLowerAlnum k = false ->
             In h (map normalizeHeader headers) ->
             tierTest t h k = false).
  { intros t k h Hk Hh.
    destruct (tierTest t h k) eqn:E; [|reflexivity].
    apply tierTest_includes in E. apply in_map_iff in Hh.
    destruct Hh as (h0 & <- & _).
    rewrite (includes_allLowerAlnum _ _ E) in Hk; [discriminate|].
    unfold normalizeHeader. apply stripNonAlnum_allLowerAlnum. }
  assert (Heq : findColumnIndex headers keywords =
                findColumnIndex headers (filter allLowerAlnum keywords)).
  { unfold findColumnIndex.
    rewrite <- (keywordLoop_filter String.eqb allLowerAlnum _ keywords
                  (Hskip ExactTier)).
    rewrite <- (keywordLoop_filter startsWith allLowerAlnum _ keywords
                  (Hskip StartsWithTier)).
    rewrite <- (keywordLoop_filter includes allLowerAlnum _ keywords
                  (Hskip ContainsTier)).
    reflexivity. }
  split; [exact Heq|].
  intro Hall. rewrite Heq.
  replace (filter allLowerAlnum keywords) with (@nil string);
    [reflexivity|].
  clear Heq. induction Hall as [|k ks Hk _ IH]; simpl; [reflexivity|].
  rewrite Hk. exact IH.
Qed.

(** Witness of X3: the keyword ["Patient_ID"] does not match the header
    ["Patient_ID"]. *)
Lemma findColumnIndex_ignores_unnormalized_keywords_witness :
  findColumnIndex ["Patient_ID"]%string ["Patient_ID"]%string = (-1)%Z.
Proof.
  apply (proj2 (findColumnIndex_ignores_unnormalized_keywords
                  ["Patient_ID"]%string ["Patient_ID"]%string)).
  repeat constructor.
Defined.

(* ================================================================== *)
(** * Further properties of [classifyPatientRisk] *)
(* ================================================================== *)

Lemma NoDup_firstn_later (A : Type) (l : list A) (k i : nat) (x : A) :
  NoDup l -> nth_error l i = Some x -> (k <= i)%nat -> ~ In x (firstn k l).
Proof.
  intros Hnd. revert k i. induction Hnd as [|a l Ha _ IH]; intros k i Hi Hk.
  - destruct i; discriminate.
  - destruct k as [|k]; [intros []|]. destruct i as [|i]; [lia|].
    simpl in Hi. intros [<-|Hin].
    + apply Ha. exact (nth_error_In _ _ Hi).
    + exact (IH k i Hi ltac:(lia) Hin).
Qed.

Lemma In_firstn (A : Type) (l : list A) (k : nat) (x : A) :
  In x (firstn k l) -> In x l.
Proof.
  revert k. induction l as [|a l IH]; intros [|k] H; simpl in H;
    try contradiction.
  destruct H as [->|H]; [left; reflexivity|right; eauto].
Qed.

Lemma NoDup_map_filter (A B : Type) (f : A -> B) (keep : A -> bool)
      (l : list A) :
  NoDup (map f l) -> NoDup (map f (filter keep l)).
Proof.
  induction l as [|a l IH]; simpl; intro H; [constructor|].
  inversion H as [|b l' Hb Hl]; subst.
  destruct (keep a); simpl; [|exact (IH Hl)]. constructor; [|exact (IH Hl)].
  intro Hin. apply Hb. apply in_map_iff in Hin.
  destruct Hin as (x & Hx & Hin). apply in_map_iff. exists x.
  split; [exact Hx|]. apply filter_In in Hin. tauto.
Qed.

Lemma Forall2_map_eq (A B C : Type) (f : A -> C) (g : B -> C)
      (S : A -> B -> Prop) (l : list A) (l' : list B) :
  (forall a b, S a b -> g b = f a) ->
  Forall2 S l l' -> map g l' = map f l.
Proof.
  intros HS H. induction H as [|a b l l' Hab _ IH]; simpl; [reflexivity|].
  rewrite (HS a b Hab), IH. reflexivity.
Qed.

(** The number of TRAIN records among records that are labelled by their
    index, [index] counting from [k]. *)
Lemma trainSet_length_from (splitIndex : Z) (out : list PatientProfile) :
  forall k : nat,
    (forall i r, nth_error out i = Some r ->
                 split r = Some (if (Z.of_nat (k + i) <? splitIndex)%Z
                                 then TRAIN else TEST)) ->
    Z.of_nat (List.length (trainSet out)) =
    Z.max 0 (Z.min splitIndex (Z.of_nat (k + List.length out)) -
             Z.of_nat k).
Proof.
  unfold trainSet, split_is.
  induction out as [|r out IH]; intros k H; [simpl; lia|].
  pose proof (H 0%nat r eq_refl) as Hr. rewrite Nat.add_0_r in Hr.
  assert (IH' := IH (S k)). cbn [filter List.length].
  rewrite Hr.
  assert (Hrest : forall i r', nth_error out i = Some r' ->
            split r' = Some (if (Z.of_nat (S k + i) <? splitIndex)%Z
                             then TRAIN else TEST)).
  { intros i r' Hi. specialize (H (S i) r' Hi).
    rewrite Nat.add_succ_r in H. exact H. }
  specialize (IH' Hrest).
  destruct (Z.of_nat k <? splitIndex)%Z eqn:E; simpl.
  - apply Z.ltb_lt in E. simpl in IH'. lia.
  - apply Z.ltb_ge in E. lia.
Qed.

Section ClassifyFurther.

Context {engine : ArraySort}.
Variable rnd : nat -> Q.
Variable generateContent : Prompt -> GenerateContentResult.
Variable JSON_parse : string -> Completion JsonValue.

Local Abbreviation classify :=
  (classifyPatientRisk rnd generateContent JSON_parse).
Local Abbreviation outcome :=
  (engineOutcome rnd generateContent JSON_parse).
Local Abbreviation succeeds :=
  (engineSucceeds rnd generateContent JSON_parse).
Local Abbreviation prompt_of := (promptOf rnd).
Local Abbreviation shuffled_of := (shuffledOf rnd).

(** The records of the success path, without the scores. *)
Lemma classify_success_subjects (patients : list PatientProfile)
      (ontology : OntologyMapping) (config : CohortConfig) (n : nat)
      (items : list Prediction) :
  succeeds patients ontology config n items ->
  exists out n',
    classify patients ontology config n = (Normal out, n') /\
    Forall2 sameSubject (shuffled_of patients n) out /\
    Forall (fun r => eligible r = true) out /\
    (forall i r, nth_error out i = Some r ->
       split r = Some (if (Z.of_nat i <?
                           splitIndexOf (List.length
                                           (filter eligible patients))
                                        config)%Z
                       then TRAIN else TEST)).
Proof.
  intro Hs.
  destruct (classify_success _ _ _ _ _ _ _ Hs) as (out & n' & Hc & Hrec).
  assert (Hsame : Forall2 sameSubject (shuffled_of patients n) out).
  { eapply Forall2_from_Forall2; [|exact Hrec].
    intros i p r. apply scoredRecord_sameSubject. }
  exists out, n'. split; [exact Hc|]. split; [exact Hsame|]. split.
  - apply Forall_forall. intros r Hr.
    destruct (Forall2_In_r _ Hsame Hr) as (p & Hp & Hpr).
    rewrite (sameSubject_eligible Hpr).
    exact (proj1 (Forall_forall _ _) (shuffledOf_eligible rnd patients n)
                 p Hp).
  - intros i r Hi. rewrite shuffledOf_length in Hrec.
    destruct (Forall2_from_nth Hrec _ Hi) as (p & _ & Hp).
    exact (scoredRecord_split Hp).
Qed.

(** X4.  On the empty list, [classifyPatientRisk] returns the empty list
    on every path: whatever the engine does, with any random source and
    any sort. *)
Theorem classify_empty_input (ontology : OntologyMapping)
        (config : CohortConfig) (n : nat) :
  exists n', classify [] ontology config n = (Normal [], n').
Proof.
  destruct (classify_run rnd generateContent JSON_parse
              [] ontology config n)
    as (out & n' & Hc & [(items & Hrec) | ->]).
  - exists n'. rewrite Hc.
    pose proof (shuffledOf_permutation rnd [] n) as Hp. simpl in Hp.
    apply Permutation_sym, Permutation_nil in Hp. rewrite Hp in Hrec.
    inversion Hrec. reflexivity.
  - exists n'. exact Hc.
Qed.

(** X5.  The prompt carries the first 30 subjects of the shuffle, or all of
    them when fewer are eligible, and nothing of an ineligible subject.
    Hence, on the engine-success path of a cohort with distinct ids and at
    least 30 TRAIN subjects ([30 <= splitIndex]), no subject of the TEST
    partition was shown to the engine. *)
Theorem engine_sees_the_head_of_the_shuffle
        (patients : list PatientProfile) (ontology : OntologyMapping)
        (config : CohortConfig) (n : nat) :
  let batch :=
    prompt_patientData (prompt_of patients ontology config n) in
  let N := List.length (filter eligible patients) in
  batch = map patientDataOf (firstn 30 (shuffled_of patients n)) /\
  List.length batch = Nat.min 30 N /\
  Forall (fun d => (1 <= pd_monthsOnTherapy d)%Z) batch /\
  (forall items,
      succeeds patients ontology config n items ->
      NoDup (map id patients) ->
      (30 <= splitIndexOf N config)%Z ->
      exists out n',
        classify patients ontology config n = (Normal out, n') /\
        Forall (fun r => ~ In (id r) (map pd_id batch)) (testSet out)).
Proof.
  intros batch N. unfold batch, promptOf, buildPrompt.
  cbn [prompt_patientData]. split; [reflexivity|]. split; [|split].
  - rewrite length_map, length_firstn, shuffledOf_length. reflexivity.
  - apply Forall_forall. intros d Hd. apply in_map_iff in Hd.
    destruct Hd as (p & <- & Hp). apply In_firstn in Hp.
    pose proof (proj1 (Forall_forall _ _)
                      (shuffledOf_eligible rnd patients n) p Hp) as He.
    unfold eligible in He. apply Z.geb_le in He. exact He.
  - intros items Hs Hnd H30.
    destruct (classify_success_subjects Hs)
      as (out & n' & Hc & Hsame & _ & Hsplit).
    exists out, n'. split; [exact Hc|].
    apply Forall_forall. intros r Hr. apply testSet_In in Hr.
    destruct Hr as (Hr & Htest).
    destruct (In_nth_error _ _ Hr) as (i & Hi).
    rewrite (Hsplit i r Hi) in Htest. fold N in Htest.
    destruct (Z.of_nat i <? splitIndexOf N config)%Z eqn:E;
      [discriminate|].
    apply Z.ltb_ge in E.
    assert (Hids : map id out = map id (shuffled_of patients n)).
    { eapply Forall2_map_eq; [|exact Hsame].
      intros a b Hab. apply Hab. }
    replace (map pd_id (map patientDataOf
                          (firstn batchSize (shuffled_of patients n))))
      with (firstn 30 (map id out))
      by (rewrite Hids, firstn_map, map_map; reflexivity).
    apply (@NoDup_firstn_later _ (map id out) 30 i).
    + rewrite Hids.
      eapply Permutation_NoDup;
        [apply Permutation_sym, Permutation_map,
           shuffledOf_permutation|].
      apply NoDup_map_filter. exact Hnd.
    + rewrite nth_error_map, Hi. reflexivity.
    + lia.
Qed.

(** X6.  [classifyPatientRisk] keeps the ids apart: when the ids of the
    input are pairwise distinct, so are the ids of the output, on every
    path. *)
Theorem classify_keeps_ids_distinct (patients : list PatientProfile)
        (ontology : OntologyMapping) (config : CohortConfig) (n : nat) :
  NoDup (map id patients) ->
  exists out n',
    classify patients ontology config n = (Normal out, n') /\
    NoDup (map id out) /\
    (forall r, In r out -> In (id r) (map id patients)).
Proof.
  intro Hnd.
  destruct (classify_run rnd generateContent JSON_parse
              patients ontology config n)
    as (out & n' & Hc & [(items & Hrec) | ->]).
  - assert (Hids : map id out = map id (shuffled_of patients n)).
    { eapply Forall2_map_eq;
        [|eapply Forall2_from_Forall2; [|exact Hrec]].
      - intros a b Hab. apply Hab.
      - intros i p r. apply scoredRecord_sameSubject. }
    exists out, n'. split; [exact Hc|]. rewrite Hids. split.
    + eapply Permutation_NoDup;
        [apply Permutation_sym, Permutation_map,
           shuffledOf_permutation|].
      apply NoDup_map_filter. exact Hnd.
    + intros r Hr. apply (in_map id) in Hr. rewrite Hids in Hr.
      apply in_map_iff in Hr. destruct Hr as (p & Hp & Hin).
      rewrite <- Hp. apply in_map.
      apply (Permutation_in _ (shuffledOf_permutation rnd patients n))
        in Hin.
      apply filter_In in Hin. tauto.
  - eexists. exists n'. split; [exact Hc|].
    assert (Hids : map id (map fallbackRecord patients) = map id patients).
    { rewrite map_map. reflexivity. }
    rewrite Hids. split; [exact Hnd|].
    intros r Hr. apply (in_map id) in Hr. rewrite Hids in Hr. exact Hr.
Qed.

End ClassifyFurther.

From Stdlib Require Import Lqa Sorted.

(** ** The sizes of the two partitions *)

Lemma splitIndexOf_bounds (N : nat) (config : CohortConfig) :
  0 <= trainTestSplit config -> trainTestSplit config <= 1 ->
  (Z.of_nat N < 2 ^ 53)%Z ->
  (0 <= splitIndexOf N config <= Z.of_nat N)%Z.
Proof.
  intros H0 H1 H53. unfold splitIndexOf.
  set (t := trainTestSplit config) in *.
  assert (HN : 0 <= inject_Z (Z.of_nat N)).
  { change 0 with (inject_Z 0). rewrite <- Zle_Qle. lia. }
  assert (Ht0 : 0 <= binary64 t) by (apply binary64_nonneg; exact H0).
  assert (Ht1 : binary64 t <= 1)
    by (apply (@binary64_le_int t 1); [lia|exact H1]).
  set (y := binary64 (1 - binary64 t)).
  assert (Hy0 : 0 <= y) by (apply binary64_nonneg; lra).
  assert (Hy1 : y <= 1)
    by (apply (@binary64_le_int (1 - binary64 t) 1);
        [lia|change (inject_Z 1) with 1; lra]).
  assert (Hz0 : 0 <= binary64 (inject_Z (Z.of_nat N) * y))
    by (apply binary64_nonneg; nra).
  assert (Hz1 : binary64 (inject_Z (Z.of_nat N) * y) <=
                inject_Z (Z.of_nat N))
    by (apply binary64_le_int; [lia|nra]).
  split.
  - rewrite <- (Qfloor_Z 0). apply Qfloor_resp_le. exact Hz0.
  - rewrite <- (Qfloor_Z (Z.of_nat N)) at 2. apply Qfloor_resp_le.
    exact Hz1.
Qed.

Lemma splitIndexOf_below (N : nat) (config : CohortConfig) :
  2 ^ (-53) <= trainTestSplit config -> (1 <= N)%nat ->
  (Z.of_nat N < 2 ^ 53)%Z ->
  (splitIndexOf N config < Z.of_nat N)%Z.
Proof.
  intros H0 HN H53. unfold splitIndexOf.
  set (t := trainTestSplit config) in *.
  assert (HN' : 1 <= inject_Z (Z.of_nat N)).
  { change 1 with (inject_Z 1). rewrite <- Zle_Qle. lia. }
  assert (Ht : 2 ^ (-53) <= binary64 t).
  { assert (H : inject_Z 1 * 2 ^ (-53) <= binary64 t).
    { apply binary64_lower; [lia|lia|].
      change (inject_Z 1) with 1. lra. }
    change (inject_Z 1) with 1 in H. lra. }
  set (y := binary64 (1 - binary64 t)).
  assert (Hy : y <= 1 - 2 ^ (-53)).
  { assert (Hrep : inject_Z (2 ^ 53 - 1) * 2 ^ (-53) == 1 - 2 ^ (-53))
      by reflexivity.
    destruct (Qlt_le_dec 0 (1 - binary64 t)) as [Hpos|Hneg].
    - rewrite <- Hrep. apply binary64_upper; [exact Hpos|lia|lia|].
      rewrite Hrep. lra.
    - pose proof (binary64_nonpos Hneg) as Hle. fold y in Hle.
      assert (0 <= 1 - 2 ^ (-53)) by discriminate. lra. }
  rewrite Zlt_Qlt.
  eapply Qle_lt_trans; [apply Qfloor_le|].
  apply binary64_below_int; [lia|].
  rewrite (Qmult_comm (inject_Z (Z.of_nat N))),
          (Qmult_comm (inject_Z (Z.of_nat N))).
  apply Qmult_le_compat_r; [exact Hy|lra].
Qed.

Lemma filter_all (A : Type) (f : A -> bool) (l : list A) :
  Forall (fun x => f x = true) l -> filter f l = l.
Proof.
  induction 1 as [|a l Ha _ IH]; simpl; [reflexivity|].
  rewrite Ha, IH. reflexivity.
Qed.

Section ClassifySizes.

Context {engine : ArraySort}.
Variable rnd : nat -> Q.
Variable generateContent : Prompt -> GenerateContentResult.
Variable JSON_parse : string -> Completion JsonValue.

Local Abbreviation classify :=
  (classifyPatientRisk rnd generateContent JSON_parse).
Local Abbreviation succeeds :=
  (engineSucceeds rnd generateContent JSON_parse).

(** X7.  On the engine-success path, with [N] eligible subjects and [s]
    the split index that the code computes in doubles, the TRAIN
    partition has [max(0, min(s, N))] records and the TEST partition the
    others.  For a split ratio in [[0, 1]] and fewer than [2 ^ 53]
    subjects that is [s] and [N - s]; and for a ratio of at least
    [2 ^ -53] and at least one eligible subject the TEST partition is not
    empty, so that [validationMetrics] has subjects to count. *)
Theorem partition_sizes (patients : list PatientProfile)
        (ontology : OntologyMapping) (config : CohortConfig) (n : nat)
        (items : list Prediction) :
  succeeds patients ontology config n items ->
  let N := List.length (filter eligible patients) in
  let s := splitIndexOf N config in
  exists out n',
    classify patients ontology config n = (Normal out, n') /\
    Z.of_nat (List.length (trainSet out)) =
    Z.max 0 (Z.min s (Z.of_nat N)) /\
    Z.of_nat (List.length (testSet out)) =
    (Z.of_nat N - Z.max 0 (Z.min s (Z.of_nat N)))%Z /\
    (0 <= trainTestSplit config -> trainTestSplit config <= 1 ->
     (Z.of_nat N < 2 ^ 53)%Z ->
     Z.of_nat (List.length (trainSet out)) = s /\
     Z.of_nat (List.length (testSet out)) = (Z.of_nat N - s)%Z) /\
    (2 ^ (-53) <= trainTestSplit config -> (1 <= N)%nat ->
     (Z.of_nat N < 2 ^ 53)%Z -> testSet out <> []).
Proof.
  intros Hs N s.
  destruct (classify_success_subjects Hs)
    as (out & n' & Hc & Hsame & _ & Hsplit).
  fold N s in Hsplit.
  assert (Hlen : List.length out = N).
  { rewrite (Forall2_length_eq Hsame). apply shuffledOf_length. }
  assert (Htrain : Z.of_nat (List.length (trainSet out)) =
                   Z.max 0 (Z.min s (Z.of_nat N))).
  { rewrite (trainSet_length_from s out 0 Hsplit). rewrite Hlen.
    simpl. lia. }
  assert (Hsum : (List.length (trainSet out) +
                  List.length (testSet out))%nat = N).
  { rewrite partition_lengths; [exact Hlen|].
    apply Forall_forall. intros r Hr.
    destruct (In_nth_error _ _ Hr) as (i & Hi).
    rewrite (Hsplit i r Hi). destruct (Z.of_nat i <? s)%Z; auto. }
  exists out, n'. split; [exact Hc|]. split; [exact Htrain|].
  split; [lia|]. split.
  - intros H0 H1 H53.
    pose proof (splitIndexOf_bounds N config H0 H1 H53) as Hb.
    fold s in Hb. lia.
  - intros H0 HN H53 Hempty.
    pose proof (splitIndexOf_below config H0 HN H53) as Hb. fold s in Hb.
    rewrite Hempty in Hsum. simpl in Hsum. lia.
Qed.

(** X8.  The output of a run on the engine-success path holds eligible
    subjects only, so that running [classifyPatientRisk] again on it (the
    output is what [handleConfigReady] stores as the patients) drops no
    subject on the engine-success path: the second output has the ids of
    the first. *)
Theorem rerun_drops_no_subject (patients : list PatientProfile)
        (ontology : OntologyMapping) (config : CohortConfig) (n : nat)
        (items : list Prediction) :
  succeeds patients ontology config n items ->
  exists out n',
    classify patients ontology config n = (Normal out, n') /\
    filter eligible out = out /\
    forall ontology2 config2 n2 items2,
      succeeds out ontology2 config2 n2 items2 ->
      exists out2 n2',
        classify out ontology2 config2 n2 = (Normal out2, n2') /\
        List.length out2 = List.length out /\
        Permutation (map id out2) (map id out).
Proof.
  intro Hs.
  destruct (classify_success_subjects Hs)
    as (out & n' & Hc & _ & Hel & _).
  exists out, n'. split; [exact Hc|].
  pose proof (filter_all eligible Hel) as Hfilter.
  split; [exact Hfilter|].
  intros ontology2 config2 n2 items2 Hs2.
  destruct (classify_success_subjects Hs2)
    as (out2 & n2' & Hc2 & Hsame2 & _ & _).
  exists out2, n2'. split; [exact Hc2|].
  pose proof (shuffledOf_permutation rnd out n2) as Hperm.
  rewrite Hfilter in Hperm. split.
  - rewrite (Forall2_length_eq Hsame2). apply Permutation_length.
    exact Hperm.
  - rewrite (Forall2_map_eq id id (S := sameSubject) (l := shuffledOf rnd out n2));
      [apply Permutation_map; exact Hperm| |exact Hsame2].
    intros a b Hab. apply Hab.
Qed.

End ClassifySizes.

(* ================================================================== *)
(** * Further properties of the dashboard *)
(* ================================================================== *)

(** ** Ratios *)

Lemma ratio_bounds (a b : Z) :
  (0 <= a <= b)%Z -> (0 < b)%Z ->
  0 <= inject_Z a / inject_Z b /\ inject_Z a / inject_Z b <= 1.
Proof.
  intros Ha Hb.
  assert (Hb' : 0 < inject_Z b).
  { change 0 with (inject_Z 0). rewrite <- Zlt_Qlt. exact Hb. }
  split.
  - apply Qle_shift_div_l; [exact Hb'|]. rewrite Qmult_0_l.
    change 0 with (inject_Z 0). rewrite <- Zle_Qle. lia.
  - apply Qle_shift_div_r; [exact Hb'|]. rewrite Qmult_1_l.
    rewrite <- Zle_Qle. lia.
Qed.

(** ** The confusion matrix *)

Lemma confusionCount_total (l : list PatientProfile) :
  (confusionCount true true l + confusionCount true false l +
   confusionCount false false l + confusionCount false true l)%Z =
  Z.of_nat (List.length l).
Proof.
  unfold confusionCount. induction l as [|p l IH]; [reflexivity|].
  cbn [filter List.length].
  destruct (predictedPositive p), (actualPositive p);
    cbn [Bool.eqb andb List.length]; lia.
Qed.

Lemma confusionCount_nonneg (a b : bool) (l : list PatientProfile) :
  (0 <= confusionCount a b l)%Z.
Proof. unfold confusionCount. lia. Qed.

(** The metrics of a TEST set that is not empty. *)
Lemma validationMetrics_nonempty (patients : list PatientProfile) :
  testSet patients <> [] ->
  let T := testSet patients in
  let m := validationMetrics patients in
  tp m = confusionCount true true T /\
  fp m = confusionCount true false T /\
  tn m = confusionCount false false T /\
  fn m = confusionCount false true T /\
  accuracy m =
  inject_Z (tp m + tn m) / inject_Z (Z.of_nat (List.length T)) /\
  precision m = (if (tp m + fp m >? 0)%Z
                 then inject_Z (tp m) / inject_Z (tp m + fp m) else 0) /\
  recall m = (if (tp m + fn m >? 0)%Z
              then inject_Z (tp m) / inject_Z (tp m + fn m) else 0).
Proof.
  intros Hne T m. unfold m, validationMetrics. fold T.
  assert (Hne' : T <> []) by exact Hne. clearbody T. clear Hne m.
  destruct T as [|p rest] eqn:HT; [congruence|].
  rewrite <- HT. replace (List.length T =? 0)%nat with false
    by (rewrite HT; reflexivity).
  cbv zeta. cbn [tp fp tn fn accuracy precision recall].
  destruct (fold_countSubject T
              {| c_tp := 0; c_fp := 0; c_tn := 0; c_fn := 0 |})
    as (Htp & Hfp & Htn & Hfn).
  cbn [c_tp c_fp c_tn c_fn] in Htp, Hfp, Htn, Hfn.
  rewrite Z.add_0_l in Htp, Hfp, Htn, Hfn.
  repeat split; assumption.
Qed.

(** X9.  The four counters of [validationMetrics] are not negative and add
    up to the size of the TEST set; accuracy, precision and recall are
    between 0 and 1, for every list of subjects (empty TEST set, missing
    scores and outcomes included). *)
Theorem validationMetrics_invariants (patients : list PatientProfile) :
  let m := validationMetrics patients in
  (0 <= tp m)%Z /\ (0 <= fp m)%Z /\ (0 <= tn m)%Z /\ (0 <= fn m)%Z /\
  (tp m + fp m + tn m + fn m)%Z =
  Z.of_nat (List.length (testSet patients)) /\
  0 <= accuracy m /\ accuracy m <= 1 /\
  0 <= precision m /\ precision m <= 1 /\
  0 <= recall m /\ recall m <= 1.
Proof.
  intro m. destruct (testSet patients) as [|p0 rest] eqn:HT.
  - unfold m, validationMetrics. rewrite HT. simpl.
    repeat split; try lia; discriminate.
  - assert (Hne : testSet patients <> []) by congruence.
    destruct (@validationMetrics_nonempty patients Hne)
      as (Htp & Hfp & Htn & Hfn & Hacc & Hprec & Hrec).
    fold m in Htp, Hfp, Htn, Hfn, Hacc, Hprec, Hrec.
    pose proof (confusionCount_total (testSet patients)) as Htot.
    pose proof (confusionCount_nonneg true true (testSet patients)).
    pose proof (confusionCount_nonneg true false (testSet patients)).
    pose proof (confusionCount_nonneg false false (testSet patients)).
    pose proof (confusionCount_nonneg false true (testSet patients)).
    rewrite <- Htp, <- Hfp, <- Htn, <- Hfn in *. rewrite <- HT.
    assert (Hlen : (0 < Z.of_nat (List.length (testSet patients)))%Z)
      by (rewrite HT; simpl; lia).
    split; [lia|]. split; [lia|]. split; [lia|]. split; [lia|].
    split; [lia|].
    assert (Ha : 0 <= accuracy m /\ accuracy m <= 1).
    { rewrite Hacc. apply ratio_bounds; lia. }
    assert (Hp : 0 <= precision m /\ precision m <= 1).
    { rewrite Hprec. destruct (tp m + fp m >? 0)%Z eqn:E.
      - apply Z.gtb_gt in E. apply ratio_bounds; lia.
      - split; discriminate. }
    assert (Hr : 0 <= recall m /\ recall m <= 1).
    { rewrite Hrec. destruct (tp m + fn m >? 0)%Z eqn:E.
      - apply Z.gtb_gt in E. apply ratio_bounds; lia.
      - split; discriminate. }
    tauto.
Qed.

(** ** The risk buckets *)

Lemma bucket_lengths (l : list PatientProfile) :
  Forall (fun p => riskCategory p <> None) l ->
  (List.length (highRisk l) + List.length (mediumRisk l) +
   List.length (lowRisk l))%nat = List.length l.
Proof.
  unfold highRisk, mediumRisk, lowRisk, category_is.
  induction 1 as [|p l Hp _ IH]; [reflexivity|].
  cbn [filter List.length].
  destruct (riskCategory p) as [[| |]|]; [| | |congruence];
    cbn [RiskCategory_eqb List.length]; lia.
Qed.

(** X10.  The three averages of [avgMonthsByRisk] are guarded against the
    empty bucket: the average of an empty bucket is 0, and the average of
    a bucket that is not empty lies between any two bounds of the months
    of its subjects. *)
Theorem avgMonths_bounds (bucket : list PatientProfile) (lo hi : Z) :
  (bucket = [] -> avgMonths bucket == 0) /\
  (bucket <> [] ->
   Forall (fun p => (lo <= monthsOnCurrentTherapy p <= hi)%Z) bucket ->
   inject_Z lo <= avgMonths bucket /\ avgMonths bucket <= inject_Z hi).
Proof.
  split; [intros ->; reflexivity|].
  intros Hne Hall. unfold avgMonths.
  assert (Hsum : forall acc,
            (acc + lo * Z.of_nat (List.length bucket) <=
             fold_left (fun a p => a + monthsOnCurrentTherapy p) bucket acc
             <= acc + hi * Z.of_nat (List.length bucket))%Z).
  { clear Hne. induction Hall as [|p l Hp _ IH]; intro acc.
    - simpl. lia.
    - cbn [fold_left List.length].
      specialize (IH (acc + monthsOnCurrentTherapy p)%Z). nia. }
  specialize (Hsum 0%Z).
  destruct bucket as [|p rest]; [congruence|].
  replace (List.length (p :: rest) =? 0)%nat with false by reflexivity.
  set (len := Z.of_nat (List.length (p :: rest))) in *.
  set (sum := fold_left _ _ _) in *.
  assert (Hlen : (0 < len)%Z) by (unfold len; simpl; lia).
  assert (Hlen' : 0 < inject_Z len).
  { change 0 with (inject_Z 0). rewrite <- Zlt_Qlt. exact Hlen. }
  split.
  - apply Qle_shift_div_l; [exact Hlen'|].
    rewrite <- inject_Z_mult, <- Zle_Qle. lia.
  - apply Qle_shift_div_r; [exact Hlen'|].
    rewrite <- inject_Z_mult, <- Zle_Qle. lia.
Qed.

(** Witness of X10: the two eligible subjects of [exampleCohort] have
    between 5 and 18 months of therapy. *)
Lemma avgMonths_bounds_witness :
  inject_Z 5 <= avgMonths (filter eligible exampleCohort) /\
  avgMonths (filter eligible exampleCohort) <= inject_Z 18.
Proof.
  apply (proj2 (avgMonths_bounds (filter eligible exampleCohort) 5 18)).
  - discriminate.
  - repeat constructor; simpl; lia.
Defined.

(** ** The dashboard of a classified cohort *)

Lemma fallback_dashboard (patients : list PatientProfile) :
  let out := map fallbackRecord patients in
  testSet out = [] /\ trainSet out = out /\
  highRisk out = [] /\ mediumRisk out = [] /\ lowRisk out = out.
Proof.
  cbv zeta. induction patients as [|p rest (H1 & H2 & H3 & H4 & H5)].
  - repeat split.
  - unfold testSet, trainSet, highRisk, mediumRisk, lowRisk in *.
    cbn [map filter].
    change (split_is TEST (fallbackRecord p)) with false.
    change (split_is TRAIN (fallbackRecord p)) with true.
    change (category_is High (fallbackRecord p)) with false.
    change (category_is Medium (fallbackRecord p)) with false.
    change (category_is Low (fallbackRecord p)) with true.
    rewrite H1, H2, H3, H4, H5. repeat split.
Qed.

Section ClassifiedDashboard.

Context {engine : ArraySort}.
Variable rnd : nat -> Q.
Variable generateContent : Prompt -> GenerateContentResult.
Variable JSON_parse : string -> Completion JsonValue.

Local Abbreviation classify :=
  (classifyPatientRisk rnd generateContent JSON_parse).
Local Abbreviation outcome :=
  (engineOutcome rnd generateContent JSON_parse).

(** X11.  After a failed call (rejected, or unparsable text) the dashboard
    has nothing to validate: the TEST set of the output is empty, every
    subject is in TRAIN and in the low-risk bucket, and every validation
    metric is 0. *)
Theorem dashboard_after_total_fallback (patients : list PatientProfile)
        (ontology : OntologyMapping) (config : CohortConfig) (n : nat) :
  outcome patients ontology config n = Throw ->
  exists out n',
    classify patients ontology config n = (Normal out, n') /\
    testSet out = [] /\
    List.length (trainSet out) = List.length patients /\
    riskDistribution out = [0%Z; 0%Z; Z.of_nat (List.length patients)] /\
    validationMetrics out =
    {| accuracy := 0; precision := 0; recall := 0;
       tp := 0; fp := 0; tn := 0; fn := 0 |}.
Proof.
  intro Hout. eexists. eexists.
  split; [apply classify_failure; exact Hout|].
  destruct (fallback_dashboard patients) as (H1 & H2 & H3 & H4 & H5).
  split; [exact H1|]. split; [rewrite H2; apply length_map|]. split.
  - unfold riskDistribution. rewrite H3, H4, H5, length_map. reflexivity.
  - unfold validationMetrics. rewrite H1. reflexivity.
Qed.

(** X12.  Every record that [classifyPatientRisk] returns is in exactly
    one of the three risk buckets of the dashboard: on every path the
    three values of [riskDistribution] add up to the size of the
    output. *)
Theorem riskDistribution_covers_the_output
        (patients : list PatientProfile) (ontology : OntologyMapping)
        (config : CohortConfig) (n : nat) :
  exists out n',
    classify patients ontology config n = (Normal out, n') /\
    (List.length (highRisk out) + List.length (mediumRisk out) +
     List.length (lowRisk out))%nat = List.length out.
Proof.
  destruct (classify_run rnd generateContent JSON_parse
              patients ontology config n)
    as (out & n' & Hc & [(items & Hrec) | ->]).
  - exists out, n'. split; [exact Hc|]. apply bucket_lengths.
    eapply Forall2_from_Forall_r; [|exact Hrec].
    intros i a b H. destruct (scoredRecord_category H) as (s & _ & Hcat).
    congruence.
  - eexists. exists n'. split; [exact Hc|]. apply bucket_lengths.
    apply Forall_forall. intros r Hr. apply in_map_iff in Hr.
    destruct Hr as (p & <- & _). discriminate.
Qed.

End ClassifiedDashboard.

(** Witness of X11: the call is rejected. *)
Lemma dashboard_after_total_fallback_witness :
  exists out n',
    runOn engineRejects parseThrows = (Normal out, n') /\
    testSet out = [] /\
    List.length (trainSet out) = List.length exampleCohort /\
    riskDistribution out =
    [0%Z; 0%Z; Z.of_nat (List.length exampleCohort)] /\
    validationMetrics out =
    {| accuracy := 0; precision := 0; recall := 0;
       tp := 0; fp := 0; tn := 0; fn := 0 |}.
Proof.
  apply (@dashboard_after_total_fallback insertionSortEngine
           rndHalf engineRejects parseThrows
           exampleCohort exampleOntology exampleConfig 0%nat).
  reflexivity.
Defined.

(** ** The table of the highest risks *)

Lemma insert_by_pure (A : Type) (comparefn : A -> A -> Q) (x : A)
      (l : list A) (n : nat) :
  insert_by (fun a b => ret (comparefn a b)) x l n =
  (insertPure comparefn x l, n).
Proof.
  induction l as [|y rest IH]; simpl; [reflexivity|].
  rewrite bind_run. cbn [ret fst snd].
  destruct (Qlt_le_dec 0 (comparefn x y)); [|reflexivity].
  rewrite bind_run, IH. reflexivity.
Qed.

Lemma sortWith_cons (A : Type) (comparefn : A -> A -> Q) (x : A)
      (l : list A) :
  sortWith comparefn (x :: l) = insertPure comparefn x (sortWith comparefn l).
Proof.
  unfold sortWith. cbn [insertion_sort]. rewrite bind_run.
  rewrite insert_by_pure. reflexivity.
Qed.

Lemma sortWith_permutation (A : Type) (comparefn : A -> A -> Q)
      (l : list A) :
  Permutation (sortWith comparefn l) l.
Proof. apply insertion_sort_permutation. Qed.

Section SortByKey.

Variable A : Type.
Variable key : A -> Q.

(** The comparator [(a, b) => key(b) - key(a)]. *)
Let descending (a b : A) : Q := key b - key a.

Lemma insertPure_In (x y : A) (l : list A) :
  In y (insertPure descending x l) -> y = x \/ In y l.
Proof.
  induction l as [|z l IH]; simpl.
  - intros [<-|[]]. left. reflexivity.
  - destruct (Qlt_le_dec 0 (descending x z)); simpl.
    + intros [<-|H]; [right; left; reflexivity|].
      destruct (IH H) as [->|H']; auto.
    + intros [<-|[<-|H]]; auto.
Qed.

Lemma insertPure_sorted (x : A) (l : list A) :
  StronglySorted (fun a b => key b <= key a) l ->
  StronglySorted (fun a b => key b <= key a) (insertPure descending x l).
Proof.
  induction 1 as [|z l Hl IH Hz]; simpl.
  - repeat constructor.
  - unfold descending at 1.
    destruct (Qlt_le_dec 0 (key z - key x)) as [Hlt|Hle].
    + constructor; [exact IH|]. apply Forall_forall. intros y Hy.
      destruct (insertPure_In x y l Hy) as [->|Hy'].
      * lra.
      * exact (proj1 (Forall_forall _ _) Hz y Hy').
    + constructor; [constructor; assumption|]. constructor; [lra|].
      eapply Forall_impl; [|exact Hz]. simpl. intros y Hy. lra.
Qed.

Lemma sortWith_sorted (l : list A) :
  StronglySorted (fun a b => key b <= key a) (sortWith descending l).
Proof.
  induction l as [|x l IH]; [constructor|].
  rewrite sortWith_cons. apply insertPure_sorted. exact IH.
Qed.

(** The elements of one key keep the order of the array. *)
Lemma insertPure_stable (v : Q) (x : A) (l : list A) :
  StronglySorted (fun a b => key b <= key a) l ->
  filter (fun a => Qeq_bool (key a) v) (insertPure descending x l) =
  filter (fun a => Qeq_bool (key a) v) (x :: l).
Proof.
  induction 1 as [|z l Hl IH Hz]; [reflexivity|].
  cbn [insertPure]. unfold descending at 1.
  destruct (Qlt_le_dec 0 (key z - key x)) as [Hlt|Hle]; [|reflexivity].
  cbn [filter] in *. rewrite IH.
  destruct (Qeq_bool (key x) v) eqn:Ex; [|reflexivity].
  destruct (Qeq_bool (key z) v) eqn:Ez; [|reflexivity].
  apply Qeq_bool_iff in Ex, Ez. lra.
Qed.

Lemma sortWith_stable (v : Q) (l : list A) :
  filter (fun a => Qeq_bool (key a) v) (sortWith descending l) =
  filter (fun a => Qeq_bool (key a) v) l.
Proof.
  induction l as [|x l IH]; [reflexivity|].
  rewrite sortWith_cons, insertPure_stable by apply sortWith_sorted.
  cbn [filter]. rewrite IH. reflexivity.
Qed.

End SortByKey.

Lemma StronglySorted_firstn_skipn (A : Type) (R : A -> A -> Prop)
      (l : list A) (k : nat) :
  StronglySorted R l ->
  forall a b, In a (firstn k l) -> In b (skipn k l) -> R a b.
Proof.
  intro H. revert k. induction H as [|x l Hl IH Hx]; intros k a b Ha Hb.
  - destruct k; contradiction.
  - destruct k as [|k]; [contradiction|]. simpl in Ha, Hb.
    destruct Ha as [<-|Ha].
    + apply (proj1 (Forall_forall _ _) Hx).
      rewrite <- (firstn_skipn k l). apply in_or_app. right. exact Hb.
    + exact (IH k a b Ha Hb).
Qed.

(** X13.  The table of the highest risks shows at most ten rows, all of
    them subjects of the cohort, in descending order of score (a missing
    score counts as 0), subjects of equal score in the order of the
    cohort; and no subject left out of the table has a higher score than a
    subject in it. *)
Theorem topPatients_are_the_highest_scores
        (patients : list PatientProfile) :
  let rows := topPatients patients in
  List.length rows = Nat.min 10 (List.length patients) /\
  StronglySorted (fun a b => scoreOrZero b <= scoreOrZero a) rows /\
  (forall v, filter (fun p => Qeq_bool (scoreOrZero p) v) rows =
             firstn (List.length
                       (filter (fun p => Qeq_bool (scoreOrZero p) v) rows))
                    (filter (fun p => Qeq_bool (scoreOrZero p) v)
                            patients)) /\
  exists others,
    Permutation (rows ++ others) patients /\
    forall r p, In r rows -> In p others ->
                scoreOrZero p <= scoreOrZero r.
Proof.
  intro rows. unfold rows, topPatients.
  set (sorted := sortWith byScoreDescending patients).
  assert (Hsorted : StronglySorted
                      (fun a b => scoreOrZero b <= scoreOrZero a) sorted)
    by apply (sortWith_sorted scoreOrZero).
  assert (Hperm : Permutation sorted patients)
    by apply sortWith_permutation.
  split; [|split; [|split]].
  - rewrite length_firstn, (Permutation_length Hperm). reflexivity.
  - rewrite <- (firstn_skipn 10 sorted) in Hsorted.
    clear Hperm. revert Hsorted.
    generalize (firstn 10 sorted) (skipn 10 sorted).
    induction l as [|a l IH]; intros l0 H; [constructor|].
    simpl in H. inversion H as [|x y Hl Ha]; subst.
    constructor; [exact (IH l0 Hl)|].
    apply Forall_forall. intros b Hb.
    apply (proj1 (Forall_forall _ _) Ha). apply in_or_app. left. exact Hb.
  - intro v.
    rewrite <- (sortWith_stable scoreOrZero v patients).
    change (sortWith (fun a b => scoreOrZero b - scoreOrZero a) patients)
      with sorted.
    set (P := fun p => Qeq_bool (scoreOrZero p) v).
    replace (filter P sorted)
      with (filter P (firstn 10 sorted) ++ filter P (skipn 10 sorted))
      by (rewrite <- filter_app, firstn_skipn; reflexivity).
    rewrite firstn_app, Nat.sub_diag, firstn_all.
    simpl. symmetry. apply app_nil_r.
  - exists (skipn 10 sorted). split.
    + rewrite firstn_skipn. exact Hperm.
    + intros r p Hr Hp.
      exact (StronglySorted_firstn_skipn 10 Hsorted r p Hr Hp).
Qed.

(** X14.  The table sorts a copy: on the store, building the rows leaves
    the array of the cohort, and every other array and object of the
    caller, as it was, whatever the sort of the engine; the rows are a new
    array of at most ten references of the cohort. *)
Theorem topPatients_st_sorts_a_copy {engine : ArraySort} (h : Heap)
        (patients : ref) (refs : list ref) (n : nat) :
  array_at h patients = Some refs ->
  exists result h' n' rows,
    topPatients_st patients h n = (Normal result, h', n') /\
    preserves h h' /\
    array_at h' patients = Some refs /\
    array_at h result = None /\
    array_at h' result = Some rows /\
    List.length rows = Nat.min 10 (List.length refs) /\
    incl rows refs.
Proof.
  intro Ha. unfold topPatients_st.
  set (h1 := {| objects := objects h; arrays := arrays h ++ [refs] |}).
  set (a1 := List.length (arrays h)).
  set (sorted := fst (Array_sort
                        (fun a b : ref =>
                           match object_at h1 a, object_at h1 b with
                           | Some p, Some q => ret (byScoreDescending p q)
                           | _, _ => ret 0
                           end) refs n)).
  set (h2 := {| objects := objects h;
                arrays := list_update (arrays h1) a1 sorted |}).
  set (h3 := {| objects := objects h;
                arrays := arrays h2 ++ [firstn 10 sorted] |}).
  assert (Hg1 : grows h h1) by apply grows_newArray.
  assert (Hg2 : grows h h2).
  { apply (grows_writeArray (h := h1) sorted Hg1). unfold a1. lia. }
  assert (Hg3 : grows h h3)
    by exact (grows_trans Hg2 (grows_newArray h2 _)).
  assert (Ha1 : array_at h2 a1 = Some sorted).
  { unfold array_at, h2. simpl. apply list_update_same.
    unfold a1. rewrite length_app. simpl. lia. }
  erewrite bindS_normal.
  2:{ unfold Array_spread_st.
      erewrite bindS_normal; [|apply readArray_run; exact Ha].
      reflexivity. }
  erewrite bindS_normal.
  2:{ unfold Array_sort_st.
      erewrite bindS_normal;
        [|apply readArray_run; apply (array_at_newArray h refs)].
      erewrite bindS_normal;
        [|unfold liftS, liftE; rewrite bind_run; reflexivity].
      erewrite bindS_normal; [|reflexivity]. reflexivity. }
  unfold Array_slice_st.
  erewrite bindS_normal; [|apply readArray_run; exact Ha1].
  exists (List.length (arrays h2)), h3. eexists. exists (firstn 10 sorted).
  split; [reflexivity|]. split; [exact (grows_preserves Hg3)|].
  split; [exact (proj2 (proj2 Hg3) _ _ Ha)|]. split.
  - apply nth_error_None. destruct Hg2 as (_ & Hlen & _). exact Hlen.
  - split; [apply (array_at_newArray h2)|]. split.
    + rewrite length_firstn. unfold sorted.
      rewrite (Permutation_length (Array_sort_permutation _ refs n)).
      reflexivity.
    + intros o Ho. apply In_firstn in Ho. unfold sorted in Ho.
      exact (Permutation_in _ (Array_sort_permutation _ refs n) Ho).
Qed.

(** Witness of X14: the rows of [exampleHeap]. *)
Lemma topPatients_st_sorts_a_copy_witness :
  exists result h' n' rows,
    topPatients_st (engine := insertionSortEngine) 0%nat exampleHeap 0%nat =
    (Normal result, h', n') /\
    preserves exampleHeap h' /\
    array_at h' 0%nat = Some [0; 1; 2]%nat /\
    array_at exampleHeap result = None /\
    array_at h' result = Some rows /\
    List.length rows = Nat.min 10 3 /\
    incl rows [0; 1; 2]%nat.
Proof.
  apply (@topPatients_st_sorts_a_copy insertionSortEngine exampleHeap
           0%nat [0; 1; 2]%nat 0%nat).
  reflexivity.
Defined.

(* ================================================================== *)
(** * Properties of the rows of [processFile] *)
(* ================================================================== *)

(** ** Splitting a line *)

Lemma splitCsv_nonempty (line : string) : splitCsv line <> [].
Proof.
  destruct line as [|c rest]; simpl; [discriminate|].
  destruct (Ascii.eqb c "," && Nat.even (countQuotes rest));
    [discriminate|].
  destruct (splitCsv rest); discriminate.
Qed.

Lemma concat_cons (sep x : string) (l : list string) :
  l <> [] -> String.concat sep (x :: l) = (x ++ sep ++ String.concat sep l)%string.
Proof. destruct l; [congruence|reflexivity]. Qed.

Lemma append_assoc (a b c : string) :
  ((a ++ b) ++ c)%string = (a ++ b ++ c)%string.
Proof. induction a as [|x a IH]; simpl; congruence. Qed.

Lemma append_nil_r (a : string) : (a ++ "")%string = a.
Proof. induction a as [|x a IH]; simpl; congruence. Qed.

(** X15.  Splitting a row into cells loses nothing: the cells of
    [splitCsv], joined by commas, are the row. *)
Theorem splitCsv_join (line : string) :
  String.concat "," (splitCsv line) = line.
Proof.
  induction line as [|c rest IH]; [reflexivity|]. cbn [splitCsv].
  destruct (Ascii.eqb c "," && Nat.even (countQuotes rest)) eqn:E.
  - rewrite concat_cons by apply splitCsv_nonempty. rewrite IH.
    apply andb_true_iff in E. destruct E as (E & _).
    apply Ascii.eqb_eq in E. subst c. reflexivity.
  - destruct (splitCsv rest) as [|cell cells] eqn:Hs.
    + exfalso. exact (splitCsv_nonempty rest Hs).
    + destruct cells as [|cell' cells].
      * simpl in *. congruence.
      * change (String.concat "," (String c cell :: cell' :: cells))
          with (String c (String.concat "," (cell :: cell' :: cells))).
        rewrite IH. reflexivity.
Qed.

Lemma countQuotes_app (a b : string) :
  countQuotes (a ++ b) = (countQuotes a + countQuotes b)%nat.
Proof. induction a as [|c a IH]; simpl; [reflexivity|]. rewrite IH. lia. Qed.

(** A comma before an even number of quotes cuts the line in two lines
    that are split on their own. *)
Lemma splitCsv_at_comma (pre post : string) :
  Nat.even (countQuotes post) = true ->
  splitCsv (pre ++ String "," post) = splitCsv pre ++ splitCsv post.
Proof.
  intro Hpost. induction pre as [|c pre IH].
  - simpl. rewrite Hpost. reflexivity.
  - cbn [append splitCsv]. rewrite IH.
    replace (Nat.even (countQuotes (pre ++ String "," post)))
      with (Nat.even (countQuotes pre)).
    2:{ rewrite countQuotes_app. cbn [countQuotes].
        change (Ascii.eqb "," quote) with false.
        rewrite Nat.add_0_l, Nat.even_add, Hpost.
        destruct (Nat.even (countQuotes pre)); reflexivity. }
    destruct (Ascii.eqb c "," && Nat.even (countQuotes pre));
      [reflexivity|].
    destruct (splitCsv pre) as [|cell cells] eqn:Hs; [|reflexivity].
    exfalso. exact (splitCsv_nonempty pre Hs).
Qed.

Lemma splitCsv_before_quote (v : string) :
  countQuotes v = 0%nat ->
  splitCsv (v ++ String quote EmptyString) = [(v ++ String quote "")%string].
Proof.
  intro Hv. induction v as [|c v IH]; [reflexivity|].
  cbn [countQuotes] in Hv.
  assert (Hv' : countQuotes v = 0%nat) by lia.
  cbn [append splitCsv]. rewrite (IH Hv'), countQuotes_app, Hv'.
  cbn [countQuotes]. change (Ascii.eqb quote quote) with true.
  rewrite andb_false_r. reflexivity.
Qed.

Lemma splitCsv_quoted (v : string) :
  countQuotes v = 0%nat -> splitCsv (quoted v) = [quoted v].
Proof.
  intro Hv. unfold quoted. cbn [splitCsv].
  change (Ascii.eqb quote ",") with false. cbn [andb].
  rewrite (splitCsv_before_quote v Hv). reflexivity.
Qed.

Lemma trimEnd_before_quote (v : string) :
  trimEnd (v ++ String quote EmptyString) = (v ++ String quote "")%string.
Proof.
  induction v as [|c v IH]; [reflexivity|].
  cbn [append trimEnd]. rewrite IH.
  destruct v; reflexivity.
Qed.

Lemma dropTrailingQuote_before_quote (v : string) :
  dropTrailingQuote (v ++ String quote EmptyString) = v.
Proof.
  induction v as [|c v IH]; [reflexivity|].
  cbn [append dropTrailingQuote]. rewrite IH.
  destruct v; reflexivity.
Qed.

Lemma cleanCell_quoted (v : string) : cleanCell (quoted v) = v.
Proof.
  unfold cleanCell, trim, quoted. cbn [trimStart].
  change (isWhitespace quote) with false. cbv iota.
  change (trimEnd (String quote (v ++ String quote "")))
    with (trimEnd ((String quote v) ++ String quote "")).
  rewrite trimEnd_before_quote. cbn [append dropLeadingQuote].
  change (Ascii.eqb quote quote) with true. cbv iota.
  apply dropTrailingQuote_before_quote.
Qed.

Lemma countQuotes_quoted_row (vs : list string) :
  Forall (fun v => countQuotes v = 0%nat) vs ->
  Nat.even (countQuotes (String.concat "," (map quoted vs))) = true.
Proof.
  induction 1 as [|v vs Hv _ IH]; [reflexivity|].
  assert (Hq : Nat.even (countQuotes (quoted v)) = true).
  { unfold quoted. cbn [countQuotes]. rewrite countQuotes_app, Hv.
    reflexivity. }
  destruct vs as [|v' vs]; [exact Hq|].
  cbn [map] in *. rewrite concat_cons by discriminate.
  rewrite !countQuotes_app, !Nat.even_add, Hq, IH. reflexivity.
Qed.

(** X16.  Cells written between quotes are read back as they were
    written: a row made of values without quotes, each between two quotes
    and joined by commas, is split and cleaned into these values, commas
    and outer spaces of the values included. *)
Theorem quoted_cells_round_trip (vs : list string) :
  vs <> [] ->
  Forall (fun v => countQuotes v = 0%nat) vs ->
  map cleanCell (splitCsv (String.concat "," (map quoted vs))) = vs.
Proof.
  intros Hne Hall. induction Hall as [|v vs Hv Hvs IH]; [congruence|].
  destruct vs as [|v' vs].
  - cbn [map String.concat]. rewrite (splitCsv_quoted v Hv). cbn [map].
    rewrite cleanCell_quoted. reflexivity.
  - cbn [map]. rewrite concat_cons by discriminate.
    change (quoted v ++ "," ++ String.concat "," (quoted v' :: map quoted vs))%string
      with (quoted v ++ String "," (String.concat "," (map quoted (v' :: vs))))%string.
    rewrite splitCsv_at_comma by (apply countQuotes_quoted_row; exact Hvs).
    rewrite map_app, (splitCsv_quoted v Hv). cbn [map app].
    rewrite cleanCell_quoted. f_equal. apply IH. discriminate.
Qed.

(** Witness of X16: a row of three values, one with a comma and one with
    outer spaces. *)
Lemma quoted_cells_round_trip_witness :
  map cleanCell
      (splitCsv (String.concat ","
                   (map quoted ["P-7"; "C50.9, left"; " Tamoxifen "]%string))) =
  ["P-7"; "C50.9, left"; " Tamoxifen "]%string.
Proof.
  apply quoted_cells_round_trip; [discriminate|].
  repeat constructor.
Defined.

(** X17.  On a row without quotes the cells are the pieces between the
    commas, one more than there are commas, each trimmed. *)
Theorem plain_row_cells (line : string) :
  countQuotes line = 0%nat ->
  splitCsv line = splitOn "," line /\
  map cleanCell (splitCsv line) = map trim (splitOn "," line).
Proof.
  intro Hq.
  assert (Hsplit : splitCsv line = splitOn "," line).
  { induction line as [|c rest IH]; [reflexivity|].
    cbn [countQuotes] in Hq.
    assert (Hrest : countQuotes rest = 0%nat) by lia.
    cbn [splitCsv splitOn]. rewrite Hrest, (IH Hrest).
    rewrite andb_true_r. reflexivity. }
  split; [exact Hsplit|]. rewrite Hsplit.
  assert (Hcells : Forall (fun v => countQuotes v = 0%nat)
                          (splitOn "," line)).
  { clear Hsplit. induction line as [|c rest IH]; [repeat constructor|].
    cbn [countQuotes] in Hq.
    assert (Hrest : countQuotes rest = 0%nat) by lia.
    specialize (IH Hrest). cbn [splitOn].
    destruct (Ascii.eqb c ","); [constructor; [reflexivity|exact IH]|].
    destruct (splitOn "," rest) as [|f fs]; [repeat constructor; simpl; lia|].
    inversion IH; subst. constructor; [simpl; lia|assumption]. }
  apply map_ext_in. intros v Hv.
  pose proof (proj1 (Forall_forall _ _) Hcells v Hv) as Hvq.
  unfold cleanCell.
  assert (Hnoq : forall s, countQuotes s = 0%nat ->
                           dropTrailingQuote (dropLeadingQuote s) = s).
  { intros s Hs.
    assert (Hlead : dropLeadingQuote s = s).
    { destruct s as [|c s]; [reflexivity|]. simpl in *.
      destruct (Ascii.eqb c quote); [lia|reflexivity]. }
    rewrite Hlead. induction s as [|c s IHs]; [reflexivity|].
    cbn [countQuotes] in Hs. cbn [dropTrailingQuote].
    destruct s as [|c' s].
    - destruct (Ascii.eqb c quote); [simpl in Hs; lia|reflexivity].
    - rewrite IHs; [reflexivity| |].
      + lia.
      + destruct (Ascii.eqb c' quote) eqn:E; [simpl in Hs; rewrite E in Hs; lia|].
        simpl. rewrite E. reflexivity. }
  apply Hnoq.
  assert (Htrim : forall s, countQuotes s = 0%nat ->
                            countQuotes (trim s) = 0%nat).
  { intros s Hs. unfold trim.
    assert (H1 : countQuotes (trimStart s) = 0%nat).
    { induction s as [|c s IHs]; [reflexivity|]. cbn [countQuotes] in Hs.
      simpl. destruct (isWhitespace c); [apply IHs; lia|].
      simpl. lia. }
    revert H1. generalize (trimStart s). clear.
    induction s as [|c s IHs]; [reflexivity|]. intro H.
    cbn [countQuotes] in H. cbn [trimEnd].
    assert (IH : countQuotes (trimEnd s) = 0%nat) by (apply IHs; lia).
    destruct (trimEnd s) as [|c' s'].
    - destruct (isWhitespace c); [reflexivity|]. simpl. lia.
    - change (countQuotes (String c (String c' s')))
        with ((if Ascii.eqb c quote then 1 else 0) +
              countQuotes (String c' s'))%nat.
      rewrite IH. lia. }
  apply Htrim. exact Hvq.
Qed.

(** Witness of X17. *)
Lemma plain_row_cells_witness :
  map cleanCell (splitCsv "P-7, C50.9 ,Tamoxifen,2024-01-15") =
  map trim (splitOn "," "P-7, C50.9 ,Tamoxifen,2024-01-15").
Proof.
  exact (proj2 (@plain_row_cells "P-7, C50.9 ,Tamoxifen,2024-01-15"
                                 eq_refl)).
Defined.

(** ** The records of a file *)

Lemma Qfloor_range (x : Q) (a b : Z) :
  inject_Z a <= x -> x < inject_Z b -> (a <= Qfloor x < b)%Z.
Proof.
  intros Ha Hb. split.
  - rewrite <- (Qfloor_Z a). apply Qfloor_resp_le. exact Ha.
  - rewrite Zlt_Qlt. eapply Qle_lt_trans; [apply Qfloor_le|exact Hb].
Qed.

Lemma orElse_nonempty (a b : string) :
  b <> EmptyString -> orElse a b <> EmptyString.
Proof. destruct a; simpl; [auto|discriminate]. Qed.

Lemma dropNulls_length (items : list (option PatientProfile)) :
  (List.length (dropNulls items) <= List.length items)%nat.
Proof.
  induction items as [|[p|] items IH]; simpl; lia.
Qed.

(** [Math.floor(Math.random() * M)] is an index below [M]. *)
Lemma floor_random_range (r : Q) (M : Z) :
  0 <= r -> r <= maxRandom -> (1 <= M < 2 ^ 53)%Z ->
  (0 <= Qfloor (binary64 (r * inject_Z M)) < M)%Z.
Proof.
  intros H0 H1 HM.
  assert (HM0 : 0 < inject_Z M)
    by (change 0 with (inject_Z 0); rewrite <- Zlt_Qlt; lia).
  apply Qfloor_range.
  - change (inject_Z 0) with 0. apply binary64_nonneg. nra.
  - apply binary64_below_int; [exact HM|].
    rewrite (Qmult_comm (inject_Z M)).
    apply Qmult_le_compat_r; [exact H1|lra].
Qed.

(** [Math.floor(Math.random() * (85 - 30) + 30)] is an age from 30 to
    85. *)
Lemma age_range (r : Q) :
  0 <= r -> r <= maxRandom ->
  (30 <= Qfloor (binary64 (binary64 (r * (85 - 30)) + 30)) <= 85)%Z.
Proof.
  intros H0 H1.
  assert (Hmax : maxRandom <= 1) by discriminate.
  assert (Hp0 : 0 <= binary64 (r * (85 - 30)))
    by (apply binary64_nonneg; lra).
  assert (Hp1 : binary64 (r * (85 - 30)) <= 55).
  { apply (@binary64_le_int (r * (85 - 30)) 55); [lia|].
    change (inject_Z 55) with 55. lra. }
  assert (Hs0 : 30 <= binary64 (binary64 (r * (85 - 30)) + 30)).
  { apply (@binary64_ge_int (binary64 (r * (85 - 30)) + 30) 30); [lia|].
    change (inject_Z 30) with 30. lra. }
  assert (Hs1 : binary64 (binary64 (r * (85 - 30)) + 30) <= 85).
  { apply (@binary64_le_int (binary64 (r * (85 - 30)) + 30) 85); [lia|].
    change (inject_Z 85) with 85. lra. }
  split.
  - rewrite <- (Qfloor_Z 30). apply Qfloor_resp_le. exact Hs0.
  - rewrite <- (Qfloor_Z 85) at 2. apply Qfloor_resp_le. exact Hs1.
Qed.

(** The age 85 is the age of the largest draw: the sum
    [55 - 2^-47 + 30] is a tie, which goes to the even double 85. *)
Lemma age_of_the_largest_draw :
  Qfloor (binary64 (binary64 (maxRandom * (85 - 30)) + 30)) = 85%Z.
Proof. vm_compute. reflexivity. Qed.

Section ParsedRows.

Variable rnd : nat -> Q.
Variable nowISO : string.
Hypothesis rnd_unit : forall k, 0 <= rnd k /\ rnd k <= maxRandom.

Lemma parseRow_record (c : ColumnIndices) (line : string) (i n : nat) :
  match parseRow rnd nowISO c line i n with
  | (None, n') => n' = n
  | (Some p, n') => n' = (4 + n)%nat /\ uploadedRecord p
  end.
Proof.
  unfold parseRow.
  destruct (Z.of_nat _ <=? _)%Z; [reflexivity|].
  unfold bind, Math_random, ret. split; [reflexivity|].
  destruct (rnd_unit n) as (Hn0 & Hn1).
  destruct (rnd_unit (S (S (S n)))) as (H30 & H31).
  unfold uploadedRecord. cbn [age monthsOnCurrentTherapy currentTherapyLine
    gender id diagnosisCode drugId riskScore riskCategory split
    actualOutcome].
  repeat split.
  - apply (age_range Hn0 Hn1).
  - apply (age_range Hn0 Hn1).
  - apply (@floor_random_range (rnd (S (S (S n)))) 24 H30 H31). lia.
  - assert (H : (0 <= Qfloor (binary64 (rnd (S (S (S n))) * inject_Z 24))
                 < 24)%Z)
      by (apply floor_random_range; [exact H30|exact H31|lia]).
    change (inject_Z 24) with 24 in H. lia.
  - destruct (Qgtb _ _); [right|left]; reflexivity.
  - destruct (Qgtb _ _); [left|right]; reflexivity.
  - apply orElse_nonempty. discriminate.
  - apply orElse_nonempty. discriminate.
  - apply orElse_nonempty. discriminate.
Qed.

Lemma mapRows_records (c : ColumnIndices) (rows : list string)
      (i n : nat) :
  let r := mapRows rnd nowISO c rows i n in
  List.length (fst r) = List.length rows /\
  snd r = (n + 4 * List.length (dropNulls (fst r)))%nat /\
  Forall uploadedRecord (dropNulls (fst r)).
Proof.
  revert i n. induction rows as [|line rest IH]; intros i n.
  - simpl. repeat split; [lia|constructor].
  - cbn [mapRows]. cbv zeta. rewrite bind_run.
    pose proof (parseRow_record c line i n) as Hrow.
    destruct (parseRow rnd nowISO c line i n) as [item n1].
    cbn [fst snd]. rewrite bind_run.
    specialize (IH (S i) n1). cbv zeta in IH.
    destruct (mapRows rnd nowISO c rest (S i) n1) as [items n2].
    cbn [fst snd ret] in *. destruct IH as (Hlen & Hn & Hall).
    destruct item as [p|].
    + destruct Hrow as (-> & Hp). cbn [dropNulls List.length].
      repeat split; [lia|lia|constructor; assumption].
    + subst n1. cbn [dropNulls List.length].
      repeat split; [lia|lia|assumption].
Qed.

(** X18.  With a random source of doubles in [0, 1), that is from 0 to
    [1 - 2^-53], every record that [processFile] builds has an age from 30
    to 85 (not 84: the rounded sum reaches 85), 0 to 23 months on therapy,
    line 1 or 2, gender F or M, a non-empty id, diagnosis and drug, and no
    field of the inference set; there is at most one record per data line,
    and each record costs four draws (a line without record costs
    none). *)
Theorem parsed_records_in_range (c : ColumnIndices) (lines : list string)
        (n : nat) :
  let r := parsedData rnd nowISO c lines n in
  Forall uploadedRecord (fst r) /\
  (List.length (fst r) <= List.length (tl lines))%nat /\
  snd r = (n + 4 * List.length (fst r))%nat.
Proof.
  cbv zeta. unfold parsedData. rewrite bind_run. cbn [ret fst snd].
  destruct (mapRows_records c (filter notBlank (tl lines)) 0 n)
    as (Hlen & Hn & Hall).
  repeat split; [exact Hall| |exact Hn].
  eapply Nat.le_trans; [apply dropNulls_length|].
  rewrite Hlen. apply filter_length_le.
Qed.

End ParsedRows.

Lemma rndHalf_unit (k : nat) : 0 <= rndHalf k /\ rndHalf k <= maxRandom.
Proof. unfold rndHalf. split; discriminate. Qed.

(** Witness of X18: a file of two data lines read with the headers of
    the example. *)
Lemma parsed_records_in_range_witness :
  Forall uploadedRecord
    (fst (parsedData rndHalf "2024-06-01T00:00:00.000Z"
            (resolveColumns procedureHeaders defaultColumnKeywords)
            ["header"; "P-1,C50.9,J9217,2024-01-15";
             "P-2,C50.9,J9217,2024-02-20"]%string 0%nat)).
Proof.
  exact (proj1 (@parsed_records_in_range rndHalf
                  "2024-06-01T00:00:00.000Z" rndHalf_unit
                  (resolveColumns procedureHeaders defaultColumnKeywords)
                  ["header"; "P-1,C50.9,J9217,2024-01-15";
                   "P-2,C50.9,J9217,2024-02-20"]%string 0%nat)).
Defined.

Section CompleteRows.

Variable rnd : nat -> Q.
Variable nowISO : string.
Variable c : ColumnIndices.

Lemma mapRows_complete (k : Z) (rows : list string) (i n : nat) :
  (idIndex c < k /\ dxIndex c < k /\ rxIndex c < k /\ dateIndex c < k)%Z ->
  Forall (fun l => (k <= Z.of_nat (List.length (splitCsv l)))%Z) rows ->
  Forall2_from (readsRow nowISO c) i rows
               (dropNulls (fst (mapRows rnd nowISO c rows i n))).
Proof.
  intros Hk Hrows. revert i n.
  induction Hrows as [|line rest Hline _ IH]; intros i n.
  - constructor.
  - cbn [mapRows]. rewrite bind_run.
    assert (Hrow : exists p, parseRow rnd nowISO c line i n =
                             (Some p, (4 + n)%nat) /\
                             readsRow nowISO c i line p).
    { unfold parseRow. rewrite length_map.
      destruct (Z.of_nat _ <=? _)%Z eqn:E; [apply Z.leb_le in E; lia|].
      unfold bind, Math_random, ret. eexists. split; [reflexivity|].
      unfold readsRow.
      cbn [id diagnosisCode drugId lastVisitDate]. repeat split. }
    destruct Hrow as (p & -> & Hp). cbn [fst snd]. rewrite bind_run.
    specialize (IH (S i) (4 + n)%nat).
    destruct (mapRows rnd nowISO c rest (S i) (4 + n)%nat) as [items n2].
    cbn [fst snd ret dropNulls] in *. constructor; assumption.
Qed.

(** X19.  A file whose rows are complete loses no row: when every data
    line that is not blank has a cell for each of the four mapped columns,
    [processFile] builds one record per such line, in the order of the
    file, with the diagnosis, drug and date of its cells ([Unknown] and
    the present time for an empty cell) and with the id of its cell, or
    [P-] and 1000 plus the position of the line for an empty one. *)
Theorem complete_rows_are_all_read (k : Z) (lines : list string)
        (n : nat) :
  (idIndex c < k /\ dxIndex c < k /\ rxIndex c < k /\ dateIndex c < k)%Z ->
  Forall (fun l => notBlank l = true ->
                   (k <= Z.of_nat (List.length (splitCsv l)))%Z)
         (tl lines) ->
  Forall2_from (readsRow nowISO c) 0 (filter notBlank (tl lines))
               (fst (parsedData rnd nowISO c lines n)).
Proof.
  intros Hk Hrows. unfold parsedData. rewrite bind_run. cbn [ret fst].
  apply (mapRows_complete (k := k)); [exact Hk|].
  apply Forall_forall. intros l Hl. apply filter_In in Hl.
  destruct Hl as (Hin & Hnb).
  exact (proj1 (Forall_forall _ _) Hrows l Hin Hnb).
Qed.

End CompleteRows.

(** Witness of X19: two complete rows and a blank line between them. *)
Lemma complete_rows_are_all_read_witness :
  Forall2_from
    (readsRow "2024-06-01T00:00:00.000Z"
              (resolveColumns procedureHeaders defaultColumnKeywords))
    0 ["P-1,C50.9,J9217,2024-01-15"; ",C50.9,J9217,2024-02-20"]%string
    (fst (parsedData rndHalf "2024-06-01T00:00:00.000Z"
            (resolveColumns procedureHeaders defaultColumnKeywords)
            ["header"; "P-1,C50.9,J9217,2024-01-15"; "  ";
             ",C50.9,J9217,2024-02-20"]%string 0%nat)).
Proof.
  apply (@complete_rows_are_all_read rndHalf
           "2024-06-01T00:00:00.000Z"
           (resolveColumns procedureHeaders defaultColumnKeywords)
           4%Z
           ["header"; "P-1,C50.9,J9217,2024-01-15"; "  ";
            ",C50.9,J9217,2024-02-20"]%string 0%nat).
  - vm_compute. repeat split; reflexivity.
  - cbn [tl]. apply Forall_cons.
    { intros _. vm_compute. discriminate. }
    apply Forall_cons.
    { intro Hb. vm_compute in Hb. discriminate Hb. }
    apply Forall_cons.
    { intros _. vm_compute. discriminate. }
    apply Forall_nil.
Defined.

(** ** The outcome of an upload *)

Lemma splitOn_nonempty (sep : ascii) (s : string) : splitOn sep s <> [].
Proof.
  destruct s as [|c rest]; simpl; [discriminate|].
  destruct (Ascii.eqb c sep); [discriminate|].
  destruct (splitOn sep rest); discriminate.
Qed.

Lemma splitOn_one_piece (sep : ascii) (s : string) :
  (List.length (splitOn sep s) <? 2)%nat = true <->
  ~ In sep (list_ascii_of_string s).
Proof.
  induction s as [|c rest IH]; [simpl; tauto|].
  cbn [splitOn list_ascii_of_string In].
  destruct (Ascii.eqb c sep) eqn:E.
  - apply Ascii.eqb_eq in E. subst c. cbn [List.length].
    pose proof (@splitOn_nonempty sep rest) as Hne.
    destruct (splitOn sep rest); [congruence|]. simpl. split.
    + discriminate.
    + intro H. exfalso. apply H. left. reflexivity.
  - apply Ascii.eqb_neq in E.
    pose proof (@splitOn_nonempty sep rest) as Hne.
    destruct (splitOn sep rest) as [|f fs]; [congruence|].
    cbn [List.length] in *. rewrite IH. tauto.
Qed.

Lemma missingColumns_labels (columnKeywords : ColumnKeywords)
      (c : ColumnIndices) :
  let labels := map fst (missingColumns columnKeywords c) in
  (In "Patient ID"%string labels <-> idIndex c = (-1)%Z) /\
  (In "Diagnosis"%string labels <-> dxIndex c = (-1)%Z) /\
  (In "Drug/Procedure"%string labels <-> rxIndex c = (-1)%Z) /\
  (In "Date"%string labels <-> dateIndex c = (-1)%Z) /\
  (labels = [] <-> idIndex c <> (-1)%Z /\ dxIndex c <> (-1)%Z /\
                   rxIndex c <> (-1)%Z /\ dateIndex c <> (-1)%Z).
Proof.
  unfold missingColumns.
  destruct (idIndex c =? -1)%Z eqn:E1; destruct (dxIndex c =? -1)%Z eqn:E2;
    destruct (rxIndex c =? -1)%Z eqn:E3;
    destruct (dateIndex c =? -1)%Z eqn:E4;
    rewrite ?Z.eqb_eq, ?Z.eqb_neq in *; cbn [app map fst In];
    repeat split; intros; try assumption; try discriminate;
    try tauto;
    repeat match goal with
           | H : _ \/ _ |- _ => destruct H
           | H : False |- _ => contradiction
           | H : _ /\ _ |- _ => destruct H
           end; try discriminate; try contradiction; try congruence.
Qed.

Lemma rxIndex_unmatched (headers : list string)
      (columnKeywords : ColumnKeywords) :
  rxIndex (resolveColumns headers columnKeywords) = (-1)%Z <->
  unmatched headers (kw_prescription columnKeywords) /\
  unmatched headers (kw_procedure columnKeywords).
Proof.
  unfold resolveColumns. cbn [rxIndex].
  rewrite <- !findColumnIndex_unmatched.
  destruct (findColumnIndex headers (kw_prescription columnKeywords) =? -1)%Z
    eqn:E.
  - apply Z.eqb_eq in E. tauto.
  - apply Z.eqb_neq in E. tauto.
Qed.

Lemma rxIndex_range (headers : list string)
      (columnKeywords : ColumnKeywords) :
  rxIndex (resolveColumns headers columnKeywords) <> (-1)%Z ->
  (0 <= rxIndex (resolveColumns headers columnKeywords)
     < Z.of_nat (List.length headers))%Z.
Proof.
  unfold resolveColumns. cbn [rxIndex].
  destruct (findColumnIndex headers (kw_prescription columnKeywords) =? -1)%Z
    eqn:E; apply findColumnIndex_range.
Qed.

(** X20.  The three outcomes of reading a file.  The text without a line
    feed is refused as empty.  Otherwise the mapping error is raised
    exactly when some column is not found, it lists a column exactly when
    no header contains one of its keywords (the drug column when no header
    contains a prescription or a procedure keyword), and no random number
    is drawn on either error.  The data are loaded only when the four
    columns are columns of the header line, and they are the records of
    [parsedData] for these columns. *)
Theorem processText_outcome (rnd : nat -> Q) (nowISO : string)
        (columnKeywords : ColumnKeywords) (text : string) (n : nat) :
  let lines := splitOn lineFeed text in
  let headers :=
    map trim (splitOn "," (stripByteOrderMark (hd EmptyString lines))) in
  let c := resolveColumns headers columnKeywords in
  let width := Z.of_nat (List.length headers) in
  let hasLineFeed := In lineFeed (list_ascii_of_string text) in
  match processText rnd nowISO columnKeywords text n with
  | (EmptyFileError, n') => ~ hasLineFeed /\ n' = n
  | (MappingError missing, n') =>
      hasLineFeed /\ n' = n /\ missing <> [] /\
      (In "Patient ID"%string (map fst missing) <->
       unmatched headers (kw_id columnKeywords)) /\
      (In "Diagnosis"%string (map fst missing) <->
       unmatched headers (kw_diagnosis columnKeywords)) /\
      (In "Drug/Procedure"%string (map fst missing) <->
       unmatched headers (kw_prescription columnKeywords) /\
       unmatched headers (kw_procedure columnKeywords)) /\
      (In "Date"%string (map fst missing) <->
       unmatched headers (kw_date columnKeywords))
  | (DataLoaded data, n') =>
      hasLineFeed /\
      (0 <= idIndex c < width)%Z /\ (0 <= dxIndex c < width)%Z /\
      (0 <= rxIndex c < width)%Z /\ (0 <= dateIndex c < width)%Z /\
      (data, n') = parsedData rnd nowISO c lines n
  end.
Proof.
  cbv zeta. unfold processText.
  destruct (List.length (splitOn lineFeed text) <? 2)%nat eqn:Elen.
  - cbn [ret]. split; [|reflexivity].
    apply splitOn_one_piece. exact Elen.
  - assert (Hlf : In lineFeed (list_ascii_of_string text)).
    { destruct (in_dec ascii_dec lineFeed (list_ascii_of_string text))
        as [H|H]; [exact H|].
      apply splitOn_one_piece in H. congruence. }
    set (lines := splitOn lineFeed text).
    set (headers :=
           map trim (splitOn "," (stripByteOrderMark (hd EmptyString lines)))).
    set (c := resolveColumns headers columnKeywords).
    destruct (missingColumns_labels columnKeywords c)
      as (Hid & Hdx & Hrx & Hdate & Hnone).
    destruct (missingColumns columnKeywords c) as [|m ms] eqn:Em.
    + cbn [List.length Nat.ltb Nat.leb]. rewrite bind_run. cbn [ret].
      destruct (proj1 Hnone eq_refl) as (H1 & H2 & H3 & H4).
      split; [exact Hlf|].
      split; [apply findColumnIndex_range; exact H1|].
      split; [apply findColumnIndex_range; exact H2|].
      split; [apply rxIndex_range; exact H3|].
      split; [apply findColumnIndex_range; exact H4|].
      destruct (parsedData rnd nowISO c lines n); reflexivity.
    + cbn [List.length Nat.ltb Nat.leb ret].
      split; [exact Hlf|]. split; [reflexivity|].
      split; [discriminate|].
      rewrite Hid, Hdx, Hrx, Hdate. subst c.
      split; [apply findColumnIndex_unmatched|].
      split; [apply findColumnIndex_unmatched|].
      split; [apply rxIndex_unmatched|].
      apply findColumnIndex_unmatched.
Qed.

(* ================================================================== *)
(** * Properties of [loadSampleData] *)
(* ================================================================== *)

From Stdlib Require Import FinFun.

Lemma decimal_inj (n m : nat) : decimal n = decimal m -> n = m.
Proof.
  unfold decimal. intro H. apply Unsigned.to_uint_inj.
  pose proof (NilEmpty.usu (Nat.to_uint n)) as Hn.
  rewrite H, NilEmpty.usu in Hn. congruence.
Qed.

(** A callback that returns on every element makes [map] return, with one
    result per element and the draws of the callbacks added up. *)
Lemma Array_map_total (A B : Type) (callback : A -> nat -> Exec B)
      (R : nat -> B -> Prop) (lo hi : nat) :
  (forall a i n, exists b n',
      callback a i n = (Normal b, n') /\ R i b /\
      (n + lo <= n' <= n + hi)%nat) ->
  forall l i n, exists bs n',
      Array_map callback l i n = (Normal bs, n') /\
      Forall2_from (fun i _ b => R i b) i l bs /\
      (n + lo * List.length l <= n' <= n + hi * List.length l)%nat.
Proof.
  intros Hcb l. induction l as [|a rest IH]; intros i n.
  - exists [], n. repeat split; [constructor|simpl; lia|simpl; lia].
  - destruct (Hcb a i n) as (b & n1 & Hb & HR & Hn1).
    destruct (IH (S i) n1) as (bs & n2 & Hbs & Hall & Hn2).
    exists (b :: bs), n2. cbn [Array_map].
    erewrite bindE_normal; [|exact Hb].
    erewrite bindE_normal; [|exact Hbs].
    repeat split; [constructor; assumption|simpl; nia|simpl; nia].
Qed.

Lemma Forall2_from_ids (A : Type) (f : nat -> string)
      (R : nat -> PatientProfile -> Prop) :
  (forall i p, R i p -> id p = f i) ->
  forall (i : nat) (l : list A) (out : list PatientProfile),
    Forall2_from (fun i _ p => R i p) i l out ->
    map id out = map f (seq i (List.length l)).
Proof.
  intros HR i l out H. induction H as [|i a p l out Hp _ IH];
    [reflexivity|].
  simpl. rewrite (HR _ _ Hp), IH. reflexivity.
Qed.

Lemma Forall2_from_length (A B : Type) (R : nat -> A -> B -> Prop)
      (i : nat) (l : list A) (l' : list B) :
  Forall2_from R i l l' -> List.length l' = List.length l.
Proof. induction 1; simpl; congruence. Qed.

Section SampleData.

Variable rnd : nat -> Q.
Variable now : nat -> Z.
Variable isoDay : Z -> string.
Hypothesis rnd_unit : forall k, 0 <= rnd k /\ rnd k <= maxRandom.

Lemma doctors_lookup (r : Q) :
  0 <= r -> r <= maxRandom ->
  exists name npi,
    (if (Qfloor (binary64
                   (r * inject_Z (Z.of_nat (List.length doctors)))) <? 0)%Z
     then None
     else nth_error doctors
            (Z.to_nat (Qfloor (binary64
                                 (r * inject_Z (Z.of_nat
                                                  (List.length doctors)))))))
    = Some (name, npi) /\ In (name, npi) doctors.
Proof.
  intros H0 H1.
  assert (Hk : (0 <= Qfloor (binary64
                               (r * inject_Z (Z.of_nat
                                                (List.length doctors))))
                < 5)%Z).
  { change (Z.of_nat (List.length doctors)) with 5%Z.
    apply floor_random_range; [exact H0|exact H1|lia]. }
  destruct (_ <? 0)%Z eqn:E; [apply Z.ltb_lt in E; lia|].
  destruct (nth_error doctors (Z.to_nat _)) as [[name npi]|] eqn:Hd.
  - exists name, npi. split; [reflexivity|].
    eapply nth_error_In. exact Hd.
  - apply nth_error_None in Hd.
    change (List.length doctors) with 5%nat in *. lia.
Qed.

Lemma sampleRecord_run (i n : nat) :
  exists p n',
    sampleRecord rnd now isoDay i n = (Normal p, n') /\
    sampleRecordOf now isoDay i p /\ (n + 8 <= n' <= n + 9)%nat.
Proof.
  destruct (doctors_lookup (proj1 (rnd_unit n)) (proj2 (rnd_unit n)))
    as (name & npi & Hdoc & Hin).
  cbv beta iota zeta delta [sampleRecord bindE bind liftE Math_random
                              retE ret throwE].
  rewrite Hdoc.
  assert (Hage : forall k,
             (30 <= Qfloor (binary64 (binary64 (rnd k * (85 - 30)) + 30))
              <= 85)%Z).
  { intro k. destruct (rnd_unit k) as (H0 & H1).
    exact (age_range H0 H1). }
  assert (Hmonths : forall k,
             (0 <= Qfloor (binary64 (rnd k * 24)) <= 23)%Z).
  { intro k. destruct (rnd_unit k) as (H0 & H1).
    assert (H' : (0 <= Qfloor (binary64 (rnd k * inject_Z 24)) < 24)%Z)
      by (apply floor_random_range; [exact H0|exact H1|lia]).
    change (inject_Z 24) with 24 in H'. lia. }
  assert (Hdate : forall k t,
             (t - 10000000000 <
              t - Qfloor (binary64 (rnd k * 10000000000)) <= t)%Z).
  { intros k t. destruct (rnd_unit k) as (H0 & H1).
    assert (H' : (0 <= Qfloor (binary64 (rnd k * inject_Z 10000000000))
                  < 10000000000)%Z)
      by (apply floor_random_range; [exact H0|exact H1|lia]).
    change (inject_Z 10000000000) with 10000000000 in H'. lia. }
  destruct (Qgtb (rnd (S n)) (binary64 0.8)).
  - eexists. eexists. split; [reflexivity|]. split; [|lia].
    unfold sampleRecordOf. cbn [id age monthsOnCurrentTherapy
      currentTherapyLine doctorName npiId lastVisitDate diagnosisCode
      gender npiSpecialty drugId riskScore riskCategory split
      actualOutcome].
    repeat match goal with |- _ /\ _ => split end;
      try reflexivity; try apply Hage; try apply Hmonths;
      try exact Hin; try (right; left; reflexivity);
      try (eexists; split; [reflexivity|apply Hdate]);
      try (destruct (Qgtb _ _); [left|right]; reflexivity).
  - destruct (Qgtb (rnd (S (S n))) (binary64 0.9)).
    + eexists. eexists. split; [reflexivity|]. split; [|lia].
      unfold sampleRecordOf. cbn [id age monthsOnCurrentTherapy
        currentTherapyLine doctorName npiId lastVisitDate diagnosisCode
        gender npiSpecialty drugId riskScore riskCategory split
        actualOutcome].
      repeat match goal with |- _ /\ _ => split end;
        try reflexivity; try apply Hage; try apply Hmonths;
        try exact Hin; try (right; right; reflexivity);
        try (eexists; split; [reflexivity|apply Hdate]);
        try (destruct (Qgtb _ _); [left|right]; reflexivity).
    + eexists. eexists. split; [reflexivity|]. split; [|lia].
      unfold sampleRecordOf. cbn [id age monthsOnCurrentTherapy
        currentTherapyLine doctorName npiId lastVisitDate diagnosisCode
        gender npiSpecialty drugId riskScore riskCategory split
        actualOutcome].
      repeat match goal with |- _ /\ _ => split end;
        try reflexivity; try apply Hage; try apply Hmonths;
        try exact Hin; try (left; reflexivity);
        try (eexists; split; [reflexivity|apply Hdate]);
        try (destruct (Qgtb _ _); [left|right]; reflexivity).
Qed.

(** X21.  With a random source of doubles in [0, 1), that is from 0 to
    [1 - 2^-53], [loadSampleData] does not throw and returns 200 records;
    the record of index [i] has the id [P-] and 1000 + [i], an age from 30
    to 85 (the rounded sum reaches 85), 0 to 23 months on therapy, line 1,
    2 or 3, a name and NPI that are one row of the table of doctors, a
    visit day less than 10^10 ms before the time of its making, and no
    field of the inference set; the ids are pairwise distinct, and the
    run draws from 1600 to 1800 random numbers. *)
Theorem loadSampleData_records (n : nat) :
  exists out n',
    loadSampleData rnd now isoDay n = (Normal out, n') /\
    List.length out = 200%nat /\
    (forall i p, nth_error out i = Some p ->
                 sampleRecordOf now isoDay i p) /\
    NoDup (map id out) /\
    (n + 1600 <= n' <= n + 1800)%nat.
Proof.
  unfold loadSampleData.
  destruct (@Array_map_total unit PatientProfile
              (fun _ i => sampleRecord rnd now isoDay i)
              (sampleRecordOf now isoDay) 8 9
              (fun _ i n => sampleRecord_run i n)
              (repeat tt 200) 0%nat n)
    as (out & n' & Hrun & Hall & Hn).
  exists out, n'. split; [exact Hrun|].
  rewrite repeat_length in Hn.
  split; [|split; [|split; [|lia]]].
  - rewrite (Forall2_from_length Hall). apply repeat_length.
  - intros i p Hp.
    destruct (Forall2_from_nth Hall _ Hp) as (a & _ & HR). exact HR.
  - rewrite (@Forall2_from_ids unit
               (fun i => ("P-" ++ decimal (1000 + i))%string)
               (sampleRecordOf now isoDay)
               (fun i p H => proj1 H) _ _ _ Hall).
    apply Injective_map_NoDup; [|apply seq_NoDup].
    intros a b Hab. injection Hab as Hab. apply decimal_inj in Hab. lia.
Qed.

End SampleData.

(** Witness of X21: the constant source 0.5. *)
Lemma loadSampleData_records_witness :
  exists out n',
    loadSampleData rndHalf (fun _ => 1700000000000%Z)
                   (fun _ => "2023-11-14"%string) 0%nat =
      (Normal out, n') /\
    List.length out = 200%nat.
Proof.
  destruct (@loadSampleData_records rndHalf (fun _ => 1700000000000%Z)
              (fun _ => "2023-11-14"%string) rndHalf_unit 0%nat)
    as (out & n' & Hrun & Hlen & _).
  exists out, n'. split; assumption.
Defined.

(* ================================================================== *)
(** * Concrete runs of the further properties *)
(* ================================================================== *)

Lemma largeCohort_ids : NoDup (map id largeCohort).
Proof.
  unfold largeCohort. rewrite map_map. cbn [id examplePatient].
  apply Injective_map_NoDup; [|apply seq_NoDup].
  intros a b Hab. injection Hab as Hab. apply decimal_inj in Hab. lia.
Qed.

Lemma exampleCohort_ids : NoDup (map id exampleCohort).
Proof.
  cbn [map exampleCohort id examplePatient].
  repeat (apply NoDup_cons;
          [simpl; intro H;
           repeat (destruct H as [H|H]; [discriminate H|]); exact H|]).
  apply NoDup_nil.
Qed.

(** Witness of X5: forty eligible subjects, of which thirty-two are in
    TRAIN; the engine is shown thirty of them. *)
Lemma engine_sees_the_head_of_the_shuffle_witness :
  exists out n',
    classifyPatientRisk (engine := insertionSortEngine) rndHalf
      (engineAnswers "[]") (parseReads [])
      largeCohort exampleOntology exampleConfig 0%nat = (Normal out, n') /\
    Forall (fun r =>
              ~ In (id r)
                   (map pd_id
                      (prompt_patientData
                         (promptOf (engine := insertionSortEngine) rndHalf
                            largeCohort exampleOntology exampleConfig
                            0%nat))))
           (testSet out).
Proof.
  apply (proj2 (proj2 (proj2
           (@engine_sees_the_head_of_the_shuffle insertionSortEngine
              rndHalf (engineAnswers "[]") (parseReads [])
              largeCohort exampleOntology exampleConfig 0%nat))) []).
  - reflexivity.
  - exact largeCohort_ids.
  - vm_compute. discriminate.
Defined.

(** Witness of X6: the three subjects of the example, the call
    rejected. *)
Lemma classify_keeps_ids_distinct_witness :
  exists out n',
    runOn engineRejects parseThrows = (Normal out, n') /\
    NoDup (map id out) /\
    (forall r, In r out -> In (id r) (map id exampleCohort)).
Proof.
  apply (@classify_keeps_ids_distinct insertionSortEngine rndHalf
           engineRejects parseThrows exampleCohort exampleOntology
           exampleConfig 0%nat).
  exact exampleCohort_ids.
Defined.

(** Witness of X7: two eligible subjects and the split ratio 0.2 give one
    TRAIN and one TEST record. *)
Lemma partition_sizes_witness :
  exists out n',
    runOn (engineAnswers "[]") (parseReads exampleItems) =
      (Normal out, n') /\
    List.length (trainSet out) = 1%nat /\
    List.length (testSet out) = 1%nat /\
    testSet out <> [].
Proof.
  destruct (@partition_sizes insertionSortEngine rndHalf
              (engineAnswers "[]") (parseReads exampleItems)
              exampleCohort exampleOntology exampleConfig 0%nat
              exampleItems (exampleCohort_succeeds exampleItems))
    as (out & n' & Hc & _ & _ & Hsizes & Hne).
  exists out, n'. split; [exact Hc|].
  assert (H0 : 0 <= trainTestSplit exampleConfig)
    by (vm_compute; discriminate).
  assert (H1 : trainTestSplit exampleConfig <= 1)
    by (vm_compute; discriminate).
  assert (Hpos : 2 ^ (-53) <= trainTestSplit exampleConfig)
    by (vm_compute; discriminate).
  assert (HN : (1 <= List.length (filter eligible exampleCohort))%nat)
    by (vm_compute; lia).
  assert (H53 : (Z.of_nat (List.length (filter eligible exampleCohort))
                 < 2 ^ 53)%Z)
    by (vm_compute; reflexivity).
  destruct (Hsizes H0 H1 H53) as (Htrain & Htest).
  assert (Hs : splitIndexOf (List.length (filter eligible exampleCohort))
                            exampleConfig = 1%Z)
    by (vm_compute; reflexivity).
  rewrite Hs in Htrain, Htest.
  change (List.length (filter eligible exampleCohort)) with 2%nat in Htest.
  repeat split; [lia|lia|exact (Hne Hpos HN H53)].
Defined.

(** Witness of X8: the example run, and a second run on its output. *)
Lemma rerun_drops_no_subject_witness :
  exists out n',
    runOn (engineAnswers "[]") (parseReads exampleItems) =
      (Normal out, n') /\
    filter eligible out = out /\
    exists out2 n2',
      classifyPatientRisk (engine := insertionSortEngine) rndHalf
        (engineAnswers "[]") (parseReads exampleItems)
        out exampleOntology exampleConfig n' = (Normal out2, n2') /\
      List.length out2 = List.length out.
Proof.
  destruct (@rerun_drops_no_subject insertionSortEngine rndHalf
              (engineAnswers "[]") (parseReads exampleItems)
              exampleCohort exampleOntology exampleConfig 0%nat
              exampleItems (exampleCohort_succeeds exampleItems))
    as (out & n' & Hc & Hfilter & Hrerun).
  exists out, n'. split; [exact Hc|]. split; [exact Hfilter|].
  destruct (Hrerun exampleOntology exampleConfig n' exampleItems eq_refl)
    as (out2 & n2' & Hc2 & Hlen & _).
  exists out2, n2'. split; assumption.
Defined.

(* ================================================================== *)
(** * Properties of the cohort configurator *)
(* ================================================================== *)

(** ** The statistics *)

Lemma countWhere_bounds (test : PatientProfile -> bool)
      (patients : list PatientProfile) :
  (0 <= countWhere test patients <= Z.of_nat (List.length patients))%Z.
Proof.
  unfold countWhere. pose proof (filter_length_le test patients). lia.
Qed.

(** Every subject is counted in one of four classes of lines. *)
Lemma lines_partition (patients : list PatientProfile) :
  (countWhere (fun p => (currentTherapyLine p =? 1)%Z) patients +
   countWhere (fun p => (currentTherapyLine p =? 2)%Z) patients +
   countWhere (fun p => (currentTherapyLine p >=? 3)%Z) patients +
   countWhere (fun p => (currentTherapyLine p <? 1)%Z) patients =
   Z.of_nat (List.length patients))%Z.
Proof.
  unfold countWhere. induction patients as [|p rest IH]; [reflexivity|].
  cbn [filter List.length].
  destruct (currentTherapyLine p =? 1)%Z eqn:E1;
    destruct (currentTherapyLine p =? 2)%Z eqn:E2;
    destruct (currentTherapyLine p >=? 3)%Z eqn:E3;
    destruct (currentTherapyLine p <? 1)%Z eqn:E4;
    rewrite ?Z.eqb_eq, ?Z.eqb_neq, ?Z.geb_le, ?Z.ltb_lt, ?Z.ltb_ge in *;
    try (rewrite Z.geb_leb in E3; rewrite ?Z.leb_le, ?Z.leb_gt in E3);
    cbn [List.length]; lia.
Qed.

Lemma countWhere_zero (test : PatientProfile -> bool)
      (patients : list PatientProfile) :
  countWhere test patients = 0%Z <->
  Forall (fun p => test p = false) patients.
Proof.
  unfold countWhere. induction patients as [|p rest IH].
  - simpl. split; [constructor|reflexivity].
  - cbn [filter]. destruct (test p) eqn:E.
    + cbn [List.length]. split; [lia|].
      intro H. inversion H; subst. congruence.
    + rewrite IH. split.
      * intro H. constructor; assumption.
      * intro H. inversion H; assumption.
Qed.

(** X22.  The chart of the configurator has three entries, for the lines
    1, 2 and 3 or more; their values are counts of subjects that add up to
    at most the size of the cohort, and to the size exactly when every
    subject has a line of 1 or more.  The subjects counted as eligible
    are those of line 1, and the subjects counted as missing a diagnosis
    are at most all of them. *)
Theorem stats_counts (patients : list PatientProfile) :
  let st := stats patients in
  exists line1 line2 line3,
    stats_distribution st = [("1st Line"%string, line1);
                             ("2nd Line"%string, line2);
                             ("3rd Line+"%string, line3)] /\
    stats_total st = Z.of_nat (List.length patients) /\
    (0 <= line1 /\ 0 <= line2 /\ 0 <= line3)%Z /\
    (line1 + line2 + line3 <= stats_total st)%Z /\
    ((line1 + line2 + line3 = stats_total st)%Z <->
     Forall (fun p => (1 <= currentTherapyLine p)%Z) patients) /\
    stats_eligibleCount st = line1 /\
    (0 <= stats_missingDiagnosis st <= stats_total st)%Z.
Proof.
  cbv zeta. unfold stats.
  cbn [stats_distribution stats_total stats_eligibleCount
       stats_missingDiagnosis].
  do 3 eexists. split; [reflexivity|]. split; [reflexivity|].
  pose proof (lines_partition patients) as Hsum.
  pose proof (countWhere_bounds
                (fun p => (currentTherapyLine p =? 1)%Z) patients) as H1.
  pose proof (countWhere_bounds
                (fun p => (currentTherapyLine p =? 2)%Z) patients) as H2.
  pose proof (countWhere_bounds
                (fun p => (currentTherapyLine p >=? 3)%Z) patients) as H3.
  pose proof (countWhere_bounds
                (fun p => (currentTherapyLine p <? 1)%Z) patients) as H0.
  split; [lia|]. split; [lia|]. split; [|split; [reflexivity|]].
  - assert (Hzero :
      countWhere (fun p => (currentTherapyLine p <? 1)%Z) patients = 0%Z <->
      Forall (fun p => (1 <= currentTherapyLine p)%Z) patients).
    { rewrite countWhere_zero. split; intro H;
        (eapply Forall_impl; [|exact H]); intros p Hp; cbv beta in *.
      - apply Z.ltb_ge in Hp. exact Hp.
      - apply Z.ltb_ge. exact Hp. }
    rewrite <- Hzero. lia.
  - apply countWhere_bounds.
Qed.

Lemma ratio_below (a t : Z) (num den : positive) :
  (0 < t)%Z ->
  inject_Z a / inject_Z t < Z.pos num # den <->
  (a * Z.pos den < Z.pos num * t)%Z.
Proof.
  intro Ht.
  assert (Hq : 0 < inject_Z t)
    by (change 0 with (inject_Z 0); rewrite <- Zlt_Qlt; exact Ht).
  assert (Hx : inject_Z a / inject_Z t * inject_Z t == inject_Z a).
  { rewrite Qmult_comm. apply Qmult_div_r.
    intro H. rewrite H in Hq. exact (Qlt_irrefl 0 Hq). }
  assert (Hz : inject_Z a < (Z.pos num # den) * inject_Z t <->
               (a * Z.pos den < Z.pos num * t)%Z).
  { unfold Qlt, Qmult, inject_Z. cbn [Qnum Qden].
    rewrite Pos.mul_1_r, Z.mul_1_r. reflexivity. }
  split; intro H.
  - apply Hz. rewrite <- Hx. apply Qmult_lt_compat_r; assumption.
  - apply Hz in H. rewrite <- Hx in H.
    exact (proj1 (Qmult_lt_r _ _ (inject_Z t) Hq) H).
Qed.

Lemma ratio_above (a t : Z) (num den : positive) :
  (0 < t)%Z ->
  Z.pos num # den < inject_Z a / inject_Z t <->
  (Z.pos num * t < a * Z.pos den)%Z.
Proof.
  intro Ht.
  assert (Hq : 0 < inject_Z t)
    by (change 0 with (inject_Z 0); rewrite <- Zlt_Qlt; exact Ht).
  assert (Hx : inject_Z a / inject_Z t * inject_Z t == inject_Z a).
  { rewrite Qmult_comm. apply Qmult_div_r.
    intro H. rewrite H in Hq. exact (Qlt_irrefl 0 Hq). }
  assert (Hz : (Z.pos num # den) * inject_Z t < inject_Z a <->
               (Z.pos num * t < a * Z.pos den)%Z).
  { unfold Qlt, Qmult, inject_Z. cbn [Qnum Qden].
    rewrite Pos.mul_1_r, Z.mul_1_r. reflexivity. }
  split; intro H.
  - apply Hz. rewrite <- Hx. apply Qmult_lt_compat_r; assumption.
  - apply Hz in H. rewrite <- Hx in H.
    exact (proj1 (Qmult_lt_r _ _ (inject_Z t) Hq) H).
Qed.

(** X23.  The cohort is reported as imbalanced exactly when it is empty,
    or fewer than 15 in 100 of its subjects are on line 1, or more than
    85 in 100 are.  The empty cohort, whose ratio is set to 0, is always
    reported as imbalanced. *)
Theorem imbalance_rule (patients : list PatientProfile) :
  let st := stats patients in
  (stats_isImbalanced st = true <->
   (stats_total st = 0 \/
    100 * stats_eligibleCount st < 15 * stats_total st \/
    85 * stats_total st < 100 * stats_eligibleCount st)%Z) /\
  stats_isImbalanced (stats []) = true.
Proof.
  cbv zeta. split; [|reflexivity]. unfold stats.
  cbn [stats_isImbalanced stats_total stats_eligibleCount].
  set (total := Z.of_nat (List.length patients)).
  set (line1 := countWhere (fun p => (currentTherapyLine p =? 1)%Z)
                           patients).
  assert (Htotal : (0 <= total)%Z) by (unfold total; lia).
  rewrite orb_true_iff, Qltb_true, Qgtb_true.
  destruct (total >? 0)%Z eqn:E.
  - assert (Hpos : (0 < total)%Z) by (apply Z.gtb_lt; exact E).
    change 0.15 with (15 # 100). change 0.85 with (85 # 100).
    rewrite (ratio_below line1 15 100 Hpos).
    rewrite (ratio_above line1 85 100 Hpos). lia.
  - assert (Hzero : total = 0%Z).
    { destruct (Z.gtb_spec total 0); [discriminate|lia]. }
    split; [intros _; left; exact Hzero|].
    intros _. left. reflexivity.
Qed.

(** ** The recommended model *)

(** X24.  After the effect on the imbalance flag, the selection is
    XGBoost with class weights exactly when the cohort is reported as
    imbalanced, whatever was selected before; running the effect again
    changes nothing, and a selection other than that pair is kept on a
    balanced cohort. *)
Theorem recommended_model_tracks_imbalance (isImbalanced : bool)
        (selection : ModelType * ImbalanceStrategy) :
  (recommendModel isImbalanced selection = (XGBOOST, CLASS_WEIGHTS) <->
   isImbalanced = true) /\
  recommendModel isImbalanced (recommendModel isImbalanced selection) =
  recommendModel isImbalanced selection /\
  (isImbalanced = false -> selection <> (XGBOOST, CLASS_WEIGHTS) ->
   recommendModel isImbalanced selection = selection).
Proof.
  destruct isImbalanced, selection as [[|] [| |]]; cbn;
    repeat split; intros; try reflexivity; try discriminate;
    try congruence.
Qed.

(** Witness of X24: a balanced cohort keeps the reasoning engine. *)
Lemma recommended_model_tracks_imbalance_witness :
  recommendModel false (GENAI_REASONING, NONE) = (GENAI_REASONING, NONE).
Proof.
  apply (proj2 (proj2 (recommended_model_tracks_imbalance
                         false (GENAI_REASONING, NONE))));
    [reflexivity|discriminate].
Defined.

(** ** The preset *)

Lemma includes_empty (h : string) : includes h EmptyString = true.
Proof. destruct h; reflexivity. Qed.

Lemma includes_refl (h : string) : includes h h = true.
Proof. apply eqb_includes. apply String.eqb_refl. Qed.

(** X25.  The preset that is applied is the first of the list whose name
    contains the name of the disease or is contained in it, letter case
    apart, and without such a preset the form keeps its values.  Hence a
    preset with the name of the disease (letter case apart) makes some
    preset apply, not later in the list than this one; and a disease
    without name takes the first preset of the list, whatever its
    name. *)
Theorem preset_lookup (diseasePresets : list DiseasePreset)
        (ontology : OntologyMapping) (state : PresetState) :
  let state' := applyPreset diseasePresets ontology state in
  (state' = state /\
   Forall (fun p => presetMatches ontology p = false) diseasePresets \/
   exists before preset after,
     diseasePresets = before ++ preset :: after /\
     Forall (fun p => presetMatches ontology p = false) before /\
     presetMatches ontology preset = true /\
     state' = {| form_lookbackMonths := defaultLookbackMonths preset;
                 form_predictionWindowMonths :=
                   defaultPredictionWindowMonths preset;
                 form_minClaimsCount := defaultMinClaims preset;
                 appliedPreset := Some (preset_diseaseName preset) |}) /\
  (forall p, In p diseasePresets ->
             toLowerCase (preset_diseaseName p) =
             toLowerCase (diseaseName ontology) ->
             appliedPreset state' <> None /\ presetMatches ontology p = true) /\
  (diseaseName ontology = EmptyString ->
   forall first rest, diseasePresets = first :: rest ->
     appliedPreset state' = Some (preset_diseaseName first)).
Proof.
  cbv zeta.
  assert (Hfind : forall l,
    (find (presetMatches ontology) l = None /\
     Forall (fun p => presetMatches ontology p = false) l) \/
    exists before preset after,
      l = before ++ preset :: after /\
      Forall (fun p => presetMatches ontology p = false) before /\
      presetMatches ontology preset = true /\
      find (presetMatches ontology) l = Some preset).
  { induction l as [|q l IH]; [left; split; [reflexivity|constructor]|].
    cbn [find]. destruct (presetMatches ontology q) eqn:E.
    - right. exists [], q, l. repeat split; [constructor|exact E].
    - destruct IH as [(Hn & Hall) | (b & pr & a & -> & Hb & Hpr & Hf)].
      + left. split; [exact Hn|]. constructor; assumption.
      + right. exists (q :: b), pr, a.
        repeat split; [constructor; assumption|exact Hpr|exact Hf]. }
  assert (Hcases :
    (applyPreset diseasePresets ontology state = state /\
     Forall (fun p => presetMatches ontology p = false) diseasePresets) \/
    exists before preset after,
     diseasePresets = before ++ preset :: after /\
     Forall (fun p => presetMatches ontology p = false) before /\
     presetMatches ontology preset = true /\
     applyPreset diseasePresets ontology state =
     {| form_lookbackMonths := defaultLookbackMonths preset;
        form_predictionWindowMonths :=
          defaultPredictionWindowMonths preset;
        form_minClaimsCount := defaultMinClaims preset;
        appliedPreset := Some (preset_diseaseName preset) |}).
  { unfold applyPreset.
    destruct (Hfind diseasePresets)
      as [(Hn & Hall) | (b & pr & a & Heq & Hb & Hpr & Hf)].
    - left. rewrite Hn. destruct diseasePresets; split; auto.
    - right. exists b, pr, a. rewrite Hf.
      destruct diseasePresets as [|q l];
        [destruct b; discriminate|].
      repeat split; assumption. }
  split; [exact Hcases|]. split.
  - intros p Hp Hname.
    assert (Hm : presetMatches ontology p = true).
    { unfold presetMatches. rewrite Hname, includes_refl. reflexivity. }
    split; [|exact Hm].
    destruct Hcases as [(_ & Hall) | (b & pr & a & _ & _ & _ & ->)].
    + rewrite (proj1 (Forall_forall _ _) Hall p Hp) in Hm. discriminate.
    + discriminate.
  - intros Hname first rest ->.
    assert (Hm : presetMatches ontology first = true).
    { unfold presetMatches. rewrite Hname. cbn [toLowerCase].
      rewrite includes_empty. apply orb_true_r. }
    unfold applyPreset. cbn [find]. rewrite Hm. reflexivity.
Qed.

(** Witness of X25: the disease [breast cancer] and the presets of the
    admin defaults. *)
Lemma preset_lookup_witness :
  appliedPreset
    (applyPreset defaultDiseasePresets
       {| diseaseName := "breast cancer"; icdCodes := []; cptCodes := [];
          drugs := []; targetLineTransition := "1L to 2L" |}
       initialPresetState) <> None.
Proof.
  apply (proj1 (proj2 (@preset_lookup defaultDiseasePresets
           {| diseaseName := "breast cancer"; icdCodes := [];
              cptCodes := []; drugs := [];
              targetLineTransition := "1L to 2L" |}
           initialPresetState))
         {| preset_diseaseName := "Breast Cancer";
            defaultLookbackMonths := 12;
            defaultPredictionWindowMonths := 6;
            defaultMinClaims := 2 |});
    [left; reflexivity|reflexivity].
Defined.

(* ================================================================== *)
(** * Properties of the admin panel *)
(* ================================================================== *)

(** ** Trimming *)

Lemma trimEnd_idempotent (s : string) : trimEnd (trimEnd s) = trimEnd s.
Proof.
  induction s as [|c r IH]; [reflexivity|].
  cbn [trimEnd]. destruct (trimEnd r) as [|c' r'] eqn:E.
  - destruct (isWhitespace c) eqn:Ec; [reflexivity|].
    cbn [trimEnd]. rewrite Ec. reflexivity.
  - cbn [trimEnd] in *. rewrite IH. reflexivity.
Qed.

Lemma trimStart_startsClean (s : string) : startsClean (trimStart s).
Proof.
  induction s as [|c r IH]; [exact I|].
  cbn [trimStart]. destruct (isWhitespace c) eqn:E; [exact IH|exact E].
Qed.

Lemma trimStart_fixed (s : string) : startsClean s -> trimStart s = s.
Proof.
  destruct s as [|c r]; [reflexivity|]. simpl. intros ->. reflexivity.
Qed.

Lemma trimEnd_startsClean (s : string) :
  startsClean s -> startsClean (trimEnd s).
Proof.
  destruct s as [|c r]; [exact (fun H => H)|]. intro H.
  cbn [trimEnd]. destruct (trimEnd r).
  - cbn [startsClean] in H. rewrite H. exact H.
  - exact H.
Qed.

Lemma trim_idempotent (s : string) : trim (trim s) = trim s.
Proof.
  unfold trim.
  rewrite (@trimStart_fixed _ (@trimEnd_startsClean _
                                (trimStart_startsClean s))).
  apply trimEnd_idempotent.
Qed.

Lemma trimStart_chars (s : string) (c : ascii) :
  In c (list_ascii_of_string (trimStart s)) ->
  In c (list_ascii_of_string s).
Proof.
  induction s as [|a r IH]; [exact (fun H => H)|].
  cbn [trimStart]. destruct (isWhitespace a); [|exact (fun H => H)].
  intro H. right. exact (IH H).
Qed.

Lemma trimEnd_chars (s : string) (c : ascii) :
  In c (list_ascii_of_string (trimEnd s)) ->
  In c (list_ascii_of_string s).
Proof.
  induction s as [|a r IH]; [exact (fun H => H)|].
  cbn [trimEnd]. destruct (trimEnd r) as [|a' r'].
  - destruct (isWhitespace a); [contradiction|].
    intros [H|[]]. left. exact H.
  - intros [H|H]; [left; exact H|right; exact (IH H)].
Qed.

Lemma trim_chars (s : string) (c : ascii) :
  In c (list_ascii_of_string (trim s)) -> In c (list_ascii_of_string s).
Proof. intro H. apply trimStart_chars, trimEnd_chars. exact H. Qed.

(** ** Splitting *)

Lemma splitOn_pieces (sep : ascii) (s : string) :
  Forall (fun piece => ~ In sep (list_ascii_of_string piece))
         (splitOn sep s).
Proof.
  induction s as [|c r IH]; [repeat constructor; exact (fun H => H)|].
  cbn [splitOn]. destruct (Ascii.eqb c sep) eqn:E.
  - constructor; [exact (fun H => H)|exact IH].
  - apply Ascii.eqb_neq in E.
    destruct (splitOn sep r) as [|f fs].
    + repeat constructor. intros [H|[]]. exact (E H).
    + inversion IH as [|? ? Hf Hfs]; subst. constructor; [|exact Hfs].
      intros [H|H]; [exact (E H)|exact (Hf H)].
Qed.

Lemma splitOn_whole (sep : ascii) (s : string) :
  ~ In sep (list_ascii_of_string s) -> splitOn sep s = [s].
Proof.
  induction s as [|c r IH]; [reflexivity|]. intro H.
  cbn [splitOn]. destruct (Ascii.eqb c sep) eqn:E.
  - apply Ascii.eqb_eq in E. exfalso. apply H. left. exact E.
  - rewrite IH; [reflexivity|]. intro Hr. apply H. right. exact Hr.
Qed.

Lemma splitOn_at_separator (sep : ascii) (a b : string) :
  ~ In sep (list_ascii_of_string a) ->
  splitOn sep (a ++ String sep b) = a :: splitOn sep b.
Proof.
  induction a as [|c r IH]; intro H.
  - cbn [append splitOn]. rewrite Ascii.eqb_refl. reflexivity.
  - cbn [append splitOn]. destruct (Ascii.eqb c sep) eqn:E.
    + apply Ascii.eqb_eq in E. exfalso. apply H. left. exact E.
    + rewrite IH; [reflexivity|]. intro Hr. apply H. right. exact Hr.
Qed.

Lemma splitOn_keywordsText (k : string) (rest : list string) :
  Forall (fun s => ~ In ","%char (list_ascii_of_string s)) (k :: rest) ->
  splitOn "," (keywordsText (k :: rest)) = k :: map (String " ") rest.
Proof.
  revert k. induction rest as [|k' rest IH]; intros k Hall.
  - inversion Hall; subst. apply splitOn_whole. assumption.
  - inversion Hall as [|? ? Hk Hrest]; subst. unfold keywordsText.
    rewrite concat_cons by discriminate.
    change (k ++ ", " ++ String.concat ", " (k' :: rest))%string
      with (k ++ String "," (String " " (keywordsText (k' :: rest))))%string.
    rewrite (@splitOn_at_separator _ _ _ Hk). cbn [splitOn].
    change (Ascii.eqb " " ",") with false. cbv iota.
    rewrite (IH k' Hrest). reflexivity.
Qed.

Lemma storedKeyword_length (k : string) :
  k <> EmptyString -> (0 <? String.length k)%nat = true.
Proof. destruct k; [congruence|reflexivity]. Qed.

Lemma parseKeywords_stored (value : string) :
  Forall storedKeyword (parseKeywords value).
Proof.
  unfold parseKeywords. apply Forall_forall. intros k Hk.
  apply filter_In in Hk. destruct Hk as (Hin & Hlen).
  apply in_map_iff in Hin. destruct Hin as (piece & <- & Hpiece).
  repeat split.
  - intro H. rewrite H in Hlen. discriminate.
  - apply trim_idempotent.
  - intro Hc. apply trim_chars in Hc.
    exact (proj1 (Forall_forall _ _) (splitOn_pieces "," value)
                 piece Hpiece Hc).
Qed.

Lemma parseKeywords_keywordsText (keywords : list string) :
  Forall storedKeyword keywords ->
  parseKeywords (keywordsText keywords) = keywords.
Proof.
  intro Hall. destruct keywords as [|k rest]; [reflexivity|].
  unfold parseKeywords. rewrite splitOn_keywordsText.
  2:{ eapply Forall_impl; [|exact Hall]. intros s Hs. apply Hs. }
  assert (Htrim : map trim (k :: map (String " ") rest) = k :: rest).
  { cbn [map]. inversion Hall as [|? ? Hk Hrest]; subst.
    rewrite (proj1 (proj2 Hk)). f_equal. rewrite map_map.
    clear Hk Hall. induction Hrest as [|s l Hs _ IH]; [reflexivity|].
    cbn [map]. rewrite IH. f_equal.
    change (trim (String " " s)) with (trim s). exact (proj1 (proj2 Hs)). }
  rewrite Htrim. apply filter_all. eapply Forall_impl; [|exact Hall].
  intros s Hs. apply storedKeyword_length. apply Hs.
Qed.

(** X26.  The keywords that the panel stores for a text are not empty,
    trimmed and free of commas; a list of such keywords is read back
    unchanged from the text that the panel shows for it, so that typing
    the shown text again changes nothing. *)
Theorem keywords_round_trip (value : string) :
  Forall storedKeyword (parseKeywords value) /\
  (forall keywords, Forall storedKeyword keywords ->
                    parseKeywords (keywordsText keywords) = keywords) /\
  parseKeywords (keywordsText (parseKeywords value)) = parseKeywords value.
Proof.
  split; [apply parseKeywords_stored|]. split.
  - apply parseKeywords_keywordsText.
  - apply parseKeywords_keywordsText, parseKeywords_stored.
Qed.

(** Witness of X26: the id keywords of the admin defaults. *)
Lemma keywords_round_trip_witness :
  parseKeywords (keywordsText (kw_id defaultColumnKeywords)) =
  kw_id defaultColumnKeywords.
Proof.
  apply (proj1 (proj2 (keywords_round_trip EmptyString))).
  repeat (apply Forall_cons;
          [repeat split;
           [discriminate
           |simpl; intro H;
            repeat (destruct H as [H|H]; [discriminate H|]); exact H]|]).
  apply Forall_nil.
Defined.

(** ** Keywords and columns *)

Lemma unmatched_empty_keyword (headers keywords : list string) :
  headers <> [] -> In EmptyString keywords ->
  ~ unmatched headers keywords.
Proof.
  intros Hne Hin Hun. destruct headers as [|h rest]; [congruence|].
  specialize (Hun h EmptyString (or_introl eq_refl) Hin).
  rewrite includes_empty in Hun. discriminate.
Qed.

(** X27.  An empty keyword would match every header: with one in the
    list, every column of a table with a header is found.  The panel
    never stores one: when no list of a configuration holds the empty
    keyword, none does after [handleKeywordChange], and the admin defaults
    hold none. *)
Theorem no_empty_keyword (category : KeywordCategory) (value : string)
        (columnKeywords : ColumnKeywords) :
  (forall headers keywords,
      headers <> [] -> In EmptyString keywords ->
      (0 <= findColumnIndex headers keywords
         < Z.of_nat (List.length headers))%Z) /\
  ((forall c, ~ In EmptyString (keywordsOf c columnKeywords)) ->
   forall c, ~ In EmptyString
               (keywordsOf c (handleKeywordChange category value
                                                  columnKeywords))) /\
  (forall c, ~ In EmptyString (keywordsOf c defaultColumnKeywords)).
Proof.
  split; [|split].
  - intros headers keywords Hne Hin. apply findColumnIndex_range.
    intro H. apply findColumnIndex_unmatched in H.
    exact (unmatched_empty_keyword Hne Hin H).
  - intros Hinv c Hin.
    assert (Hnew : ~ In EmptyString (parseKeywords value)).
    { intro H.
      pose proof (proj1 (Forall_forall _ _) (parseKeywords_stored value)
                        _ H) as (Hk & _).
      congruence. }
    destruct category, c; cbn in Hin;
      first [exact (Hnew Hin)
            | exact (Hinv IdKeywords Hin)
            | exact (Hinv DiagnosisKeywords Hin)
            | exact (Hinv PrescriptionKeywords Hin)
            | exact (Hinv ProcedureKeywords Hin)
            | exact (Hinv DateKeywords Hin)].
  - intros c Hin. destruct c; cbn in Hin;
      repeat (destruct Hin as [Hin|Hin]; [discriminate Hin|]); exact Hin.
Qed.

(** Witness of X27: the diagnosis keywords are typed anew in the admin
    defaults. *)
Lemma no_empty_keyword_witness :
  ~ In EmptyString
       (keywordsOf DiagnosisKeywords
          (handleKeywordChange DiagnosisKeywords
             "dx, icd, , diag," defaultColumnKeywords)).
Proof.
  apply (proj1 (proj2 (no_empty_keyword DiagnosisKeywords
                         "dx, icd, , diag," defaultColumnKeywords))).
  intros c Hin. destruct c; cbn in Hin;
    repeat (destruct Hin as [Hin|Hin]; [discriminate Hin|]); exact Hin.
Defined.

(* ================================================================== *)
(** * Properties of the research intent *)
(* ================================================================== *)

(** X28.  [parseResearchIntent] never rejects.  It returns what
    [JSON.parse] reads when the engine answers with a text that is not
    empty and that is parsed; on a rejected call, on a missing or empty
    text and on a parse error it returns the fallback mapping of the
    disease [Unknown].  Hence [handleAnalyze] sets a mapping for every
    query that is not blank, and leaves the state alone for a blank one;
    and the fallback mapping applies none of the presets of the admin
    defaults. *)
Theorem parseResearchIntent_never_rejects
        (generateContent : string -> GenerateContentResult)
        (JSON_parse : string -> Completion OntologyMapping)
        (query : string) (mapping : option OntologyMapping)
        (state : PresetState) :
  (exists result,
      parseResearchIntent generateContent JSON_parse query = Normal result /\
      ((exists text, text <> EmptyString /\
                     generateContent query = Response (Some text) /\
                     JSON_parse text = Normal result) \/
       (result = fallbackOntology /\
        (generateContent query = Rejected \/
         generateContent query = Response None \/
         generateContent query = Response (Some EmptyString) \/
         exists text, generateContent query = Response (Some text) /\
                      JSON_parse text = Throw))) /\
      handleAnalyze generateContent JSON_parse query mapping =
      (if isEmpty (trim query) then mapping else Some result)) /\
  applyPreset defaultDiseasePresets fallbackOntology state = state.
Proof.
  split; [|reflexivity].
  unfold handleAnalyze, parseResearchIntent, intentOf.
  destruct (generateContent query) as [|[[|c rest]|]] eqn:Hg.
  - exists fallbackOntology. split; [reflexivity|]. split; [|reflexivity].
    right. split; [reflexivity|]. left. reflexivity.
  - exists fallbackOntology. split; [reflexivity|]. split; [|reflexivity].
    right. split; [reflexivity|]. right. right. left. reflexivity.
  - destruct (JSON_parse (String c rest)) as [m|] eqn:Hp.
    + exists m. split; [reflexivity|]. split; [|reflexivity].
      left. exists (String c rest). repeat split; [discriminate|exact Hp].
    + exists fallbackOntology. split; [reflexivity|].
      split; [|reflexivity]. right. split; [reflexivity|].
      right. right. right. exists (String c rest). split; [reflexivity|].
      exact Hp.
  - exists fallbackOntology. split; [reflexivity|]. split; [|reflexivity].
    right. split; [reflexivity|]. right. left. reflexivity.
Qed.

(* ================================================================== *)
(** * Properties of the handlers of [App] *)
(* ================================================================== *)

Lemma filter_length_eligible (patients : list PatientProfile) :
  (List.length (filter eligible patients) <= List.length patients)%nat.
Proof. apply filter_length_le. Qed.

Section ConfigReady.

Context {engine : ArraySort}.
Variable rnd : nat -> Q.
Variable generateContent : Prompt -> GenerateContentResult.
Variable JSON_parse : string -> Completion JsonValue.

(** X29.  With an ontology in the state, [handleConfigReady] always
    reaches the step RESULTS: the [catch] of the handler is never taken,
    since [classifyPatientRisk] does not reject.  The patients of the
    state are replaced by the output of the run, which holds at most as
    many records as before, each with a score, a category and a split;
    the configuration is stored, and the ontology, the studies and the
    current study are kept.  Without an ontology the state is returned as
    it is, and no random number is drawn. *)
Theorem handleConfigReady_reaches_results (config : CohortConfig)
        (state : AppState) (n : nat) :
  (app_ontology state = None ->
   handleConfigReady rnd generateContent JSON_parse config state n =
   (state, n)) /\
  (forall ontology,
      app_ontology state = Some ontology ->
      exists out n',
        classifyPatientRisk rnd generateContent JSON_parse
          (app_patients state) ontology config n = (Normal out, n') /\
        handleConfigReady rnd generateContent JSON_parse config state n =
        ({| currentStep := RESULTS;
            app_patients := out;
            app_ontology := Some ontology;
            app_cohortConfig := Some config;
            app_studies := app_studies state;
            currentStudyId := currentStudyId state |}, n') /\
        (List.length out <= List.length (app_patients state))%nat /\
        Forall classified out).
Proof.
  split.
  - intro Hnone. unfold handleConfigReady. rewrite Hnone. reflexivity.
  - intros ontology Hsome.
    destruct (classify_run rnd generateContent JSON_parse
                (app_patients state) ontology config n)
      as (out & n' & Hc & Hshape).
    exists out, n'. split; [exact Hc|]. split.
    + unfold handleConfigReady. rewrite Hsome, bind_run, Hc.
      reflexivity.
    + destruct Hshape as [(items & Hrec) | ->].
      * split.
        -- rewrite (Forall2_from_length Hrec), shuffledOf_length.
           apply filter_length_eligible.
        -- eapply Forall2_from_Forall_r; [|exact Hrec].
           intros i p r (score & k & -> & _).
           repeat split; discriminate.
      * split; [rewrite length_map; lia|].
        apply Forall_forall. intros r Hr. apply in_map_iff in Hr.
        destruct Hr as (p & <- & _). repeat split; discriminate.
Qed.

End ConfigReady.

(** Witness of X29: the example cohort, with an ontology in the state and
    the call of the engine rejected. *)
Lemma handleConfigReady_reaches_results_witness :
  exists out n',
    handleConfigReady (engine := insertionSortEngine) rndHalf
      engineRejects parseThrows exampleConfig
      {| currentStep := CONFIGURE;
         app_patients := exampleCohort;
         app_ontology := Some exampleOntology;
         app_cohortConfig := None;
         app_studies := [];
         currentStudyId := None |} 0%nat =
    ({| currentStep := RESULTS;
        app_patients := out;
        app_ontology := Some exampleOntology;
        app_cohortConfig := Some exampleConfig;
        app_studies := [];
        currentStudyId := None |}, n').
Proof.
  destruct (proj2 (@handleConfigReady_reaches_results insertionSortEngine
              rndHalf engineRejects parseThrows exampleConfig
              {| currentStep := CONFIGURE;
                 app_patients := exampleCohort;
                 app_ontology := Some exampleOntology;
                 app_cohortConfig := None;
                 app_studies := [];
                 currentStudyId := None |} 0%nat)
              exampleOntology eq_refl)
    as (out & n' & _ & Hrun & _).
  exists out, n'. exact Hrun.
Defined.

(** ** Saving and publishing *)

Lemma save_elsewhere (sid : string) (e : Experiment) (studies : list Study) :
  ~ In sid (map study_id studies) ->
  map (fun s =>
         if isCurrentStudy (Some sid) s
         then {| study_id := study_id s;
                 study_name := study_name s;
                 study_description := study_description s;
                 study_categoryTags := study_categoryTags s;
                 study_experiments := e :: study_experiments s;
                 study_createdAt := study_createdAt s |}
         else s) studies = studies.
Proof.
  induction studies as [|s rest IH]; [reflexivity|]. intro Hnot.
  cbn [map]. rewrite IH by (intro H; apply Hnot; right; exact H).
  assert (Hcur : isCurrentStudy (Some sid) s = String.eqb (study_id s) sid)
    by reflexivity.
  rewrite Hcur. clear Hcur.
  destruct (String.eqb (study_id s) sid) eqn:E.
  - apply String.eqb_eq in E. exfalso. apply Hnot. left. exact E.
  - reflexivity.
Qed.

Lemma save_once (sid : string) (e : Experiment) (studies : list Study) :
  NoDup (map study_id studies) -> In sid (map study_id studies) ->
  List.length
    (flat_map study_experiments
       (map (fun s =>
               if isCurrentStudy (Some sid) s
               then {| study_id := study_id s;
                       study_name := study_name s;
                       study_description := study_description s;
                       study_categoryTags := study_categoryTags s;
                       study_experiments := e :: study_experiments s;
                       study_createdAt := study_createdAt s |}
               else s) studies)) =
  S (List.length (flat_map study_experiments studies)).
Proof.
  induction studies as [|s rest IH]; [contradiction|].
  intros Hnd Hin. cbn [map] in Hnd. inversion Hnd as [|? ? Hnot Hnd'].
  subst. cbn [map flat_map].
  assert (Hcur : isCurrentStudy (Some sid) s = String.eqb (study_id s) sid)
    by reflexivity.
  rewrite Hcur. clear Hcur.
  destruct (String.eqb (study_id s) sid) eqn:E.
  - apply String.eqb_eq in E. subst sid.
    rewrite (@save_elsewhere _ e rest Hnot). cbn [study_experiments].
    rewrite !length_app. reflexivity.
  - apply String.eqb_neq in E. destruct Hin as [Hin|Hin]; [congruence|].
    rewrite !length_app, (IH Hnd' Hin). lia.
Qed.

(** X30.  [handleSaveExperiment] changes nothing but the experiments of
    the studies: the studies keep their ids and their order, and the
    patients, the ontology and the configuration are kept.  Without a
    current study, a configuration or an ontology nothing is saved.
    Otherwise every study with the current id receives the new experiment
    at the head of its list and the others keep theirs, so that with
    distinct study ids and the current id among them the studies hold one
    experiment more.  The new experiment is COMPLETED, counts the patients
    of the state, and its high risk count is the first value of
    [riskDistribution]; its accuracy is the constant 0.85, whatever the
    patients. *)
Theorem handleSaveExperiment_adds_one (now : nat) (nowISO name : string)
        (tags : list string) (state : AppState) :
  let state' := handleSaveExperiment now nowISO name tags state in
  map study_id (app_studies state') = map study_id (app_studies state) /\
  app_patients state' = app_patients state /\
  app_ontology state' = app_ontology state /\
  app_cohortConfig state' = app_cohortConfig state /\
  (currentStudyId state = None \/
   currentStudyId state = Some EmptyString \/
   app_cohortConfig state = None \/ app_ontology state = None ->
   state' = state) /\
  (forall sid config ontology,
      currentStudyId state = Some sid -> sid <> EmptyString ->
      app_cohortConfig state = Some config ->
      app_ontology state = Some ontology ->
      exists e m,
        exp_status e = COMPLETED /\ exp_name e = name /\
        exp_config e = config /\ exp_ontology e = ontology /\
        exp_patientCount e = Z.of_nat (List.length (app_patients state)) /\
        exp_metrics e = Some m /\ metrics_accuracy m = 0.85 /\
        [metrics_highRiskCount m] =
        firstn 1 (riskDistribution (app_patients state)) /\
        Forall2 (fun s s' =>
                   study_experiments s' =
                   if String.eqb (study_id s) sid
                   then e :: study_experiments s
                   else study_experiments s)
                (app_studies state) (app_studies state') /\
        (NoDup (map study_id (app_studies state)) ->
         In sid (map study_id (app_studies state)) ->
         List.length (flat_map study_experiments (app_studies state')) =
         S (List.length
              (flat_map study_experiments (app_studies state))))).
Proof.
  cbv zeta. unfold handleSaveExperiment.
  destruct (currentStudyId state) as [[|c sid']|] eqn:Hid;
    [| |].
  1,3: repeat split; try reflexivity; intros; try discriminate;
       try congruence.
  destruct (app_cohortConfig state) as [config0|] eqn:Hcfg;
    [|repeat split; try reflexivity; intros; try discriminate;
      try congruence].
  destruct (app_ontology state) as [ontology0|] eqn:Hont;
    [|repeat split; try reflexivity; intros; try discriminate;
      try congruence].
  cbn [app_studies app_patients app_ontology app_cohortConfig].
  split.
  { rewrite map_map. apply map_ext. intro s.
    destruct (isCurrentStudy _ s); reflexivity. }
  split; [reflexivity|]. split; [reflexivity|]. split; [reflexivity|].
  split.
  { intros [H|[H|[H|H]]]; discriminate. }
  intros sid config ontology Hsid Hne Hc Ho.
  injection Hsid as <-. injection Hc as <-. injection Ho as <-.
  exists {| exp_id := "exp-" ++ decimal now;
            exp_name := name;
            exp_timestamp := nowISO;
            exp_tags := tags;
            exp_status := COMPLETED;
            exp_ontology := ontology0;
            exp_config := config0;
            exp_patientCount := Z.of_nat (List.length (app_patients state));
            exp_metrics := Some
              {| metrics_accuracy := 0.85;
                 metrics_precision := 0.82;
                 metrics_recall := 0.78;
                 metrics_highRiskCount :=
                   Z.of_nat (List.length
                               (filter (category_is High)
                                       (app_patients state))) |} |}.
  exists {| metrics_accuracy := 0.85;
            metrics_precision := 0.82;
            metrics_recall := 0.78;
            metrics_highRiskCount :=
              Z.of_nat (List.length
                          (filter (category_is High)
                                  (app_patients state))) |}.
  split; [reflexivity|]. split; [reflexivity|]. split; [reflexivity|].
  split; [reflexivity|]. split; [reflexivity|]. split; [reflexivity|].
  split; [reflexivity|]. split; [reflexivity|]. split.
  - induction (app_studies state) as [|s rest IH]; [constructor|].
    cbn [map]. constructor; [|exact IH].
    cbn [isCurrentStudy]. destruct (String.eqb (study_id s) _); reflexivity.
  - intros Hnd Hin. apply save_once; assumption.
Qed.

(** Witness of X30: one study, current, and the total fallback of the
    example cohort as patients. *)
Lemma handleSaveExperiment_adds_one_witness :
  List.length
    (flat_map study_experiments
       (app_studies
          (handleSaveExperiment 1700 "1970-01-01T00:00:01.700Z"
             "Baseline" ["v1"%string]
             {| currentStep := RESULTS;
                app_patients := map fallbackRecord exampleCohort;
                app_ontology := Some exampleOntology;
                app_cohortConfig := Some exampleConfig;
                app_studies :=
                  [{| study_id := "demo-study-1";
                      study_name := "Breast Cancer Transition Analysis Q1";
                      study_description := "";
                      study_categoryTags := ["Oncology"%string];
                      study_experiments := [];
                      study_createdAt := "1970-01-01T00:00:01.700Z" |}];
                currentStudyId := Some "demo-study-1"%string |}))) = 1%nat.
Proof.
  destruct (proj2 (proj2 (proj2 (proj2 (proj2
             (handleSaveExperiment_adds_one
                1700 "1970-01-01T00:00:01.700Z"
                "Baseline" ["v1"%string]
                {| currentStep := RESULTS;
                   app_patients := map fallbackRecord exampleCohort;
                   app_ontology := Some exampleOntology;
                   app_cohortConfig := Some exampleConfig;
                   app_studies :=
                     [{| study_id := "demo-study-1";
                         study_name :=
                           "Breast Cancer Transition Analysis Q1";
                         study_description := "";
                         study_categoryTags := ["Oncology"%string];
                         study_experiments := [];
                         study_createdAt :=
                           "1970-01-01T00:00:01.700Z" |}];
                   currentStudyId := Some "demo-study-1"%string |})))))
             "demo-study-1"%string exampleConfig exampleOntology
             eq_refl ltac:(discriminate) eq_refl eq_refl)
    as (e & m & _ & _ & _ & _ & _ & _ & _ & _ & _ & Hcount).
  apply Hcount.
  - cbn [map app_studies study_id]. repeat constructor. intros [].
  - left. reflexivity.
Defined.

(* ================================================================== *)
(** * Further concrete runs *)
(* ================================================================== *)

(** Witness of X13: the four subjects of the example TEST set. *)
Lemma topPatients_are_the_highest_scores_witness :
  List.length (topPatients exampleTestSet) = 4%nat /\
  StronglySorted (fun a b => scoreOrZero b <= scoreOrZero a)
                 (topPatients exampleTestSet).
Proof.
  destruct (topPatients_are_the_highest_scores exampleTestSet)
    as (Hlen & Hsorted & _).
  split; [exact Hlen|exact Hsorted].
Defined.

(** Witness of X20: a file without a date column. *)
Lemma processText_outcome_witness :
  unmatched ["Member ID"; "Dx Code"; "CPT"]%string
            (kw_date defaultColumnKeywords).
Proof.
  pose proof (processText_outcome rndHalf "1970-01-01T00:00:01.700Z"
                defaultColumnKeywords
                ("Member ID,Dx Code,CPT" ++
                 String lineFeed "P-1,C50.9,J9217")%string 0%nat) as H.
  cbv zeta in H.
  assert (E : processText rndHalf "1970-01-01T00:00:01.700Z"
                defaultColumnKeywords
                ("Member ID,Dx Code,CPT" ++
                 String lineFeed "P-1,C50.9,J9217")%string 0%nat =
              (MappingError
                 [("Date"%string, firstn 3 (kw_date defaultColumnKeywords))],
               0%nat))
    by (vm_compute; reflexivity).
  rewrite E in H. destruct H as (_ & _ & _ & _ & _ & _ & Hdate).
  apply Hdate. left. reflexivity.
Defined.

(** Witness of X22: the three subjects of the example, all on line 1. *)
Lemma stats_counts_witness :
  exists line1 line2 line3,
    stats_distribution (stats exampleCohort) =
      [("1st Line"%string, line1); ("2nd Line"%string, line2);
       ("3rd Line+"%string, line3)] /\
    (line1 + line2 + line3 = stats_total (stats exampleCohort))%Z.
Proof.
  destruct (stats_counts exampleCohort)
    as (l1 & l2 & l3 & Hd & _ & _ & _ & Hsum & _).
  exists l1, l2, l3. split; [exact Hd|]. apply Hsum.
  repeat constructor; vm_compute; discriminate.
Defined.

(** Witness of X23: every subject of the example is on line 1. *)
Lemma imbalance_rule_witness :
  stats_isImbalanced (stats exampleCohort) = true.
Proof.
  apply (proj2 (proj1 (imbalance_rule exampleCohort))).
  right. right. vm_compute. reflexivity.
Defined.

(** Witness of X28: the call of the engine is rejected. *)
Lemma parseResearchIntent_never_rejects_witness :
  parseResearchIntent (fun _ => Rejected) (fun _ => Throw)
                      "breast cancer on tamoxifen" =
  Normal fallbackOntology.
Proof.
  destruct (proj1 (parseResearchIntent_never_rejects
                     (fun _ => Rejected) (fun _ => Throw)
                     "breast cancer on tamoxifen" None
                     initialPresetState))
    as (result & Hrun & [(text & _ & Hg & _) | (Hres & _)] & _).
  - discriminate Hg.
  - rewrite Hrun, Hres. reflexivity.
Defined.
